(** * Carnet Digital (Universidad del Pacifico): card status, credentials, loans

    A shallow embedding of the JavaScript sources of the portal:
    - [js/utils.js]      : [Utils.sanitize], [Utils.validateCedula],
                           [Utils.validateStudentCode],
                           [Utils.formatDateToSpanish], [Utils.isPastDateYmd]
    - the staff page     : [StaffPage.isExpired], [StaffPage.isExpiringSoon],
                           the badge and the status filter of
                           [renderStudentList]; [StaffPanel.validateCode],
                           [StaffPanel.handleStudentSubmit],
                           [StaffPanel.handleResetStudentPassword],
                           [StaffPanel.handleStaffRegister],
                           [StaffPanel.deleteStaff], [StaffPanel.toCsv]
    - [js/api.js]        : [API.sha256], [API.loginStudent], [API.loginStaff],
                           [API.changeStudentPassword], [API.getByCode],
                           [API.createOrUpdate], [API.resetPassword],
                           [API.deleteStudent], [API.staffCreate],
                           [API.staffDelete], [API.staffResetPassword]
    - [js/loans.js]      : [LoansAPI.registerLoan], [LoansAPI.returnLoan],
                           [LoansAPI.validateStudent],
                           [LoansAPI.getActiveLoans],
                           [LoansAPI.getLoansHistory],
                           [LoansAPI.getStudentActiveLoans]
    - [js/staffLoans.js] : [StaffLoans.handleLoanSubmit]
    - [js/auth.js]       : [Auth.getSession], [Auth.setSession],
                           [Auth.clearSession], [Auth.logout],
                           [Auth.loginStudent], [Auth.loginStaff]
    - [js/login.js]      : [Login.onSubmit], the submit handler of the form
    - [js/card.js]       : [Card.encodeStudentData], [Card.decodeStudentData]

    Conventions of the embedding.
    - A JavaScript string is a [string] holding the UTF-8 bytes of the text.
      What the code does with single ASCII characters (digits, sign, [<],
      [>], the space of a long date) is read off the bytes as they are; the
      white space [trim] and [parseInt] strip and the code units [charCodeAt]
      reads are decoded from the bytes.
    - A JavaScript number that the code only uses as an integer or NaN is a
      [Num]: [Some z] or [None] for NaN.  Quotients are taken exactly.
    - The clock ([new Date()], [Date.now()]) and [gen_random_uuid()] are
      explicit arguments.
    - The hosted database is the three tables of the SQL script of the README,
      with the constraints declared there; a query is answered as that schema
      answers it (no transport failure is modelled).  A [password_history]
      column, of type JSONB, is read back as what was put there: NULL, the
      empty array of the column's DEFAULT, or the JSON string the code
      wrote with [JSON.stringify].
    - The local time zone has a fixed offset [LocalTZA] from UTC, as the zone
      of the university (America/Bogota) has. *)

From Stdlib Require Import ZArith Lia Bool Ascii.
From stdpp Require Import base option list strings gmap sorting.

Local Open Scope Z_scope.

(** ** The JavaScript built-ins the sources call *)

Module Js.

(** A number used as an integer, or NaN. *)
Definition Num : Type := option Z.

(** An [undefined]-able value. *)
Definition Undefinable (A : Type) : Type := option A.

(** The values an untyped parameter may hold. *)
Inductive Value : Type :=
| VUndefined
| VNull
| VBool (b : bool)
| VNumber (n : Num)
| VString (s : string).

(** [!v] is [negb (truthy v)]. *)
Definition truthy (v : Value) : bool :=
  match v with
  | VUndefined | VNull => false
  | VBool b => b
  | VNumber None => false
  | VNumber (Some n) => negb (n =? 0)
  | VString s => negb (String.eqb s "")
  end.

(** The completion of a call: a normal value or a thrown error. *)
Inductive Completion (A : Type) : Type :=
| Normal (a : A)
| Throw (message : string).
Arguments Normal {A} a.
Arguments Throw {A} message.

(** [a || b] on a possibly missing string: [undefined], [null] and the empty
    string are falsy. *)
Definition orElse (a : Undefinable string) (b : string) : string :=
  match a with
  | Some s => if String.eqb s "" then b else s
  | None => b
  end.

(** *** Strings *)

(** [s.includes(sub)] *)
Fixpoint includes (s sub : string) : bool :=
  String.prefix sub s ||
  match s with
  | EmptyString => false
  | String _ s' => includes s' sub
  end.

(** [s.split(sep)] for a one-character separator. *)
Fixpoint split (s : string) (sep : ascii) : list string :=
  match s with
  | EmptyString => [EmptyString]
  | String c s' =>
      if Ascii.eqb c sep then EmptyString :: split s' sep
      else match split s' sep with
           | [] => [String c EmptyString]
           | p :: ps => String c p :: ps
           end
  end.

(** [arr.indexOf(x)]: the first index holding a string strictly equal to [x],
    or -1; an [undefined] [x] equals no string. *)
Fixpoint indexOf_from (i : Z) (arr : list string) (x : string) : Z :=
  match arr with
  | [] => -1
  | a :: arr' => if String.eqb a x then i else indexOf_from (i + 1) arr' x
  end.

Definition indexOf (arr : list string) (x : Undefinable string) : Z :=
  match x with
  | Some s => indexOf_from 0 arr s
  | None => -1
  end.

(** [s.replace(/[<>]/g, '')] *)
Fixpoint removeAngles (s : string) : string :=
  match s with
  | EmptyString => EmptyString
  | String c s' =>
      if Ascii.eqb c "<"%char || Ascii.eqb c ">"%char then removeAngles s'
      else String c (removeAngles s')
  end.

(** The value of a digit character in radix 36 notation. *)
Definition digitValue (c : ascii) : option Z :=
  let n := Z.of_nat (nat_of_ascii c) in
  if (48 <=? n) && (n <=? 57) then Some (n - 48)
  else if (97 <=? n) && (n <=? 122) then Some (n - 87)
  else if (65 <=? n) && (n <=? 90) then Some (n - 55)
  else None.

(** The longest prefix of digits of the radix, as a number; [acc] is [None]
    until a digit has been read. *)
Fixpoint parseDigits (radix : Z) (acc : Num) (s : string) : Num :=
  match s with
  | EmptyString => acc
  | String c s' =>
      match digitValue c with
      | Some v =>
          if v <? radix
          then parseDigits radix (Some (radix * default 0 acc + v)) s'
          else acc
      | None => acc
      end
  end.

(** The number of a byte. *)
Definition byteOf (c : ascii) : Z := Z.of_nat (nat_of_ascii c).

(** *** White space

    The white space and the line terminators of the language, by the UTF-8
    bytes of the code point: TAB, LF, VT, FF, CR and SP take one byte; U+00A0
    takes two; U+1680, U+2000 to U+200A, U+2028, U+2029, U+202F, U+205F,
    U+3000 and U+FEFF take three. *)
Definition space1 (a : ascii) : bool := Ascii.is_space a.

Definition space2 (a b : ascii) : bool :=
  (byteOf a =? 194) && (byteOf b =? 160).

Definition space3 (a b c : ascii) : bool :=
  let x := byteOf a in
  let y := byteOf b in
  let z := byteOf c in
  ((x =? 225) && (y =? 154) && (z =? 128))
  || ((x =? 226) && (y =? 128)
      && (((128 <=? z) && (z <=? 138)) || (z =? 168) || (z =? 169)
          || (z =? 175)))
  || ((x =? 226) && (y =? 129) && (z =? 159))
  || ((x =? 227) && (y =? 128) && (z =? 128))
  || ((x =? 239) && (y =? 187) && (z =? 191)).

(** The text without the white space in front of it; [forward] tells
    whether the bytes come in reading order or, for the end of a text, last
    byte first. *)
Fixpoint stripSpace (forward : bool) (s : string) : string :=
  match s with
  | String a r1 =>
      if space1 a then stripSpace forward r1
      else
        match r1 with
        | String b r2 =>
            if (if forward then space2 a b else space2 b a)
            then stripSpace forward r2
            else
              match r2 with
              | String c r3 =>
                  if (if forward then space3 a b c else space3 c b a)
                  then stripSpace forward r3
                  else s
              | EmptyString => s
              end
        | EmptyString => s
        end
  | EmptyString => EmptyString
  end.

Definition trimStart (s : string) : string := stripSpace true s.

Definition trimEnd (s : string) : string :=
  String.rev (stripSpace false (String.rev s)).

(** [s.trim()] *)
Definition trim (s : string) : string := trimEnd (trimStart s).

(** The sign in front of the digits, and the text after it. *)
Definition readSign (s : string) : Z * string :=
  match s with
  | String c r =>
      if Ascii.eqb c "-" then (-1, r)
      else if Ascii.eqb c "+" then (1, r)
      else (1, s)
  | EmptyString => (1, s)
  end.

(** The radix a missing radix argument stands for: 16 after [0x] or [0X],
    which is stripped, else 10. *)
Definition readRadix (s : string) : Z * string :=
  match s with
  | String c (String x r) =>
      if Ascii.eqb c "0" && (Ascii.eqb x "x" || Ascii.eqb x "X")
      then (16, r) else (10, s)
  | _ => (10, s)
  end.

(** [parseInt(x)] with no radix: leading white space, a sign, [0x]/[0X] for
    radix 16, then the longest digit prefix; NaN when there is none.  An
    [undefined] argument reads as the text "undefined", hence NaN. *)
Definition parseInt (x : Undefinable string) : Num :=
  match x with
  | None => None
  | Some s =>
      let '(sign, s) := readSign (trimStart s) in
      let '(radix, s) := readRadix s in
      (fun n => sign * n) <$> parseDigits radix None s
  end.

Definition digitChar (d : Z) : ascii := ascii_of_nat (Z.to_nat (48 + d)).

(** The decimal digits of a non-negative integer, most significant first, in
    front of [acc]; [fuel] bounds the number of digits. *)
Fixpoint digitsOf (fuel : nat) (n : Z) (acc : string) : string :=
  let acc' := String (digitChar (n mod 10)) acc in
  match fuel with
  | O => acc'
  | S fuel' => if n <? 10 then acc' else digitsOf fuel' (n / 10) acc'
  end.

(** [String(n)] for an integer [n]. *)
Definition intToString (n : Z) : string :=
  if n <? 0
  then String "-"%char (digitsOf (Z.to_nat (Z.log2 (- n))) (- n) EmptyString)
  else digitsOf (Z.to_nat (Z.log2 n)) n EmptyString.

(** A number inside a template literal. *)
Definition numToString (n : Num) : string :=
  match n with
  | Some z => intToString z
  | None => "NaN"
  end.

(** [Math.ceil(a / b)] for integers [a] and [b > 0]. *)
Definition ceilDiv (a b : Z) : Z := - ((- a) / b).

(** [ToInt32] *)
Definition toInt32 (z : Z) : Z := (z + 2 ^ 31) mod 2 ^ 32 - 2 ^ 31.

(** A continuation byte of UTF-8. *)
Definition isContinuation (y : Z) : bool := (128 <=? y) && (y <? 192).

(** The UTF-16 code units of a text, which [charCodeAt] reads, decoded from
    its UTF-8 bytes: one unit for a code point on one, two or three bytes, a
    surrogate pair for one on four.  A byte that starts no sequence of that
    shape stands for itself. *)
Fixpoint codeUnits (s : string) : list Z :=
  match s with
  | EmptyString => []
  | String a r1 =>
      let x := byteOf a in
      if x <? 128 then x :: codeUnits r1
      else
        match r1 with
        | String b r2 =>
            let y := byteOf b in
            if (192 <=? x) && (x <? 224) && isContinuation y
            then ((x - 192) * 64 + (y - 128)) :: codeUnits r2
            else
              match r2 with
              | String c r3 =>
                  let z := byteOf c in
                  if (224 <=? x) && (x <? 240) && isContinuation y
                     && isContinuation z
                  then ((x - 224) * 4096 + (y - 128) * 64 + (z - 128))
                       :: codeUnits r3
                  else
                    match r3 with
                    | String d r4 =>
                        let w := byteOf d in
                        if (240 <=? x) && (x <? 248) && isContinuation y
                           && isContinuation z && isContinuation w
                        then
                          let point :=
                            (x - 240) * 262144 + (y - 128) * 4096
                            + (z - 128) * 64 + (w - 128) - 65536 in
                          (55296 + point / 1024) :: (56320 + point mod 1024)
                          :: codeUnits r4
                        else x :: codeUnits r1
                    | EmptyString => x :: codeUnits r1
                    end
              | EmptyString => x :: codeUnits r1
              end
        | EmptyString => x :: codeUnits r1
        end
  end.

(** The message of the SyntaxError [JSON.parse] throws on the empty text, as
    V8 words it; other engines word it differently. *)
Definition jsonEndOfInput : string := "Unexpected end of JSON input".

(** *** Dates (ECMA-262, Date objects) *)

Definition msPerDay : Z := 86400000.
Definition msPerHour : Z := 3600000.
Definition msPerMinute : Z := 60000.
Definition msPerSecond : Z := 1000.

Definition Day (t : Z) : Z := t / msPerDay.

Definition isLeapYear (y : Z) : bool :=
  (y mod 4 =? 0) && (negb (y mod 100 =? 0) || (y mod 400 =? 0)).

Definition DaysInYear (y : Z) : Z := if isLeapYear y then 366 else 365.

Definition DayFromYear (y : Z) : Z :=
  365 * (y - 1970) + (y - 1969) / 4 - (y - 1901) / 100 + (y - 1601) / 400.

(** The year a day number falls in: the largest [y] with
    [DayFromYear y <= d].  The estimate from the mean year length is off by at
    most one. *)
Definition YearFromDay (d : Z) : Z :=
  let y0 := 1970 + (400 * d) / 146097 in
  if d <? DayFromYear y0 then y0 - 1
  else if DayFromYear (y0 + 1) <=? d then y0 + 1
  else y0.

Definition YearFromTime (t : Z) : Z := YearFromDay (Day t).
Definition DayWithinYear (t : Z) : Z := Day t - DayFromYear (YearFromTime t).
Definition InLeapYear (t : Z) : Z :=
  if isLeapYear (YearFromTime t) then 1 else 0.

(** The day within the year on which month [m] (0 to 11) starts. *)
Definition monthStart (m leap : Z) : Z :=
  match m with
  | 0 => 0
  | 1 => 31
  | 2 => 59 + leap
  | 3 => 90 + leap
  | 4 => 120 + leap
  | 5 => 151 + leap
  | 6 => 181 + leap
  | 7 => 212 + leap
  | 8 => 243 + leap
  | 9 => 273 + leap
  | 10 => 304 + leap
  | _ => 334 + leap
  end.

Definition monthOfDayWithinYear (d leap : Z) : Z :=
  if d <? 31 then 0
  else if d <? 59 + leap then 1
  else if d <? 90 + leap then 2
  else if d <? 120 + leap then 3
  else if d <? 151 + leap then 4
  else if d <? 181 + leap then 5
  else if d <? 212 + leap then 6
  else if d <? 243 + leap then 7
  else if d <? 273 + leap then 8
  else if d <? 304 + leap then 9
  else if d <? 334 + leap then 10
  else 11.

Definition MonthFromTime (t : Z) : Z :=
  monthOfDayWithinYear (DayWithinYear t) (InLeapYear t).

Definition DateFromTime (t : Z) : Z :=
  DayWithinYear t + 1 - monthStart (MonthFromTime t) (InLeapYear t).

(** The number of days of month [m] (0 to 11) of year [y]. *)
Definition daysInMonth (y m : Z) : Z :=
  let leap := if isLeapYear y then 1 else 0 in
  if m =? 11 then 31 else monthStart (m + 1) leap - monthStart m leap.

(** [MakeDay(year, month, date)]; an out-of-range result is cut by
    [TimeClip]. *)
Definition MakeDay (year month date : Z) : Z :=
  let ym := year + month / 12 in
  let mn := month mod 12 in
  DayFromYear ym + monthStart mn (if isLeapYear ym then 1 else 0) + date - 1.

Definition MakeTime (hour min sec ms : Z) : Z :=
  hour * msPerHour + min * msPerMinute + sec * msPerSecond + ms.

Definition MakeDate (day time : Z) : Z := day * msPerDay + time.

Definition maxTime : Z := 8640000000000000.

Definition TimeClip (t : Z) : Num :=
  if Z.abs t <=? maxTime then Some t else None.

(** Sequencing of calls that may throw. *)
Definition bind {A B : Type} (c : Completion A) (k : A -> Completion B)
  : Completion B :=
  match c with
  | Normal a => k a
  | Throw m => Throw m
  end.

(** *** Reading the date-time string format *)

Definition readDigit (s : string) : option (Z * string) :=
  match s with
  | String c r =>
      match digitValue c with
      | Some v => if v <? 10 then Some (v, r) else None
      | None => None
      end
  | EmptyString => None
  end.

Definition read2 (s : string) : option (Z * string) :=
  match readDigit s with
  | Some (a, r) =>
      match readDigit r with
      | Some (b, r') => Some (10 * a + b, r')
      | None => None
      end
  | None => None
  end.

Definition read4 (s : string) : option (Z * string) :=
  match read2 s with
  | Some (a, r) =>
      match read2 r with
      | Some (b, r') => Some (100 * a + b, r')
      | None => None
      end
  | None => None
  end.

Definition expect (c : ascii) (s : string) : option string :=
  match s with
  | String c' r => if Ascii.eqb c' c then Some r else None
  | EmptyString => None
  end.

(** [YYYY-MM-DD] at the head of [s], with the month and the day in range:
    year, month (1 to 12), day, and the rest of the text. *)
Definition isoDate (s : string) : option (Z * Z * Z * string) :=
  match read4 s with
  | Some (y, r) =>
      match expect "-" r with
      | Some r =>
          match read2 r with
          | Some (m, r) =>
              match expect "-" r with
              | Some r =>
                  match read2 r with
                  | Some (d, r) =>
                      if (1 <=? m) && (m <=? 12) && (1 <=? d)
                         && (d <=? daysInMonth y (m - 1))
                      then Some (y, m, d, r) else None
                  | None => None
                  end
              | None => None
              end
          | None => None
          end
      | None => None
      end
  | None => None
  end.

(** [THH:mm] or [THH:mm:ss] and nothing after it, in range. *)
Definition isoTime (s : string) : option (Z * Z * Z) :=
  match expect "T" s with
  | Some r =>
      match read2 r with
      | Some (hh, r) =>
          match expect ":" r with
          | Some r =>
              match read2 r with
              | Some (mi, r) =>
                  let sec :=
                    match r with
                    | EmptyString => Some 0
                    | _ =>
                        match expect ":" r with
                        | Some r =>
                            match read2 r with
                            | Some (ss, EmptyString) => Some ss
                            | _ => None
                            end
                        | None => None
                        end
                    end in
                  match sec with
                  | Some ss =>
                      if (mi <=? 59) && (ss <=? 59)
                         && ((hh <=? 23) || ((hh =? 24) && (mi =? 0) && (ss =? 0)))
                      then Some (hh, mi, ss) else None
                  | None => None
                  end
              | None => None
              end
          | None => None
          end
      | None => None
      end
  | None => None
  end.

(** A calendar date followed by a time of day and no zone: the local
    date-time form of the date-time string format. *)
Definition isoLocalDateTime (s : string) : option (Z * Z * Z * (Z * Z * Z)) :=
  match isoDate s with
  | Some (y, m, d, r) =>
      match isoTime r with
      | Some hms => Some (y, m, d, hms)
      | None => None
      end
  | None => None
  end.

(** *** Date objects in a zone of fixed offset

    A Date object is its time value: milliseconds since the epoch, or NaN for
    an Invalid Date. *)

Section LocalZone.

(** The offset of local time from UTC, in milliseconds. *)
Variable LocalTZA : Z.

(** What [Date.parse] answers for any other text than the local date-times
    [isoLocalDateTime] reads: the remaining forms of the standard (a year
    alone or a year and a month before the time, fractions of a second, an
    offset) and whatever else the implementation accepts.  It is left
    unknown, so what is proved holds for every implementation. *)
Variable legacyDateParse : string -> Num.

Definition LocalTime (t : Z) : Z := t + LocalTZA.
Definition UTC (t : Z) : Z := t - LocalTZA.

(** [new Date(year, monthIndex, day)] *)
Definition Date_ymd (year monthIndex day : Num) : Num :=
  match year, monthIndex, day with
  | Some y, Some m, Some dt =>
      let yr := if (0 <=? y) && (y <=? 99) then 1900 + y else y in
      TimeClip (UTC (MakeDate (MakeDay yr m dt) (MakeTime 0 0 0 0)))
  | _, _, _ => None
  end.

(** [new Date(text)] *)
Definition Date_parse (text : string) : Num :=
  match isoLocalDateTime text with
  | Some (y, m, d, (hh, mi, ss)) =>
      TimeClip (UTC (MakeDate (MakeDay y (m - 1) d) (MakeTime hh mi ss 0)))
  | None => legacyDateParse text
  end.

Definition getDate (date : Num) : Num :=
  (fun t => DateFromTime (LocalTime t)) <$> date.

Definition getMonth (date : Num) : Num :=
  (fun t => MonthFromTime (LocalTime t)) <$> date.

Definition getFullYear (date : Num) : Num :=
  (fun t => YearFromTime (LocalTime t)) <$> date.

(** [date.setHours(0, 0, 0, 0)]: the time value it leaves in the object. *)
Definition setHours0 (date : Num) : Num :=
  match date with
  | Some t => TimeClip (UTC (MakeDate (Day (LocalTime t)) (MakeTime 0 0 0 0)))
  | None => None
  end.

End LocalZone.

(** [a < b] on numbers: false as soon as one is NaN. *)
Definition lessThan (a b : Num) : bool :=
  match a, b with
  | Some x, Some y => x <? y
  | _, _ => false
  end.

(** [a - b] on numbers. *)
Definition minus (a b : Num) : Num :=
  match a, b with
  | Some x, Some y => Some (x - y)
  | _, _ => None
  end.

(** [s.startsWith(p)] *)
Definition startsWith (s p : string) : bool := String.prefix p s.

(** [s.substring(n)] for a count [n] of characters. *)
Fixpoint substring (n : nat) (s : string) : string :=
  match n, s with
  | O, _ => s
  | S n', String _ r => substring n' r
  | S _, EmptyString => EmptyString
  end.

(** [\d] of a regular expression without the unicode flag. *)
Definition isDigit (c : ascii) : bool :=
  let n := Z.of_nat (nat_of_ascii c) in (48 <=? n) && (n <=? 57).

Fixpoint everyChar (p : ascii -> bool) (s : string) : bool :=
  match s with
  | EmptyString => true
  | String c r => p c && everyChar p r
  end.

(** [/^\d{lo,hi}$/.test(s)] *)
Definition testDigits (lo hi : nat) (s : string) : bool :=
  everyChar isDigit s
  && (lo <=? String.length s)%nat && (String.length s <=? hi)%nat.

End Js.

(** ** The tables of the database (SQL script of the README) *)

Module Gateway.

(** An entry of a password history: [{changedAt, changedBy}]. *)
Record HistoryEntry : Type := mkHistoryEntry {
  changedAt : Z;
  changedBy : string
}.

(** What a [password_history] column, of type JSONB, hands to the code:
    [null]; the empty array that the DEFAULT of the column puts in a row
    inserted without the column; or a string, the JSON text of an array of
    entries that the code wrote with [JSON.stringify], identified here with
    that array ([JSON.parse] of [JSON.stringify] of such an array is the
    array). *)
Inductive HistoryColumn : Type :=
| HistoryNull
| HistoryDefault
| HistoryText (entries : list HistoryEntry).

(** A row of [students]; its key [code] indexes the table. *)
Record StudentRow : Type := mkStudentRow {
  cedula : string;
  name : string;
  lastname : string;
  program : string;
  expiry : string;
  sede : string;
  rh : option string;
  photo : option string;
  password_hash : string;
  first_login : option bool;
  active : option bool;
  password_history : HistoryColumn;
  created_at : Z;
  updated_at : Z
}.

(** A row of [staff]; the table is indexed by the unique column [email]. *)
Record StaffRow : Type := mkStaffRow {
  staff_id : string;
  staff_name : string;
  staff_password_hash : string;
  staff_password_history : HistoryColumn;
  staff_created_at : Z;
  staff_updated_at : Z
}.

Inductive LoanStatus : Type := StatusActive | StatusReturned.

(** A row of [loans]; its key [id] indexes the table.  A timestamp column is
    the instant it denotes, in milliseconds since the epoch. *)
Record LoanRow : Type := mkLoanRow {
  student_code : string;
  student_name : string;
  category : string;
  item_type : string;
  item_description : option string;
  loan_staff_email : string;
  loan_staff_name : string;
  borrowed_at : Z;
  returned_at : option Z;
  status : LoanStatus;
  loan_created_at : Z
}.

Record DB : Type := mkDB {
  students : gmap string StudentRow;
  staff : gmap string StaffRow;
  loans : gmap string LoanRow
}.

(** The error object of a failed query. *)
Record PgError : Type := mkPgError {
  pg_code : string;
  pg_message : string
}.

Definition dq : string := String (ascii_of_nat 34) EmptyString.

(** [.single()] found no row, or several. *)
Definition noSingleRow : PgError :=
  mkPgError "PGRST116" "JSON object requested, multiple (or no) rows returned".

Definition foreignKeyViolation : PgError :=
  mkPgError "23503"
    ("insert or update on table " +:+ dq +:+ "loans" +:+ dq
     +:+ " violates foreign key constraint " +:+ dq
     +:+ "loans_student_code_fkey" +:+ dq).

Definition checkViolation : PgError :=
  mkPgError "23514"
    ("new row for relation " +:+ dq +:+ "loans" +:+ dq
     +:+ " violates check constraint " +:+ dq
     +:+ "loans_category_check" +:+ dq).

Definition uniqueViolation (constraint : string) : PgError :=
  mkPgError "23505"
    ("duplicate key value violates unique constraint " +:+ dq
     +:+ constraint +:+ dq).

(** [.single()] on the rows an equality filter on the key selects. *)
Definition single {A : Type} (row : option A) : PgError + A :=
  match row with
  | Some r => inr r
  | None => inl noSingleRow
  end.

(** A further [.eq(column, value)] on the rows already selected. *)
Definition andWhere {A : Type} (p : A -> bool) (row : option A) : option A :=
  match row with
  | Some r => if p r then Some r else None
  | None => None
  end.

(** [insert] into [loans]: the CHECK on [category], the primary key, then the
    foreign key to [students(code)]. *)
Definition insertLoan (id : string) (row : LoanRow) (db : DB)
  : (PgError + (string * LoanRow)) * DB :=
  if negb (String.eqb (category row) "biblioteca"
           || String.eqb (category row) "laboratorio")
  then (inl checkViolation, db)
  else match loans db !! id with
       | Some _ => (inl (uniqueViolation "loans_pkey"), db)
       | None =>
           match students db !! student_code row with
           | None => (inl foreignKeyViolation, db)
           | Some _ =>
               (inr (id, row),
                mkDB (students db) (staff db) (<[id := row]> (loans db)))
           end
       end.

(** [update(patch).eq('id', id).select()] on [loans]: the rows changed. *)
Definition updateLoan (id : string) (patch : LoanRow -> LoanRow) (db : DB)
  : option (string * LoanRow) * DB :=
  match loans db !! id with
  | Some row =>
      (Some (id, patch row),
       mkDB (students db) (staff db) (<[id := patch row]> (loans db)))
  | None => (None, db)
  end.

(** [update(patch).eq('code', code)] on [students]. *)
Definition updateStudent (code : string) (patch : StudentRow -> StudentRow)
    (db : DB) : DB :=
  mkDB (alter patch code (students db)) (staff db) (loans db).

(** [insert] into [students]. *)
Definition insertStudent (code : string) (row : StudentRow) (db : DB)
  : option PgError * DB :=
  match students db !! code with
  | Some _ => (Some (uniqueViolation "students_pkey"), db)
  | None => (None, mkDB (<[code := row]> (students db)) (staff db) (loans db))
  end.

(** [update(patch).eq('id', id)] on [staff]. *)
Definition updateStaffById (id : string) (patch : StaffRow -> StaffRow)
    (db : DB) : DB :=
  mkDB (students db)
       ((fun r => if String.eqb (staff_id r) id then patch r else r)
          <$> staff db)
       (loans db).

(** The rows of [staff] that [or(email.eq.E, id.eq.I)] selects, the filter
    being read as the disjunction it spells. *)
Definition selectStaffByEmailOrId (email id : string) (db : DB)
  : list (string * StaffRow) :=
  map_to_list
    (filter (fun kv => kv.1 = email \/ staff_id kv.2 = id) (staff db)).

(** The one row of an answer, for [.single()]. *)
Definition oneRow {A : Type} (rows : list A) : option A :=
  match rows with
  | [row] => Some row
  | _ => None
  end.

(** [insert] into [staff]: the primary key [id], then the UNIQUE [email]. *)
Definition insertStaff (email : string) (row : StaffRow) (db : DB)
  : option PgError * DB :=
  if bool_decide (map_Exists (fun _ r => staff_id r = staff_id row)
                    (staff db))
  then (Some (uniqueViolation "staff_pkey"), db)
  else match staff db !! email with
       | Some _ => (Some (uniqueViolation "staff_email_key"), db)
       | None =>
           (None, mkDB (students db) (<[email := row]> (staff db)) (loans db))
       end.

(** [delete().eq('code', code)] on [students]; the foreign key of [loans]
    is ON DELETE CASCADE, so the loans of the student go with it. *)
Definition deleteStudent (code : string) (db : DB) : DB :=
  match students db !! code with
  | Some _ =>
      mkDB (delete code (students db)) (staff db)
        (filter (fun kv => student_code kv.2 <> code) (loans db))
  | None => db
  end.

(** [delete().eq('email', email)] on [staff]. *)
Definition deleteStaff (email : string) (db : DB) : DB :=
  mkDB (students db) (delete email (staff db)) (loans db).

(** The text of the column [status]. *)
Definition statusText (st : LoanStatus) : string :=
  match st with
  | StatusActive => "active"
  | StatusReturned => "returned"
  end.

(** [order('borrowed_at', { ascending: false })] *)
Definition newestFirst (a b : string * LoanRow) : Prop :=
  borrowed_at b.2 <= borrowed_at a.2.

#[global] Instance newestFirst_dec : RelDecision newestFirst.
Proof. intros a b. unfold newestFirst. apply _. Defined.

(** [select('*')] on [loans] with the filters [p], newest first.  Among rows
    borrowed at the same instant the database fixes no order; here they come
    as the merge sort leaves them. *)
Definition selectLoans (p : LoanRow -> bool) (db : DB)
  : list (string * LoanRow) :=
  merge_sort newestFirst
    (filter (fun kv => p kv.2 = true) (map_to_list (loans db))).

End Gateway.

(** ** js/utils.js *)

Module Utils.

(** [sanitize(text)] *)
Definition sanitize (text : Js.Undefinable string) : string :=
  match text with
  | None => ""
  | Some s => Js.removeAngles s
  end.

(** [validateCedula(cedula)] *)
Definition validateCedula (cedula : string) : bool :=
  Js.testDigits 8 10 (Js.trim cedula).

(** [validateStudentCode(code)] *)
Definition validateStudentCode (code : string) : bool :=
  Js.testDigits 6 12 (Js.trim code).

Definition months : list string :=
  ["ENERO"; "FEBRERO"; "MARZO"; "ABRIL"; "MAYO"; "JUNIO"; "JULIO"; "AGOSTO";
   "SEPTIEMBRE"; "OCTUBRE"; "NOVIEMBRE"; "DICIEMBRE"].

(** [months[i]] inside a template literal. *)
Definition monthText (i : Js.Num) : string :=
  match i with
  | Some z => if z <? 0 then "undefined"
              else default "undefined" (months !! Z.to_nat z)
  | None => "undefined"
  end.

Section LocalZone.

Variable LocalTZA : Z.
Variable legacyDateParse : string -> Js.Num.

(** [formatDateToSpanish(dateString)] on the text of the date input.  No call
    of the [try] block throws on a string. *)
Definition formatDateToSpanish (dateString : string) : string :=
  if String.eqb dateString "" then ""
  else if Js.includes dateString " " then dateString
  else
    let date := Js.Date_parse LocalTZA legacyDateParse
                  (dateString +:+ "T00:00:00") in
    Js.numToString (Js.getDate LocalTZA date) +:+ " "
    +:+ monthText (Js.getMonth LocalTZA date) +:+ " "
    +:+ Js.numToString (Js.getFullYear LocalTZA date).

(** [isPastDateYmd(ymd)], called at the instant [now]. *)
Definition isPastDateYmd (now : Z) (ymd : string) : bool :=
  if String.eqb ymd "" then false
  else
    let today := Some now in
    let d := Js.Date_parse LocalTZA legacyDateParse (ymd +:+ "T00:00:00") in
    Js.lessThan d
      (Js.Date_ymd LocalTZA (Js.getFullYear LocalTZA today)
         (Js.getMonth LocalTZA today) (Js.getDate LocalTZA today)).

End LocalZone.

End Utils.

(** ** The staff page: card status *)

Module StaffPage.

Import Gateway.

Definition months : list string :=
  ["ENERO"; "FEBRERO"; "MARZO"; "ABRIL"; "MAYO"; "JUNIO"; "JULIO"; "AGOSTO";
   "SEPTIEMBRE"; "OCTUBRE"; "NOVIEMBRE"; "DICIEMBRE"].

Section LocalZone.

Variable LocalTZA : Z.
Variable legacyDateParse : string -> Js.Num.

(** The statements that compute [expiryDate], the same in [isExpired] and in
    [isExpiringSoon]: [None] when the variable stays [undefined], otherwise
    the Date object built. *)
Definition expiryDateOf (expiry : string) : Js.Undefinable Js.Num :=
  if Js.includes expiry " " then
    let parts := Js.split expiry " " in
    let monthIndex := Js.indexOf months (parts !! 1%nat) in
    if negb (monthIndex =? -1)
    then Some (Js.Date_ymd LocalTZA (Js.parseInt (parts !! 2%nat))
                 (Some monthIndex) (Js.parseInt (parts !! 0%nat)))
    else None
  else Some (Js.Date_parse LocalTZA legacyDateParse (expiry +:+ "T00:00:00")).

(** [expiry.includes(' ')] and what follows it up to [expiryDate]: only a
    string has the method. *)
Definition expiryDateOfValue (expiry : Js.Value)
  : Js.Completion (Js.Undefinable Js.Num) :=
  match expiry with
  | Js.VString s => Js.Normal (expiryDateOf s)
  | _ => Js.Throw "TypeError: expiry.includes is not a function"
  end.

(** The body of the [try] block of [isExpired]: [Some b] when it returns [b],
    [None] when control leaves the block without returning. *)
Definition isExpired_try (now : Z) (expiry : Js.Value)
  : Js.Completion (option bool) :=
  Js.bind (expiryDateOfValue expiry) (fun expiryDate =>
    match expiryDate with
    | Some date =>
        let today := Js.setHours0 LocalTZA (Some now) in
        let date := Js.setHours0 LocalTZA date in
        Js.Normal (Some (Js.lessThan date today))
    | None => Js.Normal None
    end).

(** [isExpired(expiry)], called at the instant [now]. *)
Definition isExpired (now : Z) (expiry : Js.Value) : Js.Completion bool :=
  if negb (Js.truthy expiry) then Js.Normal false
  else match isExpired_try now expiry with
       | Js.Normal (Some b) => Js.Normal b
       | Js.Normal None => Js.Normal false
       | Js.Throw _ => Js.Normal false
       end.

(** [Math.ceil((expiryDate - today) / (1000 * 60 * 60 * 24))] *)
Definition daysUntilExpiry (expiryDate : Js.Num) (today : Z) : Js.Num :=
  (fun diff => Js.ceilDiv diff (1000 * 60 * 60 * 24))
    <$> Js.minus expiryDate (Some today).

Definition isExpiringSoon_try (now : Z) (expiry : Js.Value)
  : Js.Completion (option bool) :=
  Js.bind (expiryDateOfValue expiry) (fun expiryDate =>
    match expiryDate with
    | Some date =>
        match daysUntilExpiry date now with
        | Some days => Js.Normal (Some ((0 <=? days) && (days <=? 30)))
        | None => Js.Normal (Some false)
        end
    | None => Js.Normal None
    end).

(** [isExpiringSoon(expiry)], called at the instant [now]. *)
Definition isExpiringSoon (now : Z) (expiry : Js.Value) : Js.Completion bool :=
  if negb (Js.truthy expiry) then Js.Normal false
  else match isExpiringSoon_try now expiry with
       | Js.Normal (Some b) => Js.Normal b
       | Js.Normal None => Js.Normal false
       | Js.Throw _ => Js.Normal false
       end.

(** The four badges of the student list. *)
Inductive StatusBadge : Type := INACTIVO | EXPIRADO | POR_VENCER | ACTIVO.

(** The badge [renderStudentList] gives a student [s]; the two calls read
    the clock one after the other, at [now] and at [later]. *)
Definition statusBadge (now later : Z) (s : StudentRow)
  : Js.Completion StatusBadge :=
  Js.bind (isExpired now (Js.VString (expiry s))) (fun expired =>
  Js.bind (isExpiringSoon later (Js.VString (expiry s))) (fun expiring =>
    let isActive := negb (bool_decide (active s = Some false)) in
    Js.Normal
      (if negb isActive then INACTIVO
       else if expired then EXPIRADO
       else if expiring then POR_VENCER
       else ACTIVO))).

End LocalZone.

End StaffPage.

(** ** js/api.js *)

Module API.

Import Gateway.

(** [sanitize(text)], the copy of js/api.js. *)
Definition sanitize (text : Js.Undefinable string) : string :=
  match text with
  | None => ""
  | Some s => Js.removeAngles s
  end.

(** The loop of the alternative hash over the code units of the text:
    [hash = (hash << 5) - hash + text.charCodeAt(i); hash |= 0]. *)
Fixpoint hashUnits (units : list Z) (hash : Z) : Z :=
  match units with
  | [] => hash
  | unit :: rest =>
      hashUnits rest (Js.toInt32 (Js.toInt32 (hash * 32) - hash + unit))
  end.

Definition fallbackHash (text : string) (hash : Z) : Z :=
  hashUnits (Js.codeUnits text) hash.

(** [history.slice(-10)] *)
Definition sliceLast10 {A : Type} (l : list A) : list A :=
  drop (length l - 10) l.

(** [existing.password_history ? JSON.parse(existing.password_history) : []]:
    [null] is falsy; a string is parsed; an array is truthy, and
    [JSON.parse] turns the empty array into the empty text, on which it
    throws. *)
Definition parseHistory (stored : HistoryColumn)
  : Js.Completion (list HistoryEntry) :=
  match stored with
  | HistoryNull => Js.Normal []
  | HistoryText entries => Js.Normal entries
  | HistoryDefault => Js.Throw Js.jsonEndOfInput
  end.

(** The two statements after it: push the entry, keep the last ten. *)
Definition pushHistory (history : list HistoryEntry)
    (entry : HistoryEntry) : list HistoryEntry :=
  let history := history ++ [entry] in
  if (10 <? Z.of_nat (length history)) then sliceLast10 history else history.

Definition invalidCredentials : string := "Credenciales inválidas".

Definition inactiveCard : string :=
  "Tu carnet está inactivo. Por favor, contacta con un funcionario para reactivarlo.".

Definition studentNotFound : string := "Estudiante no encontrado".
Definition staffNotFound : string := "Funcionario no encontrado".
Definition invalidStudentData : string := "Datos de estudiante inválidos".

(** The argument of [createOrUpdate]: every property may be missing. *)
Record StudentData : Type := mkStudentData {
  sd_code : Js.Undefinable string;
  sd_cedula : Js.Undefinable string;
  sd_name : Js.Undefinable string;
  sd_lastname : Js.Undefinable string;
  sd_program : Js.Undefinable string;
  sd_expiry : Js.Undefinable string;
  sd_sede : Js.Undefinable string;
  sd_rh : Js.Undefinable string;
  sd_photo : Js.Undefinable string;
  sd_active : Js.Undefinable bool
}.

Section Crypto.

(** [crypto.subtle.digest('SHA-256', ...)] rendered in hexadecimal, when the
    page has Web Crypto; [None] when the call throws. *)
Variable subtleDigest : option (string -> string).

(** [sha256(text)] *)
Definition sha256 (text : string) : string :=
  match subtleDigest with
  | Some digest => digest text
  | None => Js.intToString (Z.abs (fallbackHash text 0))
  end.

(** [AuthAPI.loginStudent(code, password)] *)
Definition loginStudent (code password : string) (db : DB)
  : Js.Completion (string * StudentRow) :=
  let passwordHash := sha256 password in
  let sanitizedCode := sanitize (Some code) in
  match single (andWhere (fun r => String.eqb (password_hash r) passwordHash)
                  (students db !! sanitizedCode)) with
  | inl _ => Js.Throw invalidCredentials
  | inr data =>
      if bool_decide (active data = Some false)
      then Js.Throw inactiveCard
      else Js.Normal (sanitizedCode, data)
  end.

(** [AuthAPI.loginStaff(email, password)] *)
Definition loginStaff (email password : string) (db : DB)
  : Js.Completion (string * StaffRow) :=
  let passwordHash := sha256 password in
  let sanitizedEmail := sanitize (Some email) in
  match single (andWhere
                  (fun r => String.eqb (staff_password_hash r) passwordHash)
                  (staff db !! sanitizedEmail)) with
  | inl _ => Js.Throw invalidCredentials
  | inr data => Js.Normal (sanitizedEmail, data)
  end.

(** [AuthAPI.changeStudentPassword(code, newPassword)] at the instant
    [now]. *)
Definition changeStudentPassword (now : Z) (code newPassword : string)
    (db : DB) : Js.Completion bool * DB :=
  let passwordHash := sha256 newPassword in
  let sanitizedCode := sanitize (Some code) in
  match students db !! sanitizedCode with
  | None => (Js.Throw studentNotFound, db)
  | Some existing =>
      match parseHistory (password_history existing) with
      | Js.Throw error => (Js.Throw error, db)
      | Js.Normal history =>
          let history := pushHistory history (mkHistoryEntry now "self") in
          (Js.Normal true,
           updateStudent sanitizedCode
             (fun r => mkStudentRow (cedula r) (name r) (lastname r)
                         (program r) (expiry r) (sede r) (rh r) (photo r)
                         passwordHash (Some false) (active r)
                         (HistoryText history) (created_at r) now)
             db)
      end
  end.

(** [StudentsAPI.getByCode(code)] *)
Definition getByCode (code : string) (db : DB)
  : Js.Undefinable (string * StudentRow) :=
  let sanitizedCode := sanitize (Some code) in
  (fun r => (sanitizedCode, r)) <$> students db !! sanitizedCode.

(** [StudentsAPI.createOrUpdate(studentData)] at the instant [now].  Neither
    the update nor the insert names [password_history]: an updated row keeps
    its own, a new row gets the DEFAULT of the column. *)
Definition createOrUpdate (now : Z) (studentData : Js.Undefinable StudentData)
    (db : DB) : Js.Completion (Js.Undefinable (string * StudentRow)) * DB :=
  match studentData with
  | None => (Js.Throw invalidStudentData, db)
  | Some sd =>
      if String.eqb (Js.orElse (sd_code sd) "") ""
      then (Js.Throw invalidStudentData, db)
      else
        let code := sanitize (sd_code sd) in
        let existing := students db !! code in
        let passwordDefault :=
          Js.orElse (sd_cedula sd) (Js.orElse (sd_code sd) "") in
        let passwordHash :=
          match existing with
          | Some row => password_hash row
          | None => sha256 passwordDefault
          end in
        let d_cedula := sanitize (Some (Js.orElse (sd_cedula sd) "")) in
        let d_name := sanitize (Some (Js.orElse (sd_name sd) "")) in
        let d_lastname := sanitize (Some (Js.orElse (sd_lastname sd) "")) in
        let d_program := sanitize (Some (Js.orElse (sd_program sd) "")) in
        let d_expiry := sanitize (Some (Js.orElse (sd_expiry sd) "")) in
        let d_sede := sanitize (Some (Js.orElse (sd_sede sd) "")) in
        let d_rh := sanitize (Some (Js.orElse (sd_rh sd) "")) in
        let d_photo :=
          match sd_photo sd with
          | Some p => if String.eqb p "" then None else Some p
          | None => None
          end in
        let d_active := default true (sd_active sd) in
        match existing with
        | Some _ =>
            let db' :=
              updateStudent code
                (fun r => mkStudentRow d_cedula d_name d_lastname d_program
                            d_expiry d_sede (Some d_rh) d_photo passwordHash
                            (first_login r) (Some d_active)
                            (password_history r) (created_at r) now)
                db in
            (Js.Normal (getByCode code db'), db')
        | None =>
            match insertStudent code
                    (mkStudentRow d_cedula d_name d_lastname d_program
                       d_expiry d_sede (Some d_rh) d_photo passwordHash
                       (Some true) (Some true) HistoryDefault now now)
                    db with
            | (Some error, db') => (Js.Throw (pg_message error), db')
            | (None, db') => (Js.Normal (getByCode code db'), db')
            end
        end
  end.

(** [StudentsAPI.resetPassword(code, newPassword, changedBy = 'staff')] at
    the instant [now]. *)
Definition resetPassword (now : Z) (code newPassword : string)
    (changedBy : Js.Undefinable string) (db : DB)
  : Js.Completion bool * DB :=
  let changedBy := default "staff" changedBy in
  let passwordHash := sha256 newPassword in
  let sanitizedCode := sanitize (Some code) in
  match students db !! sanitizedCode with
  | None => (Js.Throw studentNotFound, db)
  | Some existing =>
      match parseHistory (password_history existing) with
      | Js.Throw error => (Js.Throw error, db)
      | Js.Normal history =>
          let history := pushHistory history (mkHistoryEntry now changedBy) in
          (Js.Normal true,
           updateStudent sanitizedCode
             (fun r => mkStudentRow (cedula r) (name r) (lastname r)
                         (program r) (expiry r) (sede r) (rh r) (photo r)
                         passwordHash (Some true) (active r)
                         (HistoryText history) (created_at r) now)
             db)
      end
  end.

(** [StaffAPI.resetPassword(email, newPassword, changedBy = 'staff')] at the
    instant [now]. *)
Definition staffResetPassword (now : Z) (email newPassword : string)
    (changedBy : Js.Undefinable string) (db : DB)
  : Js.Completion bool * DB :=
  let changedBy := default "staff" changedBy in
  let passwordHash := sha256 newPassword in
  let sanitizedEmail := sanitize (Some email) in
  match staff db !! sanitizedEmail with
  | None => (Js.Throw staffNotFound, db)
  | Some existing =>
      match parseHistory (staff_password_history existing) with
      | Js.Throw error => (Js.Throw error, db)
      | Js.Normal history =>
          let history := pushHistory history (mkHistoryEntry now changedBy) in
          (Js.Normal true,
           updateStaffById (staff_id existing)
             (fun r => mkStaffRow (staff_id r) (staff_name r) passwordHash
                         (HistoryText history) (staff_created_at r) now)
             db)
      end
  end.

(** The argument of [StaffAPI.create]. *)
Record StaffData : Type := mkStaffData {
  st_id : Js.Undefinable string;
  st_name : Js.Undefinable string;
  st_email : string;
  st_password : string
}.

Definition staffAlreadyExists : string := "El funcionario ya existe".

Definition notInstitutional : string :=
  "Email debe ser institucional (@udp.edu o @unipacifico.edu.co)".

(** [StaffAPI.create(staffData)] at the instant [now]: what it resolves to
    (id, name, email) and the tables afterwards.  The insert names no
    [password_history]: the new row gets the DEFAULT of the column. *)
Definition staffCreate (now : Z) (staffData : StaffData) (db : DB)
  : Js.Completion (string * string * string) * DB :=
  if negb (Js.includes (st_email staffData) "@udp.edu")
     && negb (Js.includes (st_email staffData) "@unipacifico.edu.co")
  then (Js.Throw notInstitutional, db)
  else
    let id := Js.orElse (st_id staffData) (st_email staffData) in
    match single (oneRow (selectStaffByEmailOrId (st_email staffData) id db))
    with
    | inr _ => (Js.Throw staffAlreadyExists, db)
    | inl _ =>
        let passwordHash := sha256 (st_password staffData) in
        let email := sanitize (Some (st_email staffData)) in
        match insertStaff email
                (mkStaffRow id
                   (sanitize (Some (Js.orElse (st_name staffData) "")))
                   passwordHash HistoryDefault now now)
                db with
        | (Some error, db') =>
            (Js.Throw (Js.orElse (Some (pg_message error))
                         "Error al registrar"), db')
        | (None, db') =>
            match single (staff db' !! email) with
            | inr data => (Js.Normal (staff_id data, staff_name data, email),
                           db')
            | inl error =>
                (Js.Throw (Js.orElse (Some (pg_message error))
                             "Error al registrar"), db')
            end
        end
    end.

(** [StudentsAPI.delete(code)] *)
Definition deleteStudent (code : string) (db : DB)
  : Js.Completion bool * DB :=
  let sanitizedCode := sanitize (Some code) in
  (Js.Normal true, Gateway.deleteStudent sanitizedCode db).

(** [StaffAPI.delete(email)] *)
Definition staffDelete (email : string) (db : DB)
  : Js.Completion bool * DB :=
  let sanitizedEmail := sanitize (Some email) in
  (Js.Normal true, Gateway.deleteStaff sanitizedEmail db).

End Crypto.

End API.

(** ** js/loans.js *)

Module LoansAPI.

Import Gateway.

(** What every function of the module returns: [{success: true, data}] or
    [{success: false, error}]. *)
Inductive Result (A : Type) : Type :=
| Success (data : A)
| Failure (error : string).
Arguments Success {A} data.
Arguments Failure {A} error.

(** The argument of [registerLoan]. *)
Record LoanData : Type := mkLoanData {
  studentCode : string;
  studentName : string;
  loanCategory : string;
  itemType : string;
  itemDescription : Js.Undefinable string;
  staffEmail : string;
  staffName : string;
  borrowedAt : Js.Undefinable Z
}.

(** [registerLoan(loanData)] at the instant [now], which is also the
    [NOW()] of the database; [uuid] is the key the database draws for the
    row. *)
Definition registerLoan (uuid : string) (now : Z) (loanData : LoanData)
    (db : DB) : Result (string * LoanRow) * DB :=
  let borrowed := default now (borrowedAt loanData) in
  let description :=
    match itemDescription loanData with
    | Some d => if String.eqb d "" then None else Some d
    | None => None
    end in
  match insertLoan uuid
          (mkLoanRow (studentCode loanData) (studentName loanData)
             (loanCategory loanData) (itemType loanData) description
             (staffEmail loanData) (staffName loanData)
             borrowed None StatusActive now)
          db with
  | (inl error, db') => (Failure (pg_message error), db')
  | (inr data, db') => (Success data, db')
  end.

(** [returnLoan(loanId)] at the instant [now]. *)
Definition returnLoan (now : Z) (loanId : string) (db : DB)
  : Result (string * LoanRow) * DB :=
  let '(rows, db') :=
    updateLoan loanId
      (fun r => mkLoanRow (student_code r) (student_name r) (category r)
                  (item_type r) (item_description r) (loan_staff_email r)
                  (loan_staff_name r) (borrowed_at r)
                  (Some now) StatusReturned (loan_created_at r))
      db in
  match single rows with
  | inl error => (Failure (pg_message error), db')
  | inr data => (Success data, db')
  end.

Definition studentNotFound : string := "Estudiante no encontrado".

(** [validateStudent(studentCode)] *)
Definition validateStudent (studentCode : string) (db : DB)
  : Result (string * StudentRow) :=
  match single (students db !! studentCode) with
  | inl error =>
      if String.eqb (pg_code error) "PGRST116"
      then Failure studentNotFound
      else Failure (pg_message error)
  | inr data => Success (studentCode, data)
  end.

(** A row with the number of days the listings add to it. *)
Record ListedLoan : Type := mkListedLoan {
  listed_id : string;
  listed_row : LoanRow;
  listed_days : Z
}.

(** [getActiveLoans()] at the instant [now]: [days_borrowed] is
    [Math.floor((now - borrowed) / 1 day)]. *)
Definition getActiveLoans (now : Z) (db : DB) : Result (list ListedLoan) :=
  Success
    ((fun kv => mkListedLoan kv.1 kv.2
                  ((now - borrowed_at kv.2) / (1000 * 60 * 60 * 24)))
       <$> selectLoans
             (fun r => String.eqb (statusText (status r)) "active") db).

(** The argument of [getLoansHistory]. *)
Record LoanFilters : Type := mkLoanFilters {
  flt_category : Js.Undefinable string;
  flt_status : Js.Undefinable string;
  flt_studentCode : Js.Undefinable string
}.

(** [if (filters.x) query = query.eq(column, filters.x)] *)
Definition filterBy (wanted : Js.Undefinable string) (actual : string)
  : bool :=
  if String.eqb (Js.orElse wanted "") "" then true
  else String.eqb actual (Js.orElse wanted "").

(** [getLoansHistory(filters)] at the instant [now]: [days_duration] runs to
    the return of the loan, or to [now]. *)
Definition getLoansHistory (now : Z) (filters : LoanFilters) (db : DB)
  : Result (list ListedLoan) :=
  Success
    ((fun kv => mkListedLoan kv.1 kv.2
                  ((default now (returned_at kv.2) - borrowed_at kv.2)
                   / (1000 * 60 * 60 * 24)))
       <$> selectLoans
             (fun r => filterBy (flt_category filters) (category r)
                       && filterBy (flt_status filters)
                            (statusText (status r))
                       && filterBy (flt_studentCode filters)
                            (student_code r))
             db).

(** [getStudentActiveLoans(studentCode)] *)
Definition getStudentActiveLoans (studentCode : string) (db : DB)
  : Result (list (string * LoanRow)) :=
  Success
    (selectLoans
       (fun r => String.eqb (student_code r) studentCode
                 && String.eqb (statusText (status r)) "active")
       db).

End LoansAPI.

(** ** js/auth.js and js/login.js *)

Module Auth.

Import Gateway.

(** What [localStorage] holds under the key of the session: a text that
    [JSON.parse] rejects (or reads as [null]), or the JSON text of an object,
    identified with its properties: [expiresAt], a number or missing, and the
    others. *)
Inductive StoredSession (A : Type) : Type :=
| NotAnObject
| SessionObject (data : A) (expiresAt : option Z).
Arguments NotAnObject {A}.
Arguments SessionObject {A} data expiresAt.

(** [getSession()] at the instant [now]: the session returned and what the
    storage holds afterwards. *)
Definition getSession {A : Type} (now : Z) (storage : option (StoredSession A))
  : option (A * Z) * option (StoredSession A) :=
  match storage with
  | None => (None, storage)
  | Some NotAnObject => (None, storage)
  | Some (SessionObject data expiresAt) =>
      match expiresAt with
      | Some e =>
          if negb (e =? 0) && (now <? e) then (Some (data, e), storage)
          else (None, None)
      | None => (None, None)
      end
  end.

(** [setSession(sessionData)] at the instant [now]. *)
Definition setSession {A : Type} (now : Z) (sessionData : A)
    (storage : option (StoredSession A)) : option (StoredSession A) :=
  let expiresAt := now + 7 * 24 * 60 * 60 * 1000 in
  Some (SessionObject sessionData (Some expiresAt)).

(** [clearSession()] *)
Definition clearSession {A : Type} (storage : option (StoredSession A))
  : option (StoredSession A) :=
  None.

(** [logout()] *)
Definition logout {A : Type} (storage : option (StoredSession A))
  : option (StoredSession A) :=
  clearSession storage.

(** What [Auth.loginStudent] and [Auth.loginStaff] resolve to, as far as the
    login form reads it: the role and [user.firstLogin]. *)
Inductive LoginResult : Type :=
| StudentUser (code : string) (firstLogin : bool)
| StaffUser (email : string).

Section Crypto.

Variable subtleDigest : option (string -> string).

(** [Auth.loginStudent(code, password)], once js/api.js is loaded; the
    session it stores is not modelled. *)
Definition loginStudent (code password : string) (db : DB)
  : Js.Completion LoginResult :=
  Js.bind (API.loginStudent subtleDigest code password db) (fun student =>
    Js.Normal (StudentUser student.1
                 (bool_decide (first_login student.2 = Some true)))).

(** [Auth.loginStaff(email, password)] *)
Definition loginStaff (email password : string) (db : DB)
  : Js.Completion LoginResult :=
  Js.bind (API.loginStaff subtleDigest email password db) (fun member =>
    Js.Normal (StaffUser member.1)).

End Crypto.

End Auth.

Module Login.

Import Gateway.

Inductive Role : Type := RoleStudent | RoleStaff.

(** What the submit handler of the login form ends with. *)
Inductive View : Type :=
| Redirect (href : string)
| WarningModal (title message : string)
| ErrorModal (title message : string).

(** The [catch] block of the handler. *)
Definition onLoginError (message : string) : View :=
  if negb (String.eqb message "") && Js.includes message "inactivo"
  then ErrorModal "Carnet Inactivo"
         "Tu carnet está inactivo. Por favor, contacta con un funcionario para reactivarlo."
  else ErrorModal "Acceso denegado"
         (Js.orElse (Some message) "Credenciales inválidas").

Section Crypto.

Variable subtleDigest : option (string -> string).

(** The submit handler, once the scripts of the page are loaded; [idValue]
    and [pwdValue] are the values of the two inputs. *)
Definition onSubmit (role : Role) (idValue pwdValue : string) (db : DB)
  : View :=
  let id := Js.trim idValue in
  let pwd := Js.trim pwdValue in
  if String.eqb id "" || String.eqb pwd ""
  then WarningModal "Campos requeridos" "Completa todos los campos."
  else
    let res :=
      match role with
      | RoleStudent => Auth.loginStudent subtleDigest id pwd db
      | RoleStaff => Auth.loginStaff subtleDigest id pwd db
      end in
    match res with
    | Js.Normal (Auth.StaffUser _) => Redirect "html/staff.html"
    | Js.Normal (Auth.StudentUser _ firstLogin) =>
        if firstLogin then Redirect "html/student.html#first"
        else Redirect "html/student.html"
    | Js.Throw message => onLoginError message
    end.

End Crypto.

End Login.

(** ** js/staffLoans.js *)

Module StaffLoans.

Import Gateway.

(** The values of the loan form. *)
Record LoanForm : Type := mkLoanForm {
  f_category : string;
  f_studentCode : string;
  f_libraryItem : string;
  f_labItem : string;
  f_description : string;
  f_loanDate : Js.Undefinable string;
  f_loanTime : Js.Undefinable string
}.

(** The session of the browser, as far as the handler reads it. *)
Record Session : Type := mkSession {
  s_role : string;
  s_email : string;
  s_name : string
}.

Inductive Modal : Type :=
| ModalError (title message : string)
| ModalWarning (title message : string)
| ModalSuccess (title message : string).

Section LocalZone.

Variable LocalTZA : Z.
Variable legacyDateParse : string -> Js.Num.

(** The statements that prepare [borrowedAt]; [toISOString] throws on an
    Invalid Date. *)
Definition borrowedAtOf (form : LoanForm)
  : Js.Completion (Js.Undefinable Z) :=
  match f_loanDate form, f_loanTime form with
  | Some d, Some t =>
      if String.eqb d "" || String.eqb t "" then Js.Normal None
      else match Js.Date_parse LocalTZA legacyDateParse (d +:+ "T" +:+ t) with
           | Some instant => Js.Normal (Some instant)
           | None => Js.Throw "RangeError: Invalid time value"
           end
  | _, _ => Js.Normal None
  end.

(** [handleLoanSubmit(event)] at the instant [now], with [uuid] the key the
    database would draw for a new row and [session] what
    [window.Auth.getSession()] returns. *)
Definition handleLoanSubmit (uuid : string) (now : Z) (form : LoanForm)
    (session : option Session) (db : DB) : Js.Completion Modal * DB :=
  let category := f_category form in
  let studentCode := Js.trim (f_studentCode form) in
  let libraryItem := f_libraryItem form in
  let labItem := Js.trim (f_labItem form) in
  let description := Js.trim (f_description form) in
  match LoansAPI.validateStudent studentCode db with
  | LoansAPI.Failure error => (Js.Normal (ModalError "Error" error), db)
  | LoansAPI.Success student =>
      let itemType :=
        if String.eqb category "biblioteca" then libraryItem else labItem in
      if String.eqb itemType ""
      then (Js.Normal (ModalWarning "Falta información"
                         "Por favor seleccione o ingrese un ítem"), db)
      else
        match andWhere (fun s => String.eqb (s_role s) "staff") session with
        | None =>
            (Js.Normal (ModalError "Error"
                          "No se pudo obtener información del funcionario"),
             db)
        | Some session =>
            match borrowedAtOf form with
            | Js.Throw e => (Js.Throw e, db)
            | Js.Normal borrowedAt =>
                let loanData :=
                  LoansAPI.mkLoanData studentCode
                    (Js.trim (name student.2 +:+ " "
                           +:+ Js.orElse (Some (lastname student.2)) ""))
                    category itemType
                    (if String.eqb description "" then None
                     else Some description)
                    (s_email session) (s_name session) borrowedAt in
                match LoansAPI.registerLoan uuid now loanData db with
                | (LoansAPI.Success _, db') =>
                    (Js.Normal (ModalSuccess "Éxito"
                                  "Préstamo registrado exitosamente"), db')
                | (LoansAPI.Failure error, db') =>
                    (Js.Normal (ModalError "Error" error), db')
                end
            end
        end
  end.

End LocalZone.

End StaffLoans.

(** ** js/card.js *)

Module Card.

Import Gateway.

(** [encodeStudentData(data)], from the code of the student. *)
Definition encodeStudentData (code : string) : string := "UPAC-" +:+ code.

(** What [decodeStudentData] resolves to: the row of the student, or an
    object with the code alone. *)
Inductive Decoded : Type :=
| StudentData (code : string) (row : StudentRow)
| CodeOnly (code : string).

(** [decodeStudentData(encodedString)], once the client of the database is
    there. *)
Definition decodeStudentData (encodedString : string) (db : DB) : Decoded :=
  let code :=
    if Js.startsWith encodedString "UPAC-" then Js.substring 5 encodedString
    else encodedString in
  if String.eqb code "" then CodeOnly ""
  else match single (students db !! code) with
       | inr studentData => StudentData code studentData
       | inl _ => CodeOnly code
       end.

End Card.

(** ** The staff page: validator, student form, filters, export *)

Module StaffPanel.

Import Gateway.

(** What the validator shows for a scanned text. *)
Inductive ScanView : Type :=
| CarnetValido (code : string) (student : StudentRow)
| CarnetInactivo (code : string) (student : StudentRow)
| CarnetInvalido.

(** [validateCode(code)]: the modal shown, with the student whose fields
    its message prints. *)
Definition validateCode (code : string) (db : DB) : ScanView :=
  let studentCode :=
    if Js.startsWith code "UPAC-" then Js.substring 5 code else code in
  match API.getByCode studentCode db with
  | Some student =>
      let isActive := negb (bool_decide (active student.2 = Some false)) in
      if isActive then CarnetValido student.1 student.2
      else CarnetInactivo student.1 student.2
  | None => CarnetInvalido
  end.

(** [s.replace] of every double quote by two of them. *)
Fixpoint doubleQuotes (s : string) : string :=
  match s with
  | EmptyString => EmptyString
  | String c r =>
      if Ascii.eqb c (ascii_of_nat 34)
      then String c (String c (doubleQuotes r))
      else String c (doubleQuotes r)
  end.

(** [(value ?? '').toString()] *)
Definition valueText (value : Js.Value) : string :=
  match value with
  | Js.VUndefined | Js.VNull => ""
  | Js.VBool true => "true"
  | Js.VBool false => "false"
  | Js.VNumber n => Js.numToString n
  | Js.VString t => t
  end.

(** [r[h]] on an object given by its properties, in order. *)
Fixpoint property (r : list (string * Js.Value)) (h : string) : Js.Value :=
  match r with
  | [] => Js.VUndefined
  | (k, v) :: r' => if String.eqb k h then v else property r' h
  end.

(** [arr.join(sep)] *)
Fixpoint join (sep : string) (arr : list string) : string :=
  match arr with
  | [] => EmptyString
  | [x] => x
  | x :: rest => x +:+ sep +:+ join sep rest
  end.

(** The text [toCsv] writes for the property [h] of a row. *)
Definition csvCell (h : string) (value : Js.Value) : string :=
  if String.eqb h "photo" && Js.truthy value
  then dq +:+ "Foto incluida" +:+ dq
  else dq +:+ doubleQuotes (valueText value) +:+ dq.

(** [toCsv(rows)] *)
Definition toCsv (rows : list (list (string * Js.Value))) : string :=
  match rows with
  | [] => EmptyString
  | first :: _ =>
      let headers := fst <$> first in
      join (String (ascii_of_nat 10) EmptyString)
        (join "," headers
         :: ((fun r => join "," ((fun h => csvCell h (property r h))
                                   <$> headers)) <$> rows))
  end.


Section Page.

Variable LocalTZA : Z.
Variable legacyDateParse : string -> Js.Num.
Variable subtleDigest : option (string -> string).

(** [String.prototype.toUpperCase], left to the platform. *)
Variable toUpperCase : string -> string.

(** The block of [renderStudentList] that applies [filters.status] to a
    student: [true] when the student stays in the list.  The four tests of
    the block are on different values of [filters.status], so at most one
    applies; [isExpired] reads the clock at [now], [isExpiringSoon] at
    [later]. *)
Definition passesStatusFilter (status : string) (now later : Z)
    (s : StudentRow) : Js.Completion bool :=
  let isActive := negb (bool_decide (active s = Some false)) in
  if String.eqb status "" then Js.Normal true
  else if String.eqb status "inactive" then Js.Normal (negb isActive)
  else if String.eqb status "expired" then
    StaffPage.isExpired LocalTZA legacyDateParse now (Js.VString (expiry s))
  else if String.eqb status "expiring" then
    StaffPage.isExpiringSoon LocalTZA legacyDateParse later
      (Js.VString (expiry s))
  else if String.eqb status "active" then
    if negb isActive then Js.Normal false
    else
      Js.bind
        (StaffPage.isExpired LocalTZA legacyDateParse now
           (Js.VString (expiry s)))
        (fun expired =>
           if expired then Js.Normal false
           else
             Js.bind
               (StaffPage.isExpiringSoon LocalTZA legacyDateParse later
                  (Js.VString (expiry s)))
               (fun expiring => Js.Normal (negb expiring)))
  else Js.Normal true.


(** [handleResetStudentPassword()] at the instant [now]; [session] is what
    [window.Auth.getSession()] returns. *)
Definition handleResetStudentPassword (now : Z) (codeValue pwdValue : string)
    (session : option StaffLoans.Session) (db : DB)
  : StaffLoans.Modal * DB :=
  let code := Js.trim codeValue in
  let pwd := Js.trim pwdValue in
  if String.eqb code "" || String.eqb pwd ""
  then (StaffLoans.ModalWarning "Campos requeridos"
          "Ingresa código y nueva contraseña.", db)
  else
    let changedBy :=
      Js.orElse (StaffLoans.s_email <$> session) "staff" in
    match API.resetPassword subtleDigest now code pwd (Some changedBy) db with
    | (Js.Normal _, db') =>
        (StaffLoans.ModalSuccess "Listo"
           "Contraseña del estudiante actualizada.", db')
    | (Js.Throw message, db') =>
        (StaffLoans.ModalError "Error"
           (Js.orElse (Some message) "No se pudo actualizar"), db')
    end.


(** [window.deleteStaff(id)]; [confirmed] is the answer to the modal that
    asks, and no modal follows a refusal. *)
Definition deleteStaff (confirmed : bool) (id : string) (db : DB)
  : option StaffLoans.Modal * DB :=
  if negb confirmed then (None, db)
  else
    match API.staffDelete id db with
    | (Js.Normal _, db') =>
        (Some (StaffLoans.ModalSuccess "Eliminado"
                 "Funcionario eliminado correctamente."), db')
    | (Js.Throw message, db') =>
        (Some (StaffLoans.ModalError "Error"
                 (Js.orElse (Some message) "No se pudo eliminar")), db')
    end.

End Page.

End StaffPanel.

(** ** Vocabulary of the statements *)

(** [c] is the decimal digit of value [v]. *)
Definition decimalChar (c : ascii) (v : Z) : Prop :=
  Js.digitValue c = Some v /\ v < 10.

(** A text of decimal digits only. *)
Fixpoint allDecimal (s : string) : bool :=
  match s with
  | EmptyString => true
  | String c r =>
      match Js.digitValue c with
      | Some v => (v <? 10) && allDecimal r
      | None => false
      end
  end.


(** A text with no space in it. *)
Fixpoint noSpace (s : string) : bool :=
  match s with
  | EmptyString => true
  | String c r => negb (Ascii.eqb c " ") && noSpace r
  end.

(** The time value of the local midnight that starts day number [day]
    (days since the epoch, in local time). *)
Definition midnightOfDay (LocalTZA : Z) (day : Z) : Z :=
  Js.UTC LocalTZA (Js.MakeDate day (Js.MakeTime 0 0 0 0)).

(** The time value of the local midnight that starts day [d] of month [m]
    (1 to 12) of year [y]. *)
Definition localMidnight (LocalTZA : Z) (y m d : Z) : Z :=
  midnightOfDay LocalTZA (Js.MakeDay y (m - 1) d).

(** [s] is a calendar date written [YYYY-MM-DD]. *)
Definition isCalendarDate (s : string) (y m d : Z) : Prop :=
  Js.isoDate s = Some (y, m, d, EmptyString).

(** The last [n] elements of a list. *)
Definition lastN {A : Type} (n : nat) (l : list A) : list A :=
  drop (length l - n) l.

(** One call that changes or resets a password. *)
Inductive PasswordOp : Type :=
| ChangeStudentPassword (now : Z) (code newPassword : string)
| ResetStudentPassword (now : Z) (code newPassword : string)
    (changedBy : Js.Undefinable string)
| ResetStaffPassword (now : Z) (email newPassword : string)
    (changedBy : Js.Undefinable string).

(** The database after the call, whether the call resolved or threw. *)
Definition runOp (subtleDigest : option (string -> string))
    (db : Gateway.DB) (op : PasswordOp) : Gateway.DB :=
  match op with
  | ChangeStudentPassword now code pw =>
      (API.changeStudentPassword subtleDigest now code pw db).2
  | ResetStudentPassword now code pw by_ =>
      (API.resetPassword subtleDigest now code pw by_ db).2
  | ResetStaffPassword now email pw by_ =>
      (API.staffResetPassword subtleDigest now email pw by_ db).2
  end.

(** The database after a sequence of calls, one after the other. *)
Definition runOps (subtleDigest : option (string -> string))
    (ops : list PasswordOp) (db : Gateway.DB) : Gateway.DB :=
  foldl (runOp subtleDigest) db ops.

(** The history entry a call writes for the student of key [code], if the
    call is for that student. *)
Definition studentEntry (code : string) (op : PasswordOp)
  : option Gateway.HistoryEntry :=
  match op with
  | ChangeStudentPassword now c _ =>
      if String.eqb (API.sanitize (Some c)) code
      then Some (Gateway.mkHistoryEntry now "self") else None
  | ResetStudentPassword now c _ by_ =>
      if String.eqb (API.sanitize (Some c)) code
      then Some (Gateway.mkHistoryEntry now (default "staff" by_)) else None
  | ResetStaffPassword _ _ _ _ => None
  end.

(** The history entry a call writes for the staff member of key [email]. *)
Definition staffEntry (email : string) (op : PasswordOp)
  : option Gateway.HistoryEntry :=
  match op with
  | ResetStaffPassword now e _ by_ =>
      if String.eqb (API.sanitize (Some e)) email
      then Some (Gateway.mkHistoryEntry now (default "staff" by_)) else None
  | _ => None
  end.

(** The entries a [password_history] column holds. *)
Definition historyEntries (stored : Gateway.HistoryColumn)
  : list Gateway.HistoryEntry :=
  match stored with
  | Gateway.HistoryText entries => entries
  | Gateway.HistoryNull | Gateway.HistoryDefault => []
  end.

(** The history stored for a student or a staff member, as an array. *)
Definition studentHistory (db : Gateway.DB) (code : string)
  : list Gateway.HistoryEntry :=
  match Gateway.students db !! code with
  | Some row => historyEntries (Gateway.password_history row)
  | None => []
  end.

Definition staffHistory (db : Gateway.DB) (email : string)
  : list Gateway.HistoryEntry :=
  match Gateway.staff db !! email with
  | Some row => historyEntries (Gateway.staff_password_history row)
  | None => []
  end.

(** The column after a call for the principal, [entry] being the entry the
    call means to write: a column that cannot be parsed stays as it is. *)
Definition historyAfter (stored : Gateway.HistoryColumn)
    (entry : option Gateway.HistoryEntry) : Gateway.HistoryColumn :=
  match entry, API.parseHistory stored with
  | Some e, Js.Normal history =>
      Gateway.HistoryText (API.pushHistory history e)
  | _, _ => stored
  end.

(** What a password call resolves to or throws, with the database
    afterwards. *)
Definition callOp (subtleDigest : option (string -> string))
    (db : Gateway.DB) (op : PasswordOp)
  : Js.Completion bool * Gateway.DB :=
  match op with
  | ChangeStudentPassword now code pw =>
      API.changeStudentPassword subtleDigest now code pw db
  | ResetStudentPassword now code pw by_ =>
      API.resetPassword subtleDigest now code pw by_ db
  | ResetStaffPassword now email pw by_ =>
      API.staffResetPassword subtleDigest now email pw by_ db
  end.

(** The primary key of [staff]: no two rows share an [id]. *)
Definition staffIdsUnique (db : Gateway.DB) : Prop :=
  forall e1 e2 r1 r2,
    Gateway.staff db !! e1 = Some r1 -> Gateway.staff db !! e2 = Some r2 ->
    Gateway.staff_id r1 = Gateway.staff_id r2 -> e1 = e2.

(** Case analysis on a month index known to lie between 0 and 11. *)
Ltac month_cases m :=
  assert (m = 0 \/ m = 1 \/ m = 2 \/ m = 3 \/ m = 4 \/ m = 5 \/ m = 6
          \/ m = 7 \/ m = 8 \/ m = 9 \/ m = 10 \/ m = 11)
    as [-> | [-> | [-> | [-> | [-> | [-> | [-> | [-> | [-> | [-> | [-> | ->]]]]]]]]]]]
    by lia.

(** ** Data of the examples *)

(** A student row for the examples, its password history NULL. *)
Definition sampleStudent (expiry : string) (active : option bool)
  : Gateway.StudentRow :=
  Gateway.mkStudentRow "1006543210" "ANA" "Mosquera" "SISTEMAS" expiry
    "Buenaventura" (Some "O+") None "hash" (Some false) active
    Gateway.HistoryNull 0 0.

(** Noon of 1 January 2025 in the zone of offset -5 hours. *)
Definition sampleNow : Z := 1735750800000.

Definition sampleZone : Z := -18000000.

(** U+00A0, the no-break space a pasted or scanned code may carry. *)
Definition noBreakSpace : string :=
  String (ascii_of_nat 194) (String (ascii_of_nat 160) EmptyString).

(** An implementation of [Date.parse] that reads no other text than the
    local date-times of the standard's format. *)
Definition noLegacyParse : string -> Js.Num := fun _ => None.

(** An implementation of [Date.parse] that is lenient about the day, as V8
    is: in a text [YYYY-MM-DDTHH:mm] or [YYYY-MM-DDTHH:mm:ss] the day may be
    any of 1 to 31, and [MakeDay] carries the days the month does not have
    into the next one, so the 30th of February 2025 is the 2nd of March.  A
    month outside 1 to 12, a day outside 1 to 31 and any other text are
    refused. *)
Definition lenientDateParse (LocalTZA : Z) (text : string) : Js.Num :=
  match Js.read4 text with
  | Some (y, r) =>
      match Js.expect "-" r with
      | Some r =>
          match Js.read2 r with
          | Some (m, r) =>
              match Js.expect "-" r with
              | Some r =>
                  match Js.read2 r with
                  | Some (d, r) =>
                      match Js.isoTime r with
                      | Some (hh, mi, ss) =>
                          if (1 <=? m) && (m <=? 12) && (1 <=? d) && (d <=? 31)
                          then Js.TimeClip
                                 (Js.UTC LocalTZA
                                    (Js.MakeDate (Js.MakeDay y (m - 1) d)
                                       (Js.MakeTime hh mi ss 0)))
                          else None
                      | None => None
                      end
                  | None => None
                  end
              | None => None
              end
          | None => None
          end
      | None => None
      end
  | None => None
  end.

(** Noon of 10 February 2025 and of 1 April 2025 in the zone of offset
    -5 hours. *)
Definition sampleFebruary : Z := sampleNow + 40 * Js.msPerDay.
Definition sampleApril : Z := sampleNow + 90 * Js.msPerDay.

Definition sampleStaff : Gateway.StaffRow :=
  Gateway.mkStaffRow "F-01" "Luz Riascos" "hash" Gateway.HistoryNull 0 0.

Definition sampleLoan : Gateway.LoanRow :=
  Gateway.mkLoanRow "12300298" "ANA Mosquera" "biblioteca"
    "Computador portátil" None "luz@unipacifico.edu.co" "Luz Riascos"
    1000 (Some 2000) Gateway.StatusReturned 1000.

(** One student, one staff member and one loan already returned. *)
Definition sampleDB : Gateway.DB :=
  Gateway.mkDB
    {[ "12300298" := sampleStudent "31 DICIEMBRE 2025" (Some true) ]}
    {[ "luz@unipacifico.edu.co" := sampleStaff ]}
    {[ "loan-1" := sampleLoan ]}.

(** Fifteen resets of the password of the student, at the instants 1 to 15,
    and twelve of the staff member, at the instants 101 to 112. *)
Definition sampleResets : list PasswordOp :=
  ((fun t => ResetStudentPassword t "12300298" "secreto" None)
     <$> [1; 2; 3; 4; 5; 6; 7; 8; 9; 10; 11; 12; 13; 14; 15])
  ++ ((fun t => ResetStaffPassword t "luz@unipacifico.edu.co" "secreto"
                  (Some "admin"))
        <$> [101; 102; 103; 104; 105; 106; 107; 108; 109; 110; 111; 112]).

Definition sampleStudentData (cedula : Js.Undefinable string)
    (active : Js.Undefinable bool) (code : string) : API.StudentData :=
  API.mkStudentData (Some code) cedula (Some "ANA") (Some "Mosquera")
    (Some "SISTEMAS") (Some "31 DICIEMBRE 2026") (Some "Buenaventura")
    None None active.

Definition sampleLoanData (studentCode : string) : LoansAPI.LoanData :=
  LoansAPI.mkLoanData studentCode "ANA Mosquera" "biblioteca"
    "Computador portátil" None "luz@unipacifico.edu.co" "Luz Riascos" None.

(** One student whose password is the cedula, with the given [active]; the
    password history is the one a new row gets. *)
Definition loginDB (active : option bool) : Gateway.DB :=
  Gateway.mkDB
    {[ "12300298" :=
         Gateway.mkStudentRow "1006543210" "ANA" "Mosquera" "SISTEMAS"
           "31 DICIEMBRE 2025" "Buenaventura" None None
           (API.sha256 None "1006543210") (Some true) active
           Gateway.HistoryDefault 0 0 ]}
    ∅ ∅.

(** The tables of [sampleDB] after the application has registered the
    student "20250001", and fifteen resets of the password of that student,
    at the instants 1 to 15. *)
Definition createdDB : Gateway.DB :=
  (API.createOrUpdate None 9000
     (Some (sampleStudentData (Some "1098765432") None "20250001"))
     sampleDB).2.

Definition createdResets : list PasswordOp :=
  (fun t => ResetStudentPassword t "20250001" "secreto" None)
    <$> [1; 2; 3; 4; 5; 6; 7; 8; 9; 10; 11; 12; 13; 14; 15].

(** Noon of 1 January 2026 in the zone of offset -5 hours. *)
Definition sampleLater : Z := 1767286800000.

(** The [data] property of what a listing of js/loans.js returns: the rows,
    or the empty array beside an error. *)
Definition dataOf {A : Type} (r : LoansAPI.Result (list A)) : list A :=
  match r with
  | LoansAPI.Success l => l
  | LoansAPI.Failure _ => []
  end.

(** The number of milliseconds of a day, as js/loans.js writes it. *)
Definition dayLength : Z := 1000 * 60 * 60 * 24.

(** The loan form filled in for a library loan to the student [code]. *)
Definition sampleLoanForm (code : string) : StaffLoans.LoanForm :=
  StaffLoans.mkLoanForm "biblioteca" code "Libros" "" ""
    (Some "2025-01-01") (Some "10:30").

Definition sampleSession : StaffLoans.Session :=
  StaffLoans.mkSession "staff" "luz@unipacifico.edu.co" "Luz Riascos".




(** What the schema and the code keep true of [loans]: the student of a
    loan exists, its category is one of the two the CHECK allows, and it is
    returned exactly when it carries the instant of its return. *)
Definition dbConsistent (db : Gateway.DB) : Prop :=
  forall id row,
    Gateway.loans db !! id = Some row ->
    is_Some (Gateway.students db !! Gateway.student_code row)
    /\ (Gateway.category row = "biblioteca"
        \/ Gateway.category row = "laboratorio")
    /\ (Gateway.status row = Gateway.StatusReturned
        <-> is_Some (Gateway.returned_at row)).

(** One call of a function of js/api.js or js/loans.js that writes. *)
Inductive Operation : Type :=
| RegisterLoan (uuid : string) (now : Z) (loanData : LoansAPI.LoanData)
| ReturnLoan (now : Z) (loanId : string)
| SaveStudent (now : Z) (studentData : Js.Undefinable API.StudentData)
| UpdatePassword (op : PasswordOp)
| CreateStaff (now : Z) (staffData : API.StaffData)
| DeleteStudent (code : string)
| DeleteStaff (email : string).

(** The tables after the call, whether it succeeded or not. *)
Definition runOperation (subtleDigest : option (string -> string))
    (db : Gateway.DB) (op : Operation) : Gateway.DB :=
  match op with
  | RegisterLoan uuid now loanData =>
      (LoansAPI.registerLoan uuid now loanData db).2
  | ReturnLoan now loanId => (LoansAPI.returnLoan now loanId db).2
  | SaveStudent now studentData =>
      (API.createOrUpdate subtleDigest now studentData db).2
  | UpdatePassword op => runOp subtleDigest db op
  | CreateStaff now staffData =>
      (API.staffCreate subtleDigest now staffData db).2
  | DeleteStudent code => (API.deleteStudent code db).2
  | DeleteStaff email => (API.staffDelete email db).2
  end.

Definition runOperations (subtleDigest : option (string -> string))
    (ops : list Operation) (db : Gateway.DB) : Gateway.DB :=
  foldl (runOperation subtleDigest) db ops.

(** A loan registered and returned, a student saved and then deleted. *)
Definition sampleOperations : list Operation :=
  [RegisterLoan "loan-2" 7000 (sampleLoanData "12300298");
   ReturnLoan 8000 "loan-2";
   SaveStudent 9000
     (Some (sampleStudentData (Some "1098765432") None "20250001"));
   DeleteStudent "12300298"].

(** *** A reader of comma-separated values

    Fields are separated by commas and records by line feeds; a field that
    starts with a double quote runs to the next double quote that is not
    doubled, and stands for its text with every doubled quote read as
    one. *)

Inductive CsvMode : Type := FieldStart | Unquoted | Quoted | QuoteSeen.

Definition quoteChar : ascii := ascii_of_nat 34.
Definition lineFeed : ascii := ascii_of_nat 10.

(** The end of a field outside quotes: at [c], go on with what is left. *)
Definition csvSeparator (c : ascii) (field : string) (record : list string)
    (continue : list string -> option (list (list string)))
    (otherwise : option (list (list string)))
  : option (list (list string)) :=
  if Ascii.eqb c "," then continue (record ++ [field])
  else if Ascii.eqb c lineFeed
       then cons (record ++ [field]) <$> continue []
       else otherwise.

Fixpoint csvRead (mode : CsvMode) (field : string) (record : list string)
    (s : string) : option (list (list string)) :=
  match s with
  | EmptyString =>
      match mode with
      | Quoted => None
      | _ => Some [record ++ [field]]
      end
  | String c r =>
      match mode with
      | Quoted =>
          if Ascii.eqb c quoteChar then csvRead QuoteSeen field record r
          else csvRead Quoted (field +:+ String c EmptyString) record r
      | QuoteSeen =>
          if Ascii.eqb c quoteChar
          then csvRead Quoted (field +:+ String c EmptyString) record r
          else csvSeparator c field record
                 (fun record' => csvRead FieldStart EmptyString record' r)
                 None
      | FieldStart =>
          if Ascii.eqb c quoteChar then csvRead Quoted EmptyString record r
          else csvSeparator c field record
                 (fun record' => csvRead FieldStart EmptyString record' r)
                 (csvRead Unquoted (field +:+ String c EmptyString) record r)
      | Unquoted =>
          if Ascii.eqb c quoteChar then None
          else csvSeparator c field record
                 (fun record' => csvRead FieldStart EmptyString record' r)
                 (csvRead Unquoted (field +:+ String c EmptyString) record r)
      end
  end.

(** The records of a text; the empty text has none. *)
Definition readCsv (s : string) : option (list (list string)) :=
  if String.eqb s "" then Some [] else csvRead FieldStart EmptyString [] s.

(** A header a reader takes as it is: no comma, quote or line feed. *)
Definition plainHeader (h : string) : bool :=
  Js.everyChar
    (fun c => negb (Ascii.eqb c "," || Ascii.eqb c quoteChar
                    || Ascii.eqb c lineFeed))
    h.

(** The text of the cell [toCsv] writes for the property [h]. *)
Definition cellText (h : string) (value : Js.Value) : string :=
  if String.eqb h "photo" && Js.truthy value then "Foto incluida"
  else StaffPanel.valueText value.

(** Two students as [listAll] returns them, the first with a photo. *)
Definition sampleExport : list (list (string * Js.Value)) :=
  [[("code", Js.VString "12300298"); ("name", Js.VString "ANA");
    ("photo", Js.VString "data:image/png;base64,AAAA");
    ("active", Js.VBool true)];
   [("code", Js.VString "20250001");
    ("name", Js.VString ("LUIS " +:+ String quoteChar "LUCHO"
                         +:+ String quoteChar ", hijo"));
    ("photo", Js.VNull); ("active", Js.VBool false)]].

(** * Properties *)

(** ** The built-ins on concrete inputs *)

Example parseInt_samples :
  Js.parseInt (Some "2025") = Some 2025
  /\ Js.parseInt (Some " -12abc") = Some (-12)
  /\ Js.parseInt (Some "0x1F") = Some 31
  /\ Js.parseInt (Some "ENERO") = None
  /\ Js.parseInt None = None.
Proof. repeat split; reflexivity. Qed.

Example split_samples :
  Js.split "15 ENERO 2025" " " = ["15"; "ENERO"; "2025"]
  /\ Js.split "15  ENERO" " " = ["15"; ""; "ENERO"]
  /\ Js.split "2025-01-15" " " = ["2025-01-15"].
Proof. repeat split; reflexivity. Qed.

Example calendar_samples :
  Js.DayFromYear 1970 = 0
  /\ Js.MakeDay 2000 0 1 = 10957
  /\ Js.YearFromDay (-1) = 1969
  /\ Js.daysInMonth 2024 1 = 29
  /\ Js.daysInMonth 2100 1 = 28.
Proof. repeat split; reflexivity. Qed.

Example Date_samples :
  Js.Date_parse sampleZone noLegacyParse "2025-01-15T00:00:00"
  = Some 1736917200000
  /\ Js.Date_ymd sampleZone (Some 2025) (Some 0) (Some 15)
     = Some 1736917200000
  /\ Js.Date_ymd sampleZone (Some 2025) (Some 0) (Some 32)
     = Js.Date_ymd sampleZone (Some 2025) (Some 1) (Some 1)
  /\ Js.Date_ymd sampleZone None (Some 0) (Some 15) = None
  /\ Js.Date_parse sampleZone noLegacyParse "2025-02-30T00:00:00" = None
  /\ Js.Date_parse sampleZone (lenientDateParse sampleZone)
       "2025-02-30T00:00:00" = Some 1740891600000
  /\ Js.Date_parse sampleZone (lenientDateParse sampleZone)
       "2025-13-01T00:00:00" = None.
Proof. repeat split; vm_compute; reflexivity. Qed.

Example formatDateToSpanish_samples :
  Utils.formatDateToSpanish sampleZone noLegacyParse "2025-01-15"
  = "15 ENERO 2025"
  /\ Utils.formatDateToSpanish sampleZone noLegacyParse "15 ENERO 2025"
     = "15 ENERO 2025"
  /\ Utils.formatDateToSpanish sampleZone noLegacyParse "" = ""
  /\ Utils.formatDateToSpanish sampleZone noLegacyParse "2025-13-01"
     = "NaN undefined NaN".
Proof. repeat split; vm_compute; reflexivity. Qed.

Example sha256_fallback_samples :
  API.sha256 None "1006543210" = "1894649726"
  /\ API.sha256 None "12300298" = "1865200161"
  /\ API.sha256 None "contraseña" = "624705475"
  /\ API.sha256 (Some (fun text => "digest of " +:+ text)) "abc"
     = "digest of abc".
Proof. repeat split; vm_compute; reflexivity. Qed.

(** [trim] and [parseInt] strip the white space of the language, the
    no-break space of a pasted code included, and nothing else. *)
Example white_space_samples :
  Js.trim (noBreakSpace +:+ " 12300298" +:+ noBreakSpace) = "12300298"
  /\ Js.trim ("12 300" +:+ noBreakSpace +:+ "298")
     = "12 300" +:+ noBreakSpace +:+ "298"
  /\ Utils.validateCedula ("1098765432" +:+ noBreakSpace) = true
  /\ Utils.validateStudentCode (noBreakSpace +:+ "20250001") = true
  /\ Utils.validateStudentCode ("2025" +:+ noBreakSpace +:+ "0001") = false
  /\ Js.parseInt (Some (noBreakSpace +:+ "42")) = Some 42
  /\ Js.parseInt (Some "x42") = None.
Proof. repeat split; vm_compute; reflexivity. Qed.

Example status_samples :
  StaffPage.isExpired sampleZone noLegacyParse sampleNow
    (Js.VString "31 DICIEMBRE 2024") = Js.Normal true
  /\ StaffPage.isExpired sampleZone noLegacyParse sampleNow
       (Js.VString "1 ENERO 2025") = Js.Normal false
  /\ StaffPage.isExpiringSoon sampleZone noLegacyParse sampleNow
       (Js.VString "1 ENERO 2025") = Js.Normal true
  /\ StaffPage.isExpiringSoon sampleZone noLegacyParse sampleNow
       (Js.VString "31 ENERO 2025") = Js.Normal true
  /\ StaffPage.isExpiringSoon sampleZone noLegacyParse sampleNow
       (Js.VString "1 FEBRERO 2025") = Js.Normal false
  /\ StaffPage.isExpiringSoon sampleZone noLegacyParse sampleNow
       (Js.VNumber (Some 20250101)) = Js.Normal false.
Proof. repeat split; vm_compute; reflexivity. Qed.
(** ** Calendar arithmetic *)

Section CalendarFacts.

Import Js.

Lemma DayFromYear_succ y : DayFromYear (y + 1) - DayFromYear y = DaysInYear y.
Proof.
  unfold DayFromYear, DaysInYear, isLeapYear.
  destruct (Z.eqb_spec (y mod 4) 0); destruct (Z.eqb_spec (y mod 100) 0);
    destruct (Z.eqb_spec (y mod 400) 0); simpl; Z.div_mod_to_equations; lia.
Qed.

Lemma YearFromDay_spec d y :
  DayFromYear y <= d < DayFromYear (y + 1) -> YearFromDay d = y.
Proof.
  unfold YearFromDay. intros H.
  set (y0 := 1970 + 400 * d / 146097).
  assert (Hy0 : y - 1 <= y0 <= y + 1).
  { subst y0. unfold DayFromYear in H. Z.div_mod_to_equations; lia. }
  assert (Hm : forall a, DayFromYear a < DayFromYear (a + 1)).
  { intros a. pose proof (DayFromYear_succ a) as Ha. unfold DaysInYear in Ha.
    destruct (isLeapYear a); lia. }
  assert (y0 = y - 1 \/ y0 = y \/ y0 = y + 1) as [-> | [-> | ->]] by lia.
  - pose proof (Hm (y - 1)) as H1. replace (y - 1 + 1) with y in * by lia.
    destruct (Z.ltb_spec d (DayFromYear (y - 1))); [lia|].
    destruct (Z.leb_spec (DayFromYear y) d); lia.
  - destruct (Z.ltb_spec d (DayFromYear y)); [lia|].
    destruct (Z.leb_spec (DayFromYear (y + 1)) d); lia.
  - destruct (Z.ltb_spec d (DayFromYear (y + 1))); lia.
Qed.

Lemma Day_MakeDate n : Day (MakeDate n (MakeTime 0 0 0 0)) = n.
Proof.
  unfold Day, MakeDate, MakeTime, msPerDay, msPerHour, msPerMinute, msPerSecond.
  Z.div_mod_to_equations; lia.
Qed.

Lemma MakeDay_in_year y m d :
  0 <= m <= 11 -> 1 <= d <= daysInMonth y m ->
  MakeDay y m d
  = DayFromYear y + monthStart m (if isLeapYear y then 1 else 0) + d - 1
  /\ DayFromYear y <= MakeDay y m d < DayFromYear (y + 1).
Proof.
  intros Hm Hd. unfold MakeDay.
  replace (m / 12) with 0 by (Z.div_mod_to_equations; lia).
  replace (m mod 12) with m by (Z.div_mod_to_equations; lia).
  replace (y + 0) with y by lia. split; [reflexivity|].
  pose proof (DayFromYear_succ y) as Hs. unfold DaysInYear in Hs.
  unfold daysInMonth in Hd.
  month_cases m;
    destruct (isLeapYear y); simpl in *; lia.
Qed.

(** The calendar fields of the local midnight of a calendar date are the
    date's. *)
Lemma civil_fields y m d :
  0 <= m <= 11 -> 1 <= d <= daysInMonth y m ->
  let t := MakeDate (MakeDay y m d) (MakeTime 0 0 0 0) in
  YearFromTime t = y /\ MonthFromTime t = m /\ DateFromTime t = d.
Proof.
  intros Hm Hd t.
  destruct (MakeDay_in_year y m d Hm Hd) as [Hday Hrange].
  assert (Hy : YearFromTime t = y).
  { unfold YearFromTime, t. rewrite Day_MakeDate. by apply YearFromDay_spec. }
  assert (Hw : DayWithinYear t
               = monthStart m (if isLeapYear y then 1 else 0) + d - 1).
  { unfold DayWithinYear. rewrite Hy. unfold t. rewrite Day_MakeDate. lia. }
  assert (Hmon : MonthFromTime t = m).
  { unfold MonthFromTime, InLeapYear. rewrite Hw, Hy.
    unfold daysInMonth in Hd. unfold monthOfDayWithinYear.
    month_cases m;
      destruct (isLeapYear y); simpl in *;
      repeat match goal with
             | |- context [?a <? ?b] => destruct (Z.ltb_spec a b); try lia
             end. }
  split; [exact Hy|]. split; [exact Hmon|].
  unfold DateFromTime. rewrite Hmon, Hw. unfold InLeapYear. rewrite Hy. lia.
Qed.

End CalendarFacts.
(** ** Text: digits, splitting, [parseInt] *)

Section TextFacts.

Import Js.

Lemma append_cons c a b : String c a +:+ b = String c (a +:+ b).
Proof. reflexivity. Qed.

Lemma append_nil b : EmptyString +:+ b = b.
Proof. reflexivity. Qed.

Lemma digitValue_digitChar k :
  0 <= k <= 9 -> digitValue (digitChar k) = Some k.
Proof.
  intros Hk.
  assert (k = 0 \/ k = 1 \/ k = 2 \/ k = 3 \/ k = 4 \/ k = 5 \/ k = 6
          \/ k = 7 \/ k = 8 \/ k = 9)
    as [-> | [-> | [-> | [-> | [-> | [-> | [-> | [-> | [-> | ->]]]]]]]]]
    by lia; reflexivity.
Qed.

Lemma decimalChar_range c v : decimalChar c v -> 0 <= v <= 9.
Proof.
  unfold decimalChar, digitValue. intros [H Hv].
  repeat case_match; simplify_eq; lia.
Qed.

Lemma decimalChar_not_space c v : decimalChar c v -> Ascii.eqb c " " = false.
Proof.
  intros [H _]. destruct (Ascii.eqb_spec c " ") as [-> | ]; [|done].
  discriminate H.
Qed.

Lemma allDecimal_noSpace s : allDecimal s = true -> noSpace s = true.
Proof.
  induction s as [|c r IH]; [done|]. simpl.
  destruct (digitValue c) as [v|] eqn:Hc; [|done].
  intros [Hv Hr]%andb_true_iff. apply Z.ltb_lt in Hv.
  rewrite (decimalChar_not_space c v); [|by split]. simpl. by apply IH.
Qed.

Lemma includes_cons c r sub :
  includes (String c r) sub = String.prefix sub (String c r) || includes r sub.
Proof. reflexivity. Qed.

Lemma prefix_single a b r :
  String.prefix (String a EmptyString) (String b r) = Ascii.eqb a b.
Proof.
  cbn [String.prefix]. destruct (ascii_dec a b) as [-> | Hne].
  - rewrite Ascii.eqb_refl. by destruct r.
  - symmetry. by apply Ascii.eqb_neq.
Qed.

Lemma includes_noSpace s : noSpace s = true -> includes s " " = false.
Proof.
  induction s as [|c r IH]; [reflexivity|].
  cbn [noSpace]. intros [Hc Hr]%andb_true_iff. apply negb_true_iff in Hc.
  rewrite includes_cons, (IH Hr), prefix_single, Ascii.eqb_sym, Hc.
  reflexivity.
Qed.

Lemma includes_space_app a b : includes (a +:+ String " " b) " " = true.
Proof.
  induction a as [|c r IH].
  - rewrite append_nil, includes_cons, prefix_single. reflexivity.
  - rewrite append_cons, includes_cons, IH. apply orb_true_r.
Qed.

Lemma split_noSpace s : noSpace s = true -> split s " " = [s].
Proof.
  induction s as [|c r IH]; [done|]. simpl.
  intros [Hc Hr]%andb_true_iff. apply negb_true_iff in Hc.
  by rewrite Hc, (IH Hr).
Qed.

Lemma split_noSpace_app a b :
  noSpace a = true -> split (a +:+ String " " b) " " = a :: split b " ".
Proof.
  induction a as [|c r IH]; [done|]. rewrite append_cons. simpl.
  intros [Hc Hr]%andb_true_iff. apply negb_true_iff in Hc.
  by rewrite Hc, (IH Hr).
Qed.

Lemma allDecimal_digitsOf fuel n acc :
  0 <= n -> allDecimal acc = true -> allDecimal (digitsOf fuel n acc) = true.
Proof.
  revert n acc. induction fuel as [|fuel IH]; intros n acc Hn Hacc; simpl.
  - rewrite digitValue_digitChar by (Z.div_mod_to_equations; lia).
    rewrite Hacc. destruct (Z.ltb_spec (n mod 10) 10); [done|].
    Z.div_mod_to_equations; lia.
  - assert (Hd : allDecimal (String (digitChar (n mod 10)) acc) = true).
    { simpl. rewrite digitValue_digitChar by (Z.div_mod_to_equations; lia).
      rewrite Hacc. destruct (Z.ltb_spec (n mod 10) 10); [done|].
      Z.div_mod_to_equations; lia. }
    destruct (n <? 10); [exact Hd|].
    apply IH; [Z.div_mod_to_equations; lia | exact Hd].
Qed.

Lemma parseDigits_digitChar a k acc :
  0 <= k <= 9 -> (a = None \/ a = Some 0) ->
  parseDigits 10 a (String (digitChar k) acc) = parseDigits 10 (Some k) acc.
Proof.
  intros Hk Ha. simpl. rewrite digitValue_digitChar by done.
  destruct (Z.ltb_spec k 10); [|lia].
  by destruct Ha as [-> | ->].
Qed.

Lemma parseDigits_digitsOf fuel : forall n acc a,
  0 <= n < 2 ^ (Z.of_nat fuel + 1) -> (a = None \/ a = Some 0) ->
  parseDigits 10 a (digitsOf fuel n acc) = parseDigits 10 (Some n) acc.
Proof.
  induction fuel as [|fuel IH]; intros n acc a Hn Ha.
  - simpl in Hn. simpl digitsOf.
    replace (n mod 10) with n by (Z.div_mod_to_equations; lia).
    apply parseDigits_digitChar; [lia | done].
  - simpl digitsOf. destruct (Z.ltb_spec n 10).
    + replace (n mod 10) with n by (Z.div_mod_to_equations; lia).
      apply parseDigits_digitChar; [lia | done].
    + rewrite IH; [| |done].
      * simpl. rewrite digitValue_digitChar by (Z.div_mod_to_equations; lia).
        destruct (Z.ltb_spec (n mod 10) 10);
          [|Z.div_mod_to_equations; lia].
        simpl. f_equal. f_equal. Z.div_mod_to_equations; lia.
      * replace (Z.of_nat (S fuel) + 1) with (Z.succ (Z.of_nat fuel + 1))
          in Hn by lia.
        rewrite Z.pow_succ_r in Hn by lia.
        Z.div_mod_to_equations; lia.
Qed.

Lemma decimalChar_plain c v :
  decimalChar c v ->
  Ascii.is_space c = false /\ Ascii.eqb c "-" = false
  /\ Ascii.eqb c "+" = false /\ Ascii.eqb c "x" = false
  /\ Ascii.eqb c "X" = false.
Proof.
  intros [H Hv]. repeat split.
  - destruct (Ascii.is_space c) eqn:Hs; [|done]. exfalso.
    destruct c as [[] [] [] [] [] [] [] []]; try discriminate Hs;
      vm_compute in H; simplify_eq; lia.
  - destruct (Ascii.eqb_spec c "-") as [-> | ]; [discriminate H | done].
  - destruct (Ascii.eqb_spec c "+") as [-> | ]; [discriminate H | done].
  - destruct (Ascii.eqb_spec c "x") as [-> | ]; [|done].
    vm_compute in H. simplify_eq. lia.
  - destruct (Ascii.eqb_spec c "X") as [-> | ]; [|done].
    vm_compute in H. simplify_eq. lia.
Qed.

Lemma decimalChar_byte c v : decimalChar c v -> 48 <= byteOf c <= 57.
Proof.
  unfold decimalChar, digitValue, byteOf. intros [H Hv].
  repeat case_match; simplify_eq; lia.
Qed.

(** Stripping white space stops at an ASCII character that is none, from
    either end. *)
Lemma stripSpace_plain forward a r :
  space1 a = false -> byteOf a < 128 ->
  stripSpace forward (String a r) = String a r.
Proof.
  intros H1 Ha.
  assert (Heq : forall k, 128 <= k -> (byteOf a =? k) = false).
  { intros k Hk. apply Z.eqb_neq. revert Ha. generalize (byteOf a).
    intros x Hx. lia. }
  assert (Hle : (128 <=? byteOf a) = false).
  { apply Z.leb_gt. revert Ha. generalize (byteOf a). intros x Hx. lia. }
  assert (H2 : forall b, space2 a b = false /\ space2 b a = false).
  { intros b. unfold space2. rewrite !Heq by lia. by rewrite andb_false_r. }
  assert (H3 : forall b c, space3 a b c = false /\ space3 c b a = false).
  { intros b c. unfold space3. cbv zeta. rewrite !Heq, ?Hle by lia.
    split; [done|]. by repeat (rewrite ?andb_false_r; cbn [andb orb]). }
  destruct r as [|b [|c r3]]; cbn [stripSpace]; rewrite H1; [done| |].
  - destruct (H2 b) as [-> ->]. by destruct forward.
  - destruct (H2 b) as [-> ->]. destruct (H3 b c) as [-> ->].
    by destruct forward.
Qed.

(** A text of decimal digits reads as the digits in radix 10: no white space,
    no sign and no [0x] in front. *)
Lemma parseInt_allDecimal s :
  allDecimal s = true -> parseInt (Some s) = parseDigits 10 None s.
Proof.
  destruct s as [|c r]; [done|]. cbn [allDecimal].
  destruct (digitValue c) as [v|] eqn:Hc; [|done].
  intros [Hv Hr]%andb_true_iff. apply Z.ltb_lt in Hv.
  destruct (decimalChar_plain c v (conj Hc Hv)) as (Hs & Hm & Hp & _).
  assert (Hradix : readRadix (String c r) = (10, String c r)).
  { destruct r as [|c2 r2]; [done|]. cbn [allDecimal] in Hr.
    destruct (digitValue c2) as [v2|] eqn:Hc2; [|done].
    apply andb_true_iff in Hr as [Hv2 _]. apply Z.ltb_lt in Hv2.
    destruct (decimalChar_plain c2 v2 (conj Hc2 Hv2)) as (_ & _ & _ & Hx & HX).
    unfold readRadix. rewrite Hx, HX. by rewrite andb_false_r. }
  unfold parseInt, trimStart.
  rewrite stripSpace_plain
    by (done || (pose proof (decimalChar_byte c v (conj Hc Hv)); lia)).
  unfold readSign. rewrite Hm, Hp, Hradix.
  by destruct (parseDigits 10 None (String c r)) as [[]|].
Qed.

Lemma intToString_nonneg n :
  0 <= n ->
  allDecimal (intToString n) = true
  /\ parseInt (Some (intToString n)) = Some n.
Proof.
  intros Hn. unfold intToString. destruct (Z.ltb_spec n 0); [lia|].
  assert (Hall : allDecimal (digitsOf (Z.to_nat (Z.log2 n)) n EmptyString)
                 = true) by by apply allDecimal_digitsOf.
  split; [exact Hall|].
  rewrite parseInt_allDecimal by exact Hall.
  rewrite parseDigits_digitsOf; [done| |by left].
  rewrite Z2Nat.id by apply Z.log2_nonneg.
  destruct (Z.eq_dec n 0) as [-> | Hne]; [done|].
  split; [lia|]. apply Z.log2_spec. lia.
Qed.

Lemma removeAngles_idempotent s :
  Js.removeAngles (Js.removeAngles s) = Js.removeAngles s.
Proof.
  induction s as [|c r IH]; [done|]. cbn [Js.removeAngles].
  destruct (Ascii.eqb c "<" || Ascii.eqb c ">") eqn:Hc; [done|].
  cbn [Js.removeAngles]. by rewrite Hc, IH.
Qed.

End TextFacts.
(** ** The date-time string format *)

Section IsoFacts.

Import Js.

Lemma readDigit_inv s v r :
  readDigit s = Some (v, r) ->
  exists c, s = String c r /\ decimalChar c v.
Proof.
  destruct s as [|c s']; [done|]. unfold readDigit.
  destruct (digitValue c) as [w|] eqn:Hc; [|done].
  destruct (Z.ltb_spec w 10); [|done].
  intros [= <- <-]. exists c. by repeat split.
Qed.

Lemma readDigit_facts s v r t :
  readDigit s = Some (v, r) ->
  readDigit (s +:+ t) = Some (v, r +:+ t)
  /\ noSpace s = noSpace r /\ 0 <= v <= 9.
Proof.
  intros (c & -> & Hc)%readDigit_inv. repeat split.
  - rewrite append_cons. unfold readDigit. destruct Hc as [-> Hv].
    by destruct (Z.ltb_spec v 10); [|lia].
  - cbn [noSpace]. by rewrite (decimalChar_not_space c v).
  - by apply (decimalChar_range c).
  - by apply (decimalChar_range c).
Qed.

Lemma read2_facts s v r t :
  read2 s = Some (v, r) ->
  read2 (s +:+ t) = Some (v, r +:+ t)
  /\ noSpace s = noSpace r /\ 0 <= v <= 99.
Proof.
  unfold read2.
  destruct (readDigit s) as [[a r1]|] eqn:E1; [|done].
  destruct (readDigit r1) as [[b r2]|] eqn:E2; [|done].
  intros [= <- <-].
  destruct (readDigit_facts _ _ _ t E1) as (-> & -> & ?).
  destruct (readDigit_facts _ _ _ t E2) as (-> & -> & ?).
  repeat split; lia.
Qed.

Lemma read4_facts s v r t :
  read4 s = Some (v, r) ->
  read4 (s +:+ t) = Some (v, r +:+ t)
  /\ noSpace s = noSpace r /\ 0 <= v <= 9999.
Proof.
  unfold read4.
  destruct (read2 s) as [[a r1]|] eqn:E1; [|done].
  destruct (read2 r1) as [[b r2]|] eqn:E2; [|done].
  intros [= <- <-].
  destruct (read2_facts _ _ _ t E1) as (-> & -> & ?).
  destruct (read2_facts _ _ _ t E2) as (-> & -> & ?).
  repeat split; lia.
Qed.

Lemma expect_dash_facts s r t :
  expect "-" s = Some r ->
  expect "-" (s +:+ t) = Some (r +:+ t) /\ noSpace s = noSpace r.
Proof.
  destruct s as [|c s']; [done|]. unfold expect.
  destruct (Ascii.eqb_spec c "-") as [-> | ]; [|done].
  intros [= <-]. by rewrite append_cons.
Qed.

(** What a text that reads as a calendar date is made of. *)
Lemma isoDate_facts s y m d r t :
  isoDate s = Some (y, m, d, r) ->
  isoDate (s +:+ t) = Some (y, m, d, r +:+ t)
  /\ noSpace s = noSpace r /\ s <> EmptyString
  /\ 0 <= y <= 9999 /\ 1 <= m <= 12 /\ 1 <= d <= daysInMonth y (m - 1).
Proof.
  unfold isoDate.
  destruct (read4 s) as [[y' r1]|] eqn:E1; [|done].
  destruct (expect "-" r1) as [r2|] eqn:E2; [|done].
  destruct (read2 r2) as [[m' r3]|] eqn:E3; [|done].
  destruct (expect "-" r3) as [r4|] eqn:E4; [|done].
  destruct (read2 r4) as [[d' r5]|] eqn:E5; [|done].
  destruct ((1 <=? m') && (m' <=? 12) && (1 <=? d')
            && (d' <=? daysInMonth y' (m' - 1))) eqn:Hok; [|done].
  intros [= <- <- <- <-].
  assert (s <> EmptyString) by (intros ->; done).
  destruct (read4_facts _ _ _ t E1) as (-> & -> & ?).
  destruct (expect_dash_facts _ _ t E2) as (-> & ->).
  destruct (read2_facts _ _ _ t E3) as (-> & -> & ?).
  destruct (expect_dash_facts _ _ t E4) as (-> & ->).
  destruct (read2_facts _ _ _ t E5) as (-> & -> & ?).
  rewrite Hok.
  apply andb_true_iff in Hok as [[[Hm1 Hm2]%andb_true_iff Hd1]%andb_true_iff Hd2].
  repeat split; try done; lia.
Qed.

End IsoFacts.
(** ** The long form of a date and its parsing *)

Section RoundTrip.

Import Js.

Variable LocalTZA : Z.
Variable legacyDateParse : string -> Num.
Hypothesis zone_offset : - msPerDay < LocalTZA < msPerDay.

Lemma DayFromYear_bounds y :
  0 <= y <= 10000 -> -800000 <= DayFromYear y <= 3000000.
Proof. unfold DayFromYear. intros H. Z.div_mod_to_equations; lia. Qed.

Lemma localMidnight_clip y m d :
  0 <= y <= 9999 -> 1 <= m <= 12 -> 1 <= d <= daysInMonth y (m - 1) ->
  TimeClip (localMidnight LocalTZA y m d) = Some (localMidnight LocalTZA y m d).
Proof.
  intros Hy Hm Hd. unfold TimeClip.
  destruct (MakeDay_in_year y (m - 1) d) as [_ Hr]; [lia | done |].
  pose proof (DayFromYear_bounds y) as H1.
  pose proof (DayFromYear_bounds (y + 1)) as H2.
  destruct (Z.leb_spec (Z.abs (localMidnight LocalTZA y m d)) maxTime) as [|Hbad];
    [done|].
  exfalso. revert Hbad.
  unfold localMidnight, midnightOfDay, UTC, MakeDate, MakeTime, maxTime,
    msPerDay in *. lia.
Qed.

Lemma Date_parse_iso s y m d :
  isoDate s = Some (y, m, d, EmptyString) ->
  Date_parse LocalTZA legacyDateParse (s +:+ "T00:00:00")
  = Some (localMidnight LocalTZA y m d).
Proof.
  intros H.
  destruct (isoDate_facts s y m d EmptyString "T00:00:00" H)
    as (Happ & _ & _ & Hy & Hm & Hd).
  unfold Date_parse, isoLocalDateTime. rewrite Happ.
  change (isoTime (EmptyString +:+ "T00:00:00")) with (Some (0, 0, 0)).
  by apply localMidnight_clip.
Qed.

Lemma month_facts k :
  0 <= k <= 11 ->
  noSpace (Utils.monthText (Some k)) = true
  /\ indexOf StaffPage.months (Some (Utils.monthText (Some k))) = k.
Proof.
  intros Hk.
  month_cases k; split; reflexivity.
Qed.

Lemma formatDateToSpanish_iso s y m d :
  isoDate s = Some (y, m, d, EmptyString) ->
  Utils.formatDateToSpanish LocalTZA legacyDateParse s
  = intToString d +:+ String " " (Utils.monthText (Some (m - 1))
      +:+ String " " (intToString y)).
Proof.
  intros H.
  destruct (isoDate_facts s y m d EmptyString EmptyString H)
    as (_ & Hns & Hne & Hy & Hm & Hd).
  unfold Utils.formatDateToSpanish.
  destruct (String.eqb_spec s EmptyString) as [|_]; [done|].
  rewrite includes_noSpace by (by rewrite Hns).
  rewrite (Date_parse_iso s y m d H).
  unfold getDate, getMonth, getFullYear. cbn [fmap option_fmap option_map].
  assert (Hl : LocalTime LocalTZA (localMidnight LocalTZA y m d)
               = MakeDate (MakeDay y (m - 1) d) (MakeTime 0 0 0 0)).
  { unfold LocalTime, localMidnight, midnightOfDay, UTC. lia. }
  rewrite Hl.
  destruct (civil_fields y (m - 1) d) as (-> & -> & ->); [lia | done |].
  reflexivity.
Qed.

Lemma expiryDateOf_iso s y m d :
  isoDate s = Some (y, m, d, EmptyString) ->
  StaffPage.expiryDateOf LocalTZA legacyDateParse s
  = Some (Some (localMidnight LocalTZA y m d)).
Proof.
  intros H.
  destruct (isoDate_facts s y m d EmptyString EmptyString H)
    as (_ & Hns & _).
  unfold StaffPage.expiryDateOf.
  rewrite includes_noSpace by (by rewrite Hns).
  by rewrite (Date_parse_iso s y m d H).
Qed.

Lemma expiryDateOf_long y m d :
  0 <= y -> 1 <= m <= 12 -> 0 <= d ->
  StaffPage.expiryDateOf LocalTZA legacyDateParse
    (intToString d +:+ String " " (Utils.monthText (Some (m - 1))
       +:+ String " " (intToString y)))
  = Some (Date_ymd LocalTZA (Some y) (Some (m - 1)) (Some d)).
Proof.
  intros Hy Hm Hd.
  destruct (intToString_nonneg y Hy) as [Hya Hyp].
  destruct (intToString_nonneg d Hd) as [Hda Hdp].
  destruct (month_facts (m - 1)) as [Hmn Hmi]; [lia|].
  unfold StaffPage.expiryDateOf.
  rewrite includes_space_app.
  rewrite split_noSpace_app by (by apply allDecimal_noSpace).
  rewrite split_noSpace_app by done.
  rewrite split_noSpace by (by apply allDecimal_noSpace).
  cbn [lookup list_lookup].
  rewrite Hmi, Hyp, Hdp.
  destruct (Z.eqb_spec (m - 1) (-1)); [lia | done].
Qed.

End RoundTrip.
(** ** The card status engine *)

Section StatusFacts.

Import Js.

Variable LocalTZA : Z.
Variable legacyDateParse : string -> Num.

Local Abbreviation expiryDateOf := (StaffPage.expiryDateOf LocalTZA legacyDateParse).
Local Abbreviation isExpired := (StaffPage.isExpired LocalTZA legacyDateParse).
Local Abbreviation isExpiringSoon := (StaffPage.isExpiringSoon LocalTZA legacyDateParse).
Local Abbreviation statusBadge := (StaffPage.statusBadge LocalTZA legacyDateParse).

Lemma truthy_string e : e <> EmptyString -> truthy (VString e) = true.
Proof. intros He. simpl. by destruct (String.eqb_spec e EmptyString). Qed.

Lemma isExpired_string now e :
  e <> EmptyString ->
  isExpired now (VString e)
  = Normal match expiryDateOf e with
           | Some date =>
               lessThan (setHours0 LocalTZA date)
                        (setHours0 LocalTZA (Some now))
           | None => false
           end.
Proof.
  intros He. unfold StaffPage.isExpired, StaffPage.isExpired_try.
  rewrite truthy_string by done. cbn [negb StaffPage.expiryDateOfValue bind].
  by destruct (expiryDateOf e).
Qed.

Lemma isExpiringSoon_string now e :
  e <> EmptyString ->
  isExpiringSoon now (VString e)
  = Normal match expiryDateOf e with
           | Some (Some t) =>
               (0 <=? ceilDiv (t - now) msPerDay)
               && (ceilDiv (t - now) msPerDay <=? 30)
           | _ => false
           end.
Proof.
  intros He. unfold StaffPage.isExpiringSoon, StaffPage.isExpiringSoon_try.
  rewrite truthy_string by done. cbn [negb StaffPage.expiryDateOfValue bind].
  by destruct (expiryDateOf e) as [[t|]|].
Qed.

(** Neither function throws, whatever it is given. *)
Lemma status_functions_total now v :
  (exists b, isExpired now v = Normal b)
  /\ (exists b, isExpiringSoon now v = Normal b).
Proof.
  unfold StaffPage.isExpired, StaffPage.isExpiringSoon. split.
  - destruct (negb (truthy v)); [by eexists|].
    destruct (StaffPage.isExpired_try _ _ _ _) as [[b|]|]; by eexists.
  - destruct (negb (truthy v)); [by eexists|].
    destruct (StaffPage.isExpiringSoon_try _ _ _ _) as [[b|]|]; by eexists.
Qed.

Lemma Day_midnightOfDay day :
  Day (LocalTime LocalTZA (midnightOfDay LocalTZA day)) = day.
Proof.
  unfold midnightOfDay, LocalTime, UTC.
  replace (MakeDate day (MakeTime 0 0 0 0) - LocalTZA + LocalTZA)
    with (MakeDate day (MakeTime 0 0 0 0)) by lia.
  apply Day_MakeDate.
Qed.

(** A card that expires at the start of a later day is not expired. *)
Lemma not_expired_later_day now e k :
  e <> EmptyString -> 0 <= k ->
  expiryDateOf e
  = Some (Some (midnightOfDay LocalTZA (Day (LocalTime LocalTZA now) + k))) ->
  isExpired now (VString e) = Normal false.
Proof.
  intros He Hk Hd. rewrite isExpired_string, Hd by done. f_equal.
  unfold setHours0. rewrite Day_midnightOfDay.
  fold (midnightOfDay LocalTZA (Day (LocalTime LocalTZA now) + k)).
  fold (midnightOfDay LocalTZA (Day (LocalTime LocalTZA now))).
  unfold TimeClip. repeat case_match; try done. simpl.
  apply Z.ltb_ge. unfold midnightOfDay, UTC, MakeDate, msPerDay. lia.
Qed.

(** The number of days left before a card that expires [k] days from today:
    [k], at any time of the day. *)
Lemma ceilDiv_later_day now k :
  ceilDiv (midnightOfDay LocalTZA (Day (LocalTime LocalTZA now) + k) - now)
    msPerDay = k.
Proof.
  unfold ceilDiv, midnightOfDay, UTC, MakeDate, MakeTime, Day, LocalTime,
    msPerDay, msPerHour, msPerMinute, msPerSecond.
  Z.div_mod_to_equations; lia.
Qed.

(** The badge, read off the two predicates and the flag. *)
Lemma statusBadge_cases now later (s : Gateway.StudentRow) b1 b2 :
  isExpired now (VString (Gateway.expiry s)) = Normal b1 ->
  isExpiringSoon later (VString (Gateway.expiry s)) = Normal b2 ->
  statusBadge now later s
  = Normal (if bool_decide (Gateway.active s = Some false)
            then StaffPage.INACTIVO
            else if b1 then StaffPage.EXPIRADO
            else if b2 then StaffPage.POR_VENCER
            else StaffPage.ACTIVO).
Proof.
  intros H1 H2. unfold StaffPage.statusBadge. rewrite H1, H2. cbn [bind].
  by destruct (bool_decide (Gateway.active s = Some false)).
Qed.

End StatusFacts.
(** ** Claims on the card status engine *)

(** C1. The badge of a student follows the priority INACTIVO, EXPIRADO,
    POR VENCER, ACTIVO: a student whose [active] is [false] is INACTIVO
    whatever the expiry text; otherwise the student is EXPIRADO when
    [isExpired] holds, otherwise POR VENCER when [isExpiringSoon] holds,
    otherwise ACTIVO.  ([now] and [later] are the instants at which the two
    predicates read the clock.) *)
Theorem badge_priority (LocalTZA : Z) (legacyDateParse : string -> Js.Num)
    (now later : Z) (s : Gateway.StudentRow) :
  let expired := StaffPage.isExpired LocalTZA legacyDateParse now
                   (Js.VString (Gateway.expiry s)) in
  let expiring := StaffPage.isExpiringSoon LocalTZA legacyDateParse later
                    (Js.VString (Gateway.expiry s)) in
  let badge := StaffPage.statusBadge LocalTZA legacyDateParse now later s in
  (Gateway.active s = Some false -> badge = Js.Normal StaffPage.INACTIVO)
  /\ (Gateway.active s <> Some false -> expired = Js.Normal true ->
      badge = Js.Normal StaffPage.EXPIRADO)
  /\ (Gateway.active s <> Some false -> expired = Js.Normal false ->
      expiring = Js.Normal true -> badge = Js.Normal StaffPage.POR_VENCER)
  /\ (Gateway.active s <> Some false -> expired = Js.Normal false ->
      expiring = Js.Normal false -> badge = Js.Normal StaffPage.ACTIVO).
Proof.
  intros expired expiring badge. subst expired expiring badge.
  destruct (status_functions_total LocalTZA legacyDateParse now
              (Js.VString (Gateway.expiry s))) as [[b1 H1] _].
  destruct (status_functions_total LocalTZA legacyDateParse later
              (Js.VString (Gateway.expiry s))) as [_ [b2 H2]].
  rewrite (statusBadge_cases _ _ _ _ _ _ _ H1 H2), H1, H2. repeat split.
  - intros Ha. by rewrite bool_decide_eq_true_2.
  - intros Ha [= ->]. by rewrite bool_decide_eq_false_2.
  - intros Ha [= ->] [= ->]. by rewrite bool_decide_eq_false_2.
  - intros Ha [= ->] [= ->]. by rewrite bool_decide_eq_false_2.
Qed.

Lemma badge_priority_witness :
  StaffPage.statusBadge sampleZone noLegacyParse sampleNow (sampleNow + 1)
    (sampleStudent "31 DICIEMBRE 2024" (Some false))
  = Js.Normal StaffPage.INACTIVO
  /\ StaffPage.statusBadge sampleZone noLegacyParse sampleNow (sampleNow + 1)
       (sampleStudent "31 DICIEMBRE 2024" (Some true))
     = Js.Normal StaffPage.EXPIRADO
  /\ StaffPage.statusBadge sampleZone noLegacyParse sampleNow (sampleNow + 1)
       (sampleStudent "16 ENERO 2025" None)
     = Js.Normal StaffPage.POR_VENCER
  /\ StaffPage.statusBadge sampleZone noLegacyParse sampleNow (sampleNow + 1)
       (sampleStudent "2025-02-01" (Some true))
     = Js.Normal StaffPage.ACTIVO.
Proof.
  split; [|split; [|split]].
  - apply (badge_priority sampleZone noLegacyParse sampleNow (sampleNow + 1)
             (sampleStudent "31 DICIEMBRE 2024" (Some false))).
    reflexivity.
  - apply (badge_priority sampleZone noLegacyParse sampleNow (sampleNow + 1)
             (sampleStudent "31 DICIEMBRE 2024" (Some true))).
    + discriminate.
    + vm_compute; reflexivity.
  - apply (badge_priority sampleZone noLegacyParse sampleNow (sampleNow + 1)
             (sampleStudent "16 ENERO 2025" None)).
    + discriminate.
    + vm_compute; reflexivity.
    + vm_compute; reflexivity.
  - apply (badge_priority sampleZone noLegacyParse sampleNow (sampleNow + 1)
             (sampleStudent "2025-02-01" (Some true))).
    + discriminate.
    + vm_compute; reflexivity.
    + vm_compute; reflexivity.
Defined.

(** C6. For an expiry text that parses to the instant [t],
    [isExpiringSoon] holds exactly when
    [0 <= ceil((t - now) / 1 day) <= 30]; and a student with [active = true]
    whose card expires 15 days after today has the badge POR VENCER, one
    whose card expires 31 days after today has the badge ACTIVO, at whatever
    time of that day the two predicates read the clock. *)
Theorem expiring_soon_window (LocalTZA : Z)
    (legacyDateParse : string -> Js.Num) (now : Z) :
  let today := Js.Day (Js.LocalTime LocalTZA now) in
  (forall e t,
      e <> EmptyString ->
      StaffPage.expiryDateOf LocalTZA legacyDateParse e = Some (Some t) ->
      StaffPage.isExpiringSoon LocalTZA legacyDateParse now (Js.VString e)
      = Js.Normal true
      <-> 0 <= Js.ceilDiv (t - now) Js.msPerDay <= 30)
  /\ (forall later s,
         Js.Day (Js.LocalTime LocalTZA later) = today ->
         Gateway.active s = Some true ->
         Gateway.expiry s <> EmptyString ->
         StaffPage.expiryDateOf LocalTZA legacyDateParse (Gateway.expiry s)
         = Some (Some (midnightOfDay LocalTZA (today + 15))) ->
         StaffPage.statusBadge LocalTZA legacyDateParse now later s
         = Js.Normal StaffPage.POR_VENCER)
  /\ (forall later s,
         Js.Day (Js.LocalTime LocalTZA later) = today ->
         Gateway.active s = Some true ->
         Gateway.expiry s <> EmptyString ->
         StaffPage.expiryDateOf LocalTZA legacyDateParse (Gateway.expiry s)
         = Some (Some (midnightOfDay LocalTZA (today + 31))) ->
         StaffPage.statusBadge LocalTZA legacyDateParse now later s
         = Js.Normal StaffPage.ACTIVO).
Proof.
  intros today. subst today. split; [|split].
  - intros e t He Hd. rewrite isExpiringSoon_string, Hd by done. split.
    + intros [= [H1 H2]%andb_true_iff]. lia.
    + intros [H1 H2]. f_equal. apply andb_true_iff. split; lia.
  - intros later s Hday Ha He Hd.
    pose proof (not_expired_later_day LocalTZA legacyDateParse now
                  (Gateway.expiry s) 15 He ltac:(lia) Hd) as Hx.
    assert (Hs : StaffPage.isExpiringSoon LocalTZA legacyDateParse later
                   (Js.VString (Gateway.expiry s)) = Js.Normal true).
    { rewrite isExpiringSoon_string, Hd by done.
      by rewrite <- Hday, ceilDiv_later_day. }
    rewrite (statusBadge_cases _ _ _ _ _ _ _ Hx Hs), Ha.
    by rewrite bool_decide_eq_false_2.
  - intros later s Hday Ha He Hd.
    pose proof (not_expired_later_day LocalTZA legacyDateParse now
                  (Gateway.expiry s) 31 He ltac:(lia) Hd) as Hx.
    assert (Hs : StaffPage.isExpiringSoon LocalTZA legacyDateParse later
                   (Js.VString (Gateway.expiry s)) = Js.Normal false).
    { rewrite isExpiringSoon_string, Hd by done.
      by rewrite <- Hday, ceilDiv_later_day. }
    rewrite (statusBadge_cases _ _ _ _ _ _ _ Hx Hs), Ha.
    by rewrite bool_decide_eq_false_2.
Qed.

Lemma expiring_soon_window_witness :
  (StaffPage.isExpiringSoon sampleZone noLegacyParse sampleNow
     (Js.VString "31 ENERO 2025") = Js.Normal true
   <-> 0 <= Js.ceilDiv (1738299600000 - sampleNow) Js.msPerDay <= 30)
  /\ StaffPage.statusBadge sampleZone noLegacyParse sampleNow (sampleNow + 1)
       (sampleStudent "16 ENERO 2025" (Some true))
     = Js.Normal StaffPage.POR_VENCER
  /\ StaffPage.statusBadge sampleZone noLegacyParse sampleNow (sampleNow + 1)
       (sampleStudent "2025-02-01" (Some true))
     = Js.Normal StaffPage.ACTIVO.
Proof.
  split; [|split].
  - apply (expiring_soon_window sampleZone noLegacyParse sampleNow).
    + discriminate.
    + vm_compute; reflexivity.
  - apply (expiring_soon_window sampleZone noLegacyParse sampleNow).
    + vm_compute; reflexivity.
    + reflexivity.
    + discriminate.
    + vm_compute; reflexivity.
  - apply (expiring_soon_window sampleZone noLegacyParse sampleNow).
    + vm_compute; reflexivity.
    + reflexivity.
    + discriminate.
    + vm_compute; reflexivity.
Defined.

(** C7 (amended). For every calendar date of the year 100 or later, written
    [YYYY-MM-DD], the long Spanish form [formatDateToSpanish] gives it parses,
    with the parser of the status engine, to the same date: the local
    midnight that starts that day, which is also what the parser makes of the
    [YYYY-MM-DD] text itself, and whose year, month and day are the
    date's. *)
Theorem long_form_round_trip (LocalTZA : Z)
    (legacyDateParse : string -> Js.Num) (s : string) (y m d : Z) :
  - Js.msPerDay < LocalTZA < Js.msPerDay ->
  isCalendarDate s y m d ->
  100 <= y ->
  let parsed :=
    StaffPage.expiryDateOf LocalTZA legacyDateParse
      (Utils.formatDateToSpanish LocalTZA legacyDateParse s) in
  parsed = StaffPage.expiryDateOf LocalTZA legacyDateParse s
  /\ parsed = Some (Some (localMidnight LocalTZA y m d))
  /\ Js.getFullYear LocalTZA (Some (localMidnight LocalTZA y m d)) = Some y
  /\ Js.getMonth LocalTZA (Some (localMidnight LocalTZA y m d))
     = Some (m - 1)
  /\ Js.getDate LocalTZA (Some (localMidnight LocalTZA y m d)) = Some d.
Proof.
  intros Hz Hs Hy parsed. subst parsed.
  destruct (isoDate_facts s y m d EmptyString EmptyString Hs)
    as (_ & _ & _ & Hyr & Hm & Hd).
  rewrite (formatDateToSpanish_iso LocalTZA legacyDateParse Hz s y m d Hs).
  rewrite (expiryDateOf_long LocalTZA legacyDateParse y m d)
    by (try done; lia).
  rewrite (expiryDateOf_iso LocalTZA legacyDateParse Hz s y m d Hs).
  assert (Hymd : Js.Date_ymd LocalTZA (Some y) (Some (m - 1)) (Some d)
                 = Some (localMidnight LocalTZA y m d)).
  { unfold Js.Date_ymd.
    destruct (Z.leb_spec y 99); [lia|]. rewrite andb_false_r.
    by apply localMidnight_clip. }
  rewrite Hymd. split; [done|]. split; [done|].
  unfold Js.getFullYear, Js.getMonth, Js.getDate.
  cbn [fmap option_fmap option_map].
  assert (Hl : Js.LocalTime LocalTZA (localMidnight LocalTZA y m d)
               = Js.MakeDate (Js.MakeDay y (m - 1) d) (Js.MakeTime 0 0 0 0)).
  { unfold Js.LocalTime, localMidnight, midnightOfDay, Js.UTC. lia. }
  rewrite Hl.
  by destruct (civil_fields y (m - 1) d) as (-> & -> & ->); [lia | done |].
Qed.

Lemma long_form_round_trip_witness :
  StaffPage.expiryDateOf sampleZone noLegacyParse
    (Utils.formatDateToSpanish sampleZone noLegacyParse "2024-02-29")
  = StaffPage.expiryDateOf sampleZone noLegacyParse "2024-02-29"
  /\ StaffPage.expiryDateOf sampleZone noLegacyParse
       (Utils.formatDateToSpanish sampleZone noLegacyParse "2024-02-29")
     = Some (Some (localMidnight sampleZone 2024 2 29))
  /\ Js.getFullYear sampleZone (Some (localMidnight sampleZone 2024 2 29))
     = Some 2024
  /\ Js.getMonth sampleZone (Some (localMidnight sampleZone 2024 2 29))
     = Some (2 - 1)
  /\ Js.getDate sampleZone (Some (localMidnight sampleZone 2024 2 29))
     = Some 29.
Proof.
  apply (long_form_round_trip sampleZone noLegacyParse "2024-02-29" 2024 2 29).
  - vm_compute. split; reflexivity.
  - vm_compute. reflexivity.
  - vm_compute. discriminate.
Defined.

(** C7 as stated fails for the years 0 to 99: 15 June of the year 50 is
    written "15 JUNIO 50", which the parser reads as 15 June 1950. *)
Lemma round_trip_fails_before_year_100 :
  isCalendarDate "0050-06-15" 50 6 15
  /\ Utils.formatDateToSpanish sampleZone noLegacyParse "0050-06-15"
     = "15 JUNIO 50"
  /\ StaffPage.expiryDateOf sampleZone noLegacyParse "15 JUNIO 50"
     = Some (Some (localMidnight sampleZone 1950 6 15))
  /\ StaffPage.expiryDateOf sampleZone noLegacyParse
       (Utils.formatDateToSpanish sampleZone noLegacyParse "0050-06-15")
     <> StaffPage.expiryDateOf sampleZone noLegacyParse "0050-06-15".
Proof.
  split; [vm_compute; reflexivity|].
  split; [vm_compute; reflexivity|].
  split; [vm_compute; reflexivity|].
  vm_compute. discriminate.
Qed.

(** C8 (amended). The two predicates never throw, whatever value they are
    given, and they answer [false] for an expiry from which no date comes:
    the empty text, a text without a space that [Date] does not read, a text
    with a space whose second word is not one of the twelve month names, and
    more generally a text for which no date is built or an Invalid Date is.
    A text without a space that [Date] does read, be it a date the calendar
    does not have that a lenient implementation carries into the next month,
    is judged as the date read: expired when its local day is before today,
    expiring soon when it is 0 to 30 days away. *)
Theorem expiry_evaluation_total (LocalTZA : Z)
    (legacyDateParse : string -> Js.Num) (now : Z) :
  let expired := StaffPage.isExpired LocalTZA legacyDateParse now in
  let expiring := StaffPage.isExpiringSoon LocalTZA legacyDateParse now in
  (forall v, (exists b, expired v = Js.Normal b)
             /\ (exists b, expiring v = Js.Normal b))
  /\ (expired (Js.VString EmptyString) = Js.Normal false
      /\ expiring (Js.VString EmptyString) = Js.Normal false)
  /\ (forall s,
         Js.includes s " " = false ->
         Js.Date_parse LocalTZA legacyDateParse (s +:+ "T00:00:00") = None ->
         expired (Js.VString s) = Js.Normal false
         /\ expiring (Js.VString s) = Js.Normal false)
  /\ (forall s,
         Js.includes s " " = true ->
         Js.indexOf StaffPage.months (Js.split s " " !! 1%nat) = -1 ->
         expired (Js.VString s) = Js.Normal false
         /\ expiring (Js.VString s) = Js.Normal false)
  /\ (forall s,
         StaffPage.expiryDateOf LocalTZA legacyDateParse s = None
         \/ StaffPage.expiryDateOf LocalTZA legacyDateParse s = Some None ->
         expired (Js.VString s) = Js.Normal false
         /\ expiring (Js.VString s) = Js.Normal false)
  /\ (forall s t,
         s <> EmptyString ->
         Js.includes s " " = false ->
         Js.Date_parse LocalTZA legacyDateParse (s +:+ "T00:00:00") = Some t ->
         expired (Js.VString s)
         = Js.Normal (Js.lessThan (Js.setHours0 LocalTZA (Some t))
                        (Js.setHours0 LocalTZA (Some now)))
         /\ expiring (Js.VString s)
            = Js.Normal ((0 <=? Js.ceilDiv (t - now) Js.msPerDay)
                         && (Js.ceilDiv (t - now) Js.msPerDay <=? 30))).
Proof.
  intros expired expiring. subst expired expiring.
  assert (Hgen : forall s,
    StaffPage.expiryDateOf LocalTZA legacyDateParse s = None
    \/ StaffPage.expiryDateOf LocalTZA legacyDateParse s = Some None ->
    StaffPage.isExpired LocalTZA legacyDateParse now (Js.VString s)
    = Js.Normal false
    /\ StaffPage.isExpiringSoon LocalTZA legacyDateParse now (Js.VString s)
       = Js.Normal false).
  { intros s Hs. destruct (String.eqb_spec s EmptyString) as [-> | Hne].
    - by split.
    - rewrite isExpired_string, isExpiringSoon_string by done.
      by destruct Hs as [-> | ->]. }
  split; [apply status_functions_total|].
  split; [by split|].
  split; [|split; [|split; [exact Hgen|]]].
  - intros s Hi Hp. apply Hgen. right.
    unfold StaffPage.expiryDateOf. by rewrite Hi, Hp.
  - intros s Hi Hm. apply Hgen. left.
    unfold StaffPage.expiryDateOf. by rewrite Hi, Hm.
  - intros s t Hne Hi Hp.
    rewrite isExpired_string, isExpiringSoon_string by done.
    unfold StaffPage.expiryDateOf. by rewrite Hi, Hp.
Qed.

Lemma expiry_evaluation_total_witness :
  (StaffPage.isExpired sampleZone (lenientDateParse sampleZone) sampleNow
     (Js.VString "2024-13-45") = Js.Normal false
   /\ StaffPage.isExpiringSoon sampleZone (lenientDateParse sampleZone)
        sampleNow (Js.VString "2024-13-45") = Js.Normal false)
  /\ (StaffPage.isExpired sampleZone (lenientDateParse sampleZone) sampleNow
        (Js.VString "15 BRUMARIO 2025") = Js.Normal false
      /\ StaffPage.isExpiringSoon sampleZone (lenientDateParse sampleZone)
           sampleNow (Js.VString "15 BRUMARIO 2025") = Js.Normal false)
  /\ (StaffPage.isExpired sampleZone (lenientDateParse sampleZone) sampleNow
        (Js.VString "15 ENERO") = Js.Normal false
      /\ StaffPage.isExpiringSoon sampleZone (lenientDateParse sampleZone)
           sampleNow (Js.VString "15 ENERO") = Js.Normal false)
  /\ (StaffPage.isExpired sampleZone (lenientDateParse sampleZone) sampleNow
        (Js.VString "2025-02-30")
      = Js.Normal (Js.lessThan
                     (Js.setHours0 sampleZone (Some 1740891600000))
                     (Js.setHours0 sampleZone (Some sampleNow)))
      /\ StaffPage.isExpiringSoon sampleZone (lenientDateParse sampleZone)
           sampleNow (Js.VString "2025-02-30")
         = Js.Normal
             ((0 <=? Js.ceilDiv (1740891600000 - sampleNow) Js.msPerDay)
              && (Js.ceilDiv (1740891600000 - sampleNow) Js.msPerDay <=? 30))).
Proof.
  pose proof (expiry_evaluation_total sampleZone
                (lenientDateParse sampleZone) sampleNow) as H.
  cbv zeta in H. destruct H as (_ & _ & Hiso & Hlong & Hgen & Hread).
  split; [|split; [|split]].
  - apply Hiso; vm_compute; reflexivity.
  - apply Hlong; vm_compute; reflexivity.
  - apply Hgen. right. vm_compute; reflexivity.
  - apply Hread; [done | vm_compute; reflexivity ..].
Defined.

(** The claim as it was written fails on a malformed ISO date that the
    implementation reads: [2025-02-30] has no space and is not a date of the
    calendar, the standard's format does not read it, a lenient [Date] makes
    it the 2nd of March 2025, and the card is expired on the 1st of April and
    expiring soon on the 10th of February. *)
Lemma malformed_iso_date_is_judged :
  Js.includes "2025-02-30" " " = false
  /\ Js.isoLocalDateTime "2025-02-30T00:00:00" = None
  /\ Js.Date_parse sampleZone (lenientDateParse sampleZone)
       "2025-02-30T00:00:00"
     = Js.Date_ymd sampleZone (Some 2025) (Some 2) (Some 2)
  /\ StaffPage.isExpired sampleZone (lenientDateParse sampleZone) sampleApril
       (Js.VString "2025-02-30") = Js.Normal true
  /\ StaffPage.isExpiringSoon sampleZone (lenientDateParse sampleZone)
       sampleFebruary (Js.VString "2025-02-30") = Js.Normal true.
Proof. repeat split; vm_compute; reflexivity. Qed.

(** ** Password histories *)

Section HistoryFacts.

Import Gateway.

Context {A : Type}.

Lemma lastN_short n (l : list A) : (length l <= n)%nat -> lastN n l = l.
Proof.
  intros H. unfold lastN. by replace (length l - n)%nat with 0%nat by lia.
Qed.

Lemma lastN_length n (l : list A) : (length (lastN n l) <= n)%nat.
Proof. unfold lastN. rewrite length_drop. lia. Qed.

Lemma lastN_app_lastN n (l k : list A) :
  lastN n (lastN n l ++ k) = lastN n (l ++ k).
Proof.
  unfold lastN at 2.
  rewrite <- drop_app_le by lia.
  unfold lastN. rewrite drop_drop. f_equal.
  rewrite length_drop, !length_app. lia.
Qed.

Lemma lastN_app_long n (l k : list A) :
  (n <= length k)%nat -> lastN n (l ++ k) = lastN n k.
Proof.
  intros H. unfold lastN. rewrite length_app.
  replace (length l + length k - n)%nat
    with (length l + (length k - n))%nat by lia.
  by rewrite drop_app_add.
Qed.

End HistoryFacts.

Section PushFacts.

Import Gateway.

Lemma pushHistory_lastN history e :
  API.pushHistory history e = lastN 10 (history ++ [e]).
Proof.
  unfold API.pushHistory, API.sliceLast10.
  destruct (Z.ltb_spec 10 (Z.of_nat (length (history ++ [e])))); [done|].
  symmetry. apply lastN_short. lia.
Qed.

(** Pushing the entries one call after the other keeps the last ten of the
    whole history. *)
Lemma pushHistory_fold es : forall history,
  es <> [] ->
  foldl API.pushHistory history es = lastN 10 (history ++ es).
Proof.
  induction es as [|e es IH]; [done|]. intros history _. cbn [foldl].
  destruct es as [|e' es'].
  - cbn [foldl]. by rewrite pushHistory_lastN.
  - rewrite IH by done.
    rewrite pushHistory_lastN, lastN_app_lastN.
    by rewrite <- app_assoc.
Qed.

(** A column the code can parse, after the calls that write [es]. *)
Lemma historyAfter_fold es : forall stored,
  stored <> HistoryDefault -> es <> [] ->
  foldl (fun st e => historyAfter st (Some e)) stored es
  = HistoryText (lastN 10 (historyEntries stored ++ es)).
Proof.
  assert (Htext : forall es history,
             foldl (fun st e => historyAfter st (Some e))
               (HistoryText history) es
             = HistoryText (foldl API.pushHistory history es)).
  { intros es'. induction es' as [|e es' IH]; intros history; [done|].
    cbn [foldl historyAfter API.parseHistory]. apply IH. }
  intros [| |history] Hstored Hes; [|done|].
  - destruct es as [|e es]; [done|]. cbn [foldl historyAfter API.parseHistory].
    rewrite Htext. f_equal. cbn [historyEntries].
    change (API.pushHistory [] e) with (foldl API.pushHistory [] [e]).
    rewrite <- (foldl_app API.pushHistory [e] es).
    by rewrite pushHistory_fold.
  - rewrite Htext. f_equal. by apply pushHistory_fold.
Qed.

End PushFacts.
(** ** Password updates on the tables *)

Section PasswordOps.

Import Gateway.

Variable subtleDigest : option (string -> string).

(** A call for a principal whose column is the default of the schema throws
    in [JSON.parse] and writes nothing. *)
Lemma callOp_default_student db op code row :
  students db !! code = Some row ->
  password_history row = HistoryDefault ->
  is_Some (studentEntry code op) ->
  callOp subtleDigest db op = (Js.Throw Js.jsonEndOfInput, db).
Proof.
  intros Hrow Hcol [e He].
  destruct op as [now c pw | now c pw by_ | now m pw by_];
    cbn [studentEntry callOp] in *; [| |done].
  - destruct (String.eqb_spec (API.sanitize (Some c)) code) as [Heq|];
      [|done].
    unfold API.changeStudentPassword. by rewrite Heq, Hrow, Hcol.
  - destruct (String.eqb_spec (API.sanitize (Some c)) code) as [Heq|];
      [|done].
    unfold API.resetPassword. by rewrite Heq, Hrow, Hcol.
Qed.

Lemma callOp_default_staff db op email row :
  staff db !! email = Some row ->
  staff_password_history row = HistoryDefault ->
  is_Some (staffEntry email op) ->
  callOp subtleDigest db op = (Js.Throw Js.jsonEndOfInput, db).
Proof.
  intros Hrow Hcol [e He].
  destruct op as [now c pw | now c pw by_ | now m pw by_];
    cbn [staffEntry callOp] in *; [done|done|].
  destruct (String.eqb_spec (API.sanitize (Some m)) email) as [Heq|];
    [|done].
  unfold API.staffResetPassword. by rewrite Heq, Hrow, Hcol.
Qed.

Lemma runOp_callOp db op :
  runOp subtleDigest db op = (callOp subtleDigest db op).2.
Proof. by destruct op. Qed.

Lemma runOp_student db op code row :
  students db !! code = Some row ->
  exists row',
    students (runOp subtleDigest db op) !! code = Some row'
    /\ password_history row'
       = historyAfter (password_history row) (studentEntry code op)
    /\ (password_history row = HistoryDefault ->
        password_hash row' = password_hash row).
Proof.
  intros Hrow. destruct op as [now c pw | now c pw by_ | now e pw by_];
    cbn [runOp studentEntry].
  - unfold API.changeStudentPassword, historyAfter.
    destruct (students db !! API.sanitize (Some c)) as [existing|] eqn:Hex.
    + destruct (String.eqb_spec (API.sanitize (Some c)) code) as [Heq | Hne].
      * subst code. simplify_eq.
        destruct (API.parseHistory (password_history row)) as [h|m] eqn:Hp;
          cbn [snd updateStudent students].
        -- rewrite lookup_alter_eq.
           match goal with
           | H : students db !! _ = Some _ |- _ => rewrite H
           end.
           cbn. eexists. split; [done|].
           split; [done|]. intros Hd. by rewrite Hd in Hp.
        -- by exists row.
      * destruct (API.parseHistory (password_history existing));
          cbn [snd updateStudent students];
          rewrite ?lookup_alter_ne by done; by exists row.
    + destruct (String.eqb_spec (API.sanitize (Some c)) code) as [Heq | Hne];
        [congruence | by exists row].
  - unfold API.resetPassword, historyAfter.
    destruct (students db !! API.sanitize (Some c)) as [existing|] eqn:Hex.
    + destruct (String.eqb_spec (API.sanitize (Some c)) code) as [Heq | Hne].
      * subst code. simplify_eq.
        destruct (API.parseHistory (password_history row)) as [h|m] eqn:Hp;
          cbn [snd updateStudent students].
        -- rewrite lookup_alter_eq.
           match goal with
           | H : students db !! _ = Some _ |- _ => rewrite H
           end.
           cbn. eexists. split; [done|].
           split; [done|]. intros Hd. by rewrite Hd in Hp.
        -- by exists row.
      * destruct (API.parseHistory (password_history existing));
          cbn [snd updateStudent students];
          rewrite ?lookup_alter_ne by done; by exists row.
    + destruct (String.eqb_spec (API.sanitize (Some c)) code) as [Heq | Hne];
        [congruence | by exists row].
  - unfold API.staffResetPassword.
    destruct (staff db !! API.sanitize (Some e)) as [existing|];
      [|by exists row].
    destruct (API.parseHistory (staff_password_history existing));
      by exists row.
Qed.

Lemma historyAfter_default entry :
  historyAfter HistoryDefault entry = HistoryDefault.
Proof. by destruct entry. Qed.

Lemma historyAfter_not_default stored entry :
  stored <> HistoryDefault -> historyAfter stored entry <> HistoryDefault.
Proof. by destruct stored, entry. Qed.

Lemma historyAfter_omap {Op : Type} (entryOf : Op -> option HistoryEntry)
    (ops : list Op) : forall stored,
  foldl (fun st op => historyAfter st (entryOf op)) stored ops
  = foldl (fun st e => historyAfter st (Some e)) stored (omap entryOf ops).
Proof.
  induction ops as [|op ops IH]; intros stored; [done|].
  cbn [foldl omap list_omap]. rewrite IH.
  destruct (entryOf op) as [e|]; [done|].
  by destruct stored.
Qed.

Lemma runOps_student ops : forall db code row,
  students db !! code = Some row ->
  exists row',
    students (runOps subtleDigest ops db) !! code = Some row'
    /\ password_history row'
       = foldl (fun st op => historyAfter st (studentEntry code op))
           (password_history row) ops
    /\ (password_history row = HistoryDefault ->
        password_hash row' = password_hash row).
Proof.
  induction ops as [|op ops IH]; intros db code row Hrow.
  - by exists row.
  - destruct (runOp_student db op code row Hrow) as (row1 & H1 & Hh1 & Hp1).
    destruct (IH _ code row1 H1) as (row2 & H2 & Hh2 & Hp2).
    exists row2. split; [exact H2|]. split.
    + by rewrite Hh2, Hh1.
    + intros Hd. rewrite Hp2, Hp1; [done | done |].
      by rewrite Hh1, Hd, historyAfter_default.
Qed.

Lemma runOp_staff db op email row :
  staffIdsUnique db ->
  staff db !! email = Some row ->
  staffIdsUnique (runOp subtleDigest db op)
  /\ exists row',
       staff (runOp subtleDigest db op) !! email = Some row'
       /\ staff_password_history row'
          = historyAfter (staff_password_history row) (staffEntry email op).
Proof.
  intros Huniq Hrow. destruct op as [now c pw | now c pw by_ | now e pw by_];
    cbn [runOp staffEntry].
  - unfold API.changeStudentPassword.
    destruct (students db !! API.sanitize (Some c)) as [existing|];
      [destruct (API.parseHistory (password_history existing))|];
      (split; [done|]); by exists row.
  - unfold API.resetPassword.
    destruct (students db !! API.sanitize (Some c)) as [existing|];
      [destruct (API.parseHistory (password_history existing))|];
      (split; [done|]); by exists row.
  - unfold API.staffResetPassword, historyAfter.
    destruct (staff db !! API.sanitize (Some e)) as [existing|] eqn:Hex.
    + destruct (API.parseHistory (staff_password_history existing))
        as [h|m] eqn:Hp; cbn [snd updateStaffById staff].
      * split.
        -- unfold staffIdsUnique, updateStaffById in *. cbn [staff].
           intros e1 e2 r1 r2. rewrite !lookup_fmap.
           destruct (staff db !! e1) as [q1|] eqn:Hq1; [|done].
           destruct (staff db !! e2) as [q2|] eqn:Hq2; [|done].
           cbn. intros [= <-] [= <-] Hid.
           apply (Huniq e1 e2 q1 q2); try done.
           revert Hid. by repeat case_match.
        -- rewrite lookup_fmap, Hrow. cbn [fmap option_fmap option_map].
           destruct (String.eqb_spec (API.sanitize (Some e)) email)
             as [Heq | Hne].
           ++ subst email. simplify_eq. rewrite String.eqb_refl, Hp.
              by eexists.
           ++ destruct (String.eqb_spec (staff_id row) (staff_id existing))
                as [Hid | _]; [|by eexists].
              exfalso. apply Hne. symmetry.
              by apply (Huniq email _ row existing).
      * split; [done|]. exists row. split; [done|].
        destruct (String.eqb_spec (API.sanitize (Some e)) email)
          as [Heq | Hne]; [|done].
        subst email. simplify_eq. by rewrite Hp.
    + split; [done|].
      destruct (String.eqb_spec (API.sanitize (Some e)) email) as [Heq | Hne];
        [congruence | by exists row].
Qed.

Lemma runOps_staff ops : forall db email row,
  staffIdsUnique db ->
  staff db !! email = Some row ->
  exists row',
    staff (runOps subtleDigest ops db) !! email = Some row'
    /\ staff_password_history row'
       = foldl (fun st op => historyAfter st (staffEntry email op))
           (staff_password_history row) ops.
Proof.
  induction ops as [|op ops IH]; intros db email row Huniq Hrow.
  - by exists row.
  - destruct (runOp_staff db op email row Huniq Hrow)
      as (Huniq1 & row1 & H1 & Hh1).
    destruct (IH _ email row1 Huniq1 H1) as (row2 & H2 & Hh2).
    exists row2. split; [exact H2|]. by rewrite Hh2, Hh1.
Qed.

(** On a column the code can parse, NULL or the text of an earlier update,
    the calls do what they are written for: after any sequence of calls, the
    history of a principal that at least one call was for is the last ten
    entries of the history before followed by the entries of the calls for
    that principal, in order. *)
Lemma parsed_history_keeps_last_ten (db : DB) (ops : list PasswordOp) :
  (forall code row,
      students db !! code = Some row ->
      password_history row <> HistoryDefault ->
      let es := omap (studentEntry code) ops in
      let h := studentHistory (runOps subtleDigest ops db) code in
      es <> [] ->
      h = lastN 10 (studentHistory db code ++ es)
      /\ (length h <= 10)%nat
      /\ ((10 <= length es)%nat -> h = lastN 10 es))
  /\ (staffIdsUnique db ->
      forall email row,
        staff db !! email = Some row ->
        staff_password_history row <> HistoryDefault ->
        let es := omap (staffEntry email) ops in
        let h := staffHistory (runOps subtleDigest ops db) email in
        es <> [] ->
        h = lastN 10 (staffHistory db email ++ es)
        /\ (length h <= 10)%nat
        /\ ((10 <= length es)%nat -> h = lastN 10 es)).
Proof.
  split.
  - intros code row Hrow Hcol es h Hes. subst h.
    destruct (runOps_student ops db code row Hrow) as (row' & Hrow' & Hh & _).
    rewrite historyAfter_omap in Hh. fold es in Hh.
    rewrite historyAfter_fold in Hh by done.
    unfold studentHistory. rewrite Hrow', Hrow, Hh. cbn [historyEntries].
    split; [done|]. split; [apply lastN_length|].
    intros Hlen. by apply lastN_app_long.
  - intros Huniq email row Hrow Hcol es h Hes. subst h.
    destruct (runOps_staff ops db email row Huniq Hrow)
      as (row' & Hrow' & Hh).
    rewrite historyAfter_omap in Hh. fold es in Hh.
    rewrite historyAfter_fold in Hh by done.
    unfold staffHistory. rewrite Hrow', Hrow, Hh. cbn [historyEntries].
    split; [done|]. split; [apply lastN_length|].
    intros Hlen. by apply lastN_app_long.
Qed.

End PasswordOps.

(** Fifteen resets on a student whose history is NULL leave the entries of
    the last ten, those of the instants 6 to 15. *)
Example fifteen_resets_keep_last_ten :
  Gateway.changedAt
    <$> studentHistory (runOps None sampleResets sampleDB) "12300298"
  = [6; 7; 8; 9; 10; 11; 12; 13; 14; 15].
Proof. vm_compute; reflexivity. Qed.

(** C3.  The claim fails on the rows the application creates.  The
    inserts of [createOrUpdate] and of [StaffAPI.create] name no
    [password_history], so the column holds the empty array of its DEFAULT;
    on such a row every password change or reset for that principal throws
    the SyntaxError of [JSON.parse] before anything is written: the call
    leaves every table as it was, and however many calls follow, the history
    holds no entry and the password hash is the one stored before. *)
Theorem default_history_blocks_password_updates
    (subtleDigest : option (string -> string)) (db : Gateway.DB) :
  (forall op code row,
      Gateway.students db !! code = Some row ->
      Gateway.password_history row = Gateway.HistoryDefault ->
      is_Some (studentEntry code op) ->
      callOp subtleDigest db op = (Js.Throw Js.jsonEndOfInput, db))
  /\ (forall op email row,
         Gateway.staff db !! email = Some row ->
         Gateway.staff_password_history row = Gateway.HistoryDefault ->
         is_Some (staffEntry email op) ->
         callOp subtleDigest db op = (Js.Throw Js.jsonEndOfInput, db))
  /\ (forall ops code row,
         Gateway.students db !! code = Some row ->
         Gateway.password_history row = Gateway.HistoryDefault ->
         exists row',
           Gateway.students (runOps subtleDigest ops db) !! code = Some row'
           /\ Gateway.password_history row' = Gateway.HistoryDefault
           /\ Gateway.password_hash row' = Gateway.password_hash row
           /\ studentHistory (runOps subtleDigest ops db) code = [])
  /\ (forall now data code row db',
         API.createOrUpdate subtleDigest now (Some data) db
         = (Js.Normal (Some (code, row)), db') ->
         Gateway.students db !! code = None ->
         Gateway.password_history row = Gateway.HistoryDefault)
  /\ (forall now data result db',
         API.staffCreate subtleDigest now data db = (Js.Normal result, db') ->
         exists row,
           Gateway.staff db' !! API.sanitize (Some (API.st_email data))
           = Some row
           /\ Gateway.staff_password_history row = Gateway.HistoryDefault).
Proof.
  split; [|split; [|split; [|split]]].
  - intros op code row. apply callOp_default_student.
  - intros op email row. apply callOp_default_staff.
  - intros ops code row Hrow Hcol.
    destruct (runOps_student subtleDigest ops db code row Hrow)
      as (row' & Hrow' & Hh & Hp).
    assert (Hd : Gateway.password_history row' = Gateway.HistoryDefault).
    { rewrite Hh, Hcol. clear. induction ops as [|op ops IH]; [done|].
      cbn [foldl]. by rewrite historyAfter_default. }
    exists row'. split; [done|]. split; [done|]. split; [by apply Hp|].
    unfold studentHistory. by rewrite Hrow', Hd.
  - intros now data code row db'. unfold API.createOrUpdate.
    destruct (String.eqb (Js.orElse (API.sd_code data) "") "");
      [discriminate|].
    set (key := API.sanitize (API.sd_code data)).
    assert (Hkey : API.sanitize (Some key) = key).
    { subst key. destruct (API.sd_code data); [|done].
      apply removeAngles_idempotent. }
    destruct (Gateway.students db !! key) as [old|] eqn:Hold.
    + unfold API.getByCode. rewrite Hkey.
      cbn [Gateway.updateStudent Gateway.students].
      rewrite lookup_alter_eq, Hold. cbn. intros [= <- _ _] Hnew. congruence.
    + unfold Gateway.insertStudent. rewrite Hold.
      unfold API.getByCode. rewrite Hkey. cbn [Gateway.students].
      rewrite lookup_insert_eq. cbn. by intros [= _ <- _] _.
  - intros now data result db' Hcreate.
    unfold API.staffCreate in Hcreate.
    destruct (negb _ && negb _); [discriminate|].
    destruct (Gateway.single (Gateway.oneRow _)); [|discriminate].
    unfold Gateway.insertStaff in Hcreate. cbn [Gateway.staff_id] in Hcreate.
    destruct (bool_decide _); [discriminate|].
    destruct (Gateway.staff db !! API.sanitize (Some (API.st_email data)));
      [discriminate|].
    cbn [Gateway.staff] in Hcreate. rewrite lookup_insert_eq in Hcreate.
    cbn [Gateway.single] in Hcreate. injection Hcreate as _ <-.
    cbn [Gateway.staff]. rewrite lookup_insert_eq. by eexists.
Qed.

Lemma default_history_blocks_password_updates_witness :
  (Gateway.password_history <$> Gateway.students createdDB !! "20250001")
  = Some Gateway.HistoryDefault
  /\ API.resetPassword None 1 "20250001" "secreto" None createdDB
     = (Js.Throw Js.jsonEndOfInput, createdDB)
  /\ API.changeStudentPassword None 1 "20250001" "secreto" createdDB
     = (Js.Throw Js.jsonEndOfInput, createdDB)
  /\ (exists row,
         Gateway.students (runOps None createdResets createdDB) !! "20250001"
         = Some row
         /\ Gateway.password_history row = Gateway.HistoryDefault
         /\ Gateway.password_hash row = API.sha256 None "1098765432"
         /\ studentHistory (runOps None createdResets createdDB) "20250001"
            = []).
Proof.
  destruct (default_history_blocks_password_updates None createdDB)
    as (Hcall & _ & Hruns & _).
  assert (Hrow : exists row,
    Gateway.students createdDB !! "20250001" = Some row
    /\ Gateway.password_history row = Gateway.HistoryDefault
    /\ Gateway.password_hash row = API.sha256 None "1098765432").
  { eexists. split; [vm_compute; reflexivity|]. split; reflexivity. }
  destruct Hrow as (row & Hrow & Hcol & Hhash).
  split; [by rewrite Hrow; cbn; rewrite Hcol|].
  split.
  { apply (Hcall (ResetStudentPassword 1 "20250001" "secreto" None)
             "20250001" row Hrow Hcol).
    vm_compute. by eexists. }
  split.
  { apply (Hcall (ChangeStudentPassword 1 "20250001" "secreto")
             "20250001" row Hrow Hcol).
    vm_compute. by eexists. }
  destruct (Hruns createdResets "20250001" row Hrow Hcol)
    as (row' & Hrow' & Hcol' & Hhash' & Hhistory).
  exists row'. split; [done|]. split; [done|].
  split; [by rewrite Hhash'|done].
Defined.

(** The same by evaluation: the student the application has just registered
    cannot have the password reset, fifteen resets leave the tables as they
    were and no entry in the history, and the new password does not log
    in. *)
Example fifteen_resets_on_created_student :
  API.resetPassword None 1 "20250001" "secreto" None createdDB
  = (Js.Throw "Unexpected end of JSON input", createdDB)
  /\ runOps None createdResets createdDB = createdDB
  /\ Gateway.changedAt
       <$> studentHistory (runOps None createdResets createdDB) "20250001"
     = []
  /\ API.loginStudent None "20250001" "secreto"
       (runOps None createdResets createdDB)
     = Js.Throw "Credenciales inválidas".
Proof. repeat split; vm_compute; reflexivity. Qed.

(** ** Claims on loans *)

(** C2. [returnLoan(loanId)] sets [status] to returned and [returned_at] to
    the current instant on whatever loan has that id, whatever its status
    was, and changes no other field of it, no other loan and no other table;
    on a loan already returned it overwrites [returned_at] with the new
    instant. *)
Theorem returnLoan_unconditional (now : Z) (loanId : string)
    (db : Gateway.DB) (row : Gateway.LoanRow) :
  Gateway.loans db !! loanId = Some row ->
  exists row',
    LoansAPI.returnLoan now loanId db
    = (LoansAPI.Success (loanId, row'),
       Gateway.mkDB (Gateway.students db) (Gateway.staff db)
         (<[loanId := row']> (Gateway.loans db)))
    /\ Gateway.status row' = Gateway.StatusReturned
    /\ Gateway.returned_at row' = Some now
    /\ Gateway.student_code row' = Gateway.student_code row
    /\ Gateway.student_name row' = Gateway.student_name row
    /\ Gateway.category row' = Gateway.category row
    /\ Gateway.item_type row' = Gateway.item_type row
    /\ Gateway.item_description row' = Gateway.item_description row
    /\ Gateway.loan_staff_email row' = Gateway.loan_staff_email row
    /\ Gateway.loan_staff_name row' = Gateway.loan_staff_name row
    /\ Gateway.borrowed_at row' = Gateway.borrowed_at row
    /\ Gateway.loan_created_at row' = Gateway.loan_created_at row
    /\ (forall other, other <> loanId ->
          Gateway.loans (LoansAPI.returnLoan now loanId db).2 !! other
          = Gateway.loans db !! other).
Proof.
  intros Hrow. unfold LoansAPI.returnLoan, Gateway.updateLoan.
  rewrite Hrow. cbn [Gateway.single]. eexists. split; [reflexivity|].
  cbn. repeat split; try reflexivity.
  intros other Hne. by rewrite lookup_insert_ne.
Qed.

Lemma returnLoan_unconditional_witness :
  Gateway.status sampleLoan = Gateway.StatusReturned
  /\ Gateway.returned_at sampleLoan = Some 2000
  /\ exists row',
       LoansAPI.returnLoan 5000 "loan-1" sampleDB
       = (LoansAPI.Success ("loan-1", row'),
          Gateway.mkDB (Gateway.students sampleDB) (Gateway.staff sampleDB)
            (<["loan-1" := row']> (Gateway.loans sampleDB)))
       /\ Gateway.status row' = Gateway.StatusReturned
       /\ Gateway.returned_at row' = Some 5000
       /\ Gateway.student_code row' = Gateway.student_code sampleLoan
       /\ Gateway.student_name row' = Gateway.student_name sampleLoan
       /\ Gateway.category row' = Gateway.category sampleLoan
       /\ Gateway.item_type row' = Gateway.item_type sampleLoan
       /\ Gateway.item_description row' = Gateway.item_description sampleLoan
       /\ Gateway.loan_staff_email row' = Gateway.loan_staff_email sampleLoan
       /\ Gateway.loan_staff_name row' = Gateway.loan_staff_name sampleLoan
       /\ Gateway.borrowed_at row' = Gateway.borrowed_at sampleLoan
       /\ Gateway.loan_created_at row' = Gateway.loan_created_at sampleLoan
       /\ (forall other, other <> "loan-1" ->
             Gateway.loans (LoansAPI.returnLoan 5000 "loan-1" sampleDB).2
               !! other
             = Gateway.loans sampleDB !! other).
Proof.
  split; [reflexivity|]. split; [reflexivity|].
  apply (returnLoan_unconditional 5000 "loan-1" sampleDB sampleLoan).
  vm_compute; reflexivity.
Defined.

(** A loan that does not exist is not returned: the call fails and the
    tables stay as they were. *)
Lemma returnLoan_missing now loanId db :
  Gateway.loans db !! loanId = None ->
  LoansAPI.returnLoan now loanId db
  = (LoansAPI.Failure (Gateway.pg_message Gateway.noSingleRow), db).
Proof.
  intros H. unfold LoansAPI.returnLoan, Gateway.updateLoan. by rewrite H.
Qed.

(** What [registerLoan] answers when the student does not exist: the error
    of the database, and no new row. *)
Lemma registerLoan_unknown_student uuid now loanData db :
  Gateway.students db !! LoansAPI.studentCode loanData = None ->
  exists error,
    LoansAPI.registerLoan uuid now loanData db
    = (LoansAPI.Failure (Gateway.pg_message error), db)
    /\ (error = Gateway.checkViolation
        \/ error = Gateway.uniqueViolation "loans_pkey"
        \/ error = Gateway.foreignKeyViolation).
Proof.
  intros Hs. unfold LoansAPI.registerLoan, Gateway.insertLoan.
  cbn [Gateway.category Gateway.student_code].
  destruct (negb _); [eexists; split; [reflexivity | by left]|].
  destruct (Gateway.loans db !! uuid);
    [eexists; split; [reflexivity | by right; left]|].
  rewrite Hs. eexists; split; [reflexivity | by right; right].
Qed.

(** C9 as stated fails: for the unknown code "00000000" [registerLoan]
    fails, and no loan is created, but its error is the foreign-key error of
    the database and not the not-found error of the module. *)
Lemma registerLoan_error_is_not_not_found :
  Gateway.students sampleDB !! "00000000" = None
  /\ LoansAPI.registerLoan "loan-2" 7000 (sampleLoanData "00000000") sampleDB
     = (LoansAPI.Failure (Gateway.pg_message Gateway.foreignKeyViolation),
        sampleDB)
  /\ LoansAPI.registerLoan "loan-2" 7000 (sampleLoanData "00000000") sampleDB
     <> (LoansAPI.Failure LoansAPI.studentNotFound, sampleDB).
Proof.
  split; [vm_compute; reflexivity|].
  split; [vm_compute; reflexivity|].
  vm_compute. discriminate.
Qed.

(** C9 (amended). For a student code that is the key of no student, no loan
    is created: [registerLoan] itself makes no check and fails with the error
    of the database, never with the not-found error, leaving the tables as
    they were; when the category is one of the two the table allows and the
    key drawn for the row is free, that error is the violation of the foreign
    key of [loans].  The not-found error "Estudiante no encontrado" is what
    [validateStudent] answers, and the submit handler of the loan form, which
    calls it first with the trimmed code, shows that error and never calls
    [registerLoan]. *)
Theorem no_loan_for_unknown_student (LocalTZA : Z)
    (legacyDateParse : string -> Js.Num) (uuid : string) (now : Z)
    (db : Gateway.DB) :
  (forall loanData,
      Gateway.students db !! LoansAPI.studentCode loanData = None ->
      (exists error,
          LoansAPI.registerLoan uuid now loanData db
          = (LoansAPI.Failure (Gateway.pg_message error), db)
          /\ (error = Gateway.checkViolation
              \/ error = Gateway.uniqueViolation "loans_pkey"
              \/ error = Gateway.foreignKeyViolation)
          /\ Gateway.pg_message error <> LoansAPI.studentNotFound)
      /\ LoansAPI.validateStudent (LoansAPI.studentCode loanData) db
         = LoansAPI.Failure LoansAPI.studentNotFound)
  /\ (forall loanData,
         Gateway.students db !! LoansAPI.studentCode loanData = None ->
         LoansAPI.loanCategory loanData = "biblioteca"
         \/ LoansAPI.loanCategory loanData = "laboratorio" ->
         Gateway.loans db !! uuid = None ->
         LoansAPI.registerLoan uuid now loanData db
         = (LoansAPI.Failure (Gateway.pg_message Gateway.foreignKeyViolation),
            db))
  /\ (forall form session,
         Gateway.students db !! Js.trim (StaffLoans.f_studentCode form)
         = None ->
         StaffLoans.handleLoanSubmit LocalTZA legacyDateParse uuid now form
           session db
         = (Js.Normal (StaffLoans.ModalError "Error" LoansAPI.studentNotFound),
            db)).
Proof.
  split; [|split].
  - intros loanData Hs. split.
    + destruct (registerLoan_unknown_student uuid now loanData db Hs)
        as (error & Hr & He).
      exists error. split; [done|]. split; [done|].
      by destruct He as [-> | [-> | ->]].
    + unfold LoansAPI.validateStudent. by rewrite Hs.
  - intros loanData Hs Hc Hk.
    unfold LoansAPI.registerLoan, Gateway.insertLoan.
    cbn [Gateway.category Gateway.student_code]. rewrite Hk, Hs.
    by destruct Hc as [-> | ->].
  - intros form session Hs. unfold StaffLoans.handleLoanSubmit.
    unfold LoansAPI.validateStudent. by rewrite Hs.
Qed.

Lemma no_loan_for_unknown_student_witness :
  ((exists error,
       LoansAPI.registerLoan "loan-2" 7000 (sampleLoanData "00000000")
         sampleDB
       = (LoansAPI.Failure (Gateway.pg_message error), sampleDB)
       /\ (error = Gateway.checkViolation
           \/ error = Gateway.uniqueViolation "loans_pkey"
           \/ error = Gateway.foreignKeyViolation)
       /\ Gateway.pg_message error <> LoansAPI.studentNotFound)
   /\ LoansAPI.validateStudent
        (LoansAPI.studentCode (sampleLoanData "00000000")) sampleDB
      = LoansAPI.Failure LoansAPI.studentNotFound)
  /\ LoansAPI.registerLoan "loan-2" 7000 (sampleLoanData "00000000")
       sampleDB
     = (LoansAPI.Failure (Gateway.pg_message Gateway.foreignKeyViolation),
        sampleDB)
  /\ StaffLoans.handleLoanSubmit sampleZone noLegacyParse "loan-2" 7000
       (StaffLoans.mkLoanForm "biblioteca"
          (" 00000000" +:+ noBreakSpace) "Libros" "" ""
          (Some "2025-01-01") (Some "10:30"))
       (Some (StaffLoans.mkSession "staff" "luz@unipacifico.edu.co"
                "Luz Riascos"))
       sampleDB
     = (Js.Normal (StaffLoans.ModalError "Error" LoansAPI.studentNotFound),
        sampleDB).
Proof.
  destruct (no_loan_for_unknown_student sampleZone noLegacyParse "loan-2"
              7000 sampleDB) as (Hregister & Hforeign & Hsubmit).
  split; [|split].
  - apply Hregister. vm_compute; reflexivity.
  - apply Hforeign; [vm_compute; reflexivity | by left | vm_compute; reflexivity].
  - apply Hsubmit. vm_compute; reflexivity.
Defined.

(** For a student that exists, the same form registers the loan; the
    no-break space before the code is trimmed away with the space after
    it. *)
Example loan_registered_for_known_student :
  exists db',
    StaffLoans.handleLoanSubmit sampleZone noLegacyParse "loan-2" 7000
      (StaffLoans.mkLoanForm "biblioteca"
         (noBreakSpace +:+ "12300298 ") "Libros" "" ""
         (Some "2025-01-01") (Some "10:30"))
      (Some (StaffLoans.mkSession "staff" "luz@unipacifico.edu.co"
               "Luz Riascos"))
      sampleDB
    = (Js.Normal (StaffLoans.ModalSuccess "Éxito"
                    "Préstamo registrado exitosamente"), db')
    /\ (Gateway.status <$> Gateway.loans db' !! "loan-2")
       = Some Gateway.StatusActive
    /\ (Gateway.borrowed_at <$> Gateway.loans db' !! "loan-2")
       = Some 1735745400000.
Proof. eexists. split; [vm_compute; reflexivity|]. split; vm_compute; reflexivity. Qed.

(** ** Claims on credentials *)

Section CredentialFacts.

Import Gateway.

Variable subtleDigest : option (string -> string).




End CredentialFacts.



(** The scenario of the specification: a student created with code
    "12300298"-like data and cedula "1006543210" gets the hash of the cedula,
    a first login pending and an active card; without a cedula the hash is
    the code's; an existing student keeps its hash. *)
Example default_password_scenario :
  (Gateway.password_hash
     <$> Gateway.students
           (API.createOrUpdate None 9000
              (Some (sampleStudentData (Some "1006543210") (Some false)
                       "12300299")) sampleDB).2 !! "12300299")
  = Some (API.sha256 None "1006543210")
  /\ (Gateway.password_hash
        <$> Gateway.students
              (API.createOrUpdate None 9000
                 (Some (sampleStudentData None None "12300299"))
                 sampleDB).2 !! "12300299")
     = Some (API.sha256 None "12300299")
  /\ (Gateway.password_hash
        <$> Gateway.students
              (API.createOrUpdate None 9000
                 (Some (sampleStudentData (Some "55555555") None "12300298"))
                 sampleDB).2 !! "12300298")
     = Some "hash".
Proof. repeat split; vm_compute; reflexivity. Qed.



(** A creation with [active: false] stores an active card; the same data on
    the student once created deactivates it. *)
Example active_flag_scenario :
  (Gateway.active
     <$> Gateway.students
           (API.createOrUpdate None 9000
              (Some (sampleStudentData (Some "1006543210") (Some false)
                       "12300299")) sampleDB).2 !! "12300299")
  = Some (Some true)
  /\ (Gateway.active
        <$> Gateway.students
              (API.createOrUpdate None 9500
                 (Some (sampleStudentData (Some "1006543210") (Some false)
                          "12300299"))
                 (API.createOrUpdate None 9000
                    (Some (sampleStudentData (Some "1006543210") (Some false)
                             "12300299")) sampleDB).2).2 !! "12300299")
     = Some (Some false).
Proof. split; vm_compute; reflexivity. Qed.

(** C5. A student whose [active] is [false] cannot log in: [loginStudent]
    throws for every password, and with the right password it throws the
    inactive-card error, whose message is not the one thrown when no student
    has that code and password; the login form shows the two under different
    titles. *)
Theorem inactive_student_cannot_login
    (subtleDigest : option (string -> string)) (code password : string)
    (db : Gateway.DB) :
  (forall row,
      Gateway.students db !! API.sanitize (Some code) = Some row ->
      Gateway.active row = Some false ->
      (exists message,
          API.loginStudent subtleDigest code password db = Js.Throw message)
      /\ (Gateway.password_hash row = API.sha256 subtleDigest password ->
          API.loginStudent subtleDigest code password db
          = Js.Throw API.inactiveCard)
      /\ (Gateway.password_hash row <> API.sha256 subtleDigest password ->
          API.loginStudent subtleDigest code password db
          = Js.Throw API.invalidCredentials))
  /\ (Gateway.students db !! API.sanitize (Some code) = None ->
      API.loginStudent subtleDigest code password db
      = Js.Throw API.invalidCredentials)
  /\ API.inactiveCard <> API.invalidCredentials
  /\ Login.onLoginError API.inactiveCard
     = Login.ErrorModal "Carnet Inactivo" API.inactiveCard
  /\ Login.onLoginError API.invalidCredentials
     = Login.ErrorModal "Acceso denegado" API.invalidCredentials.
Proof.
  split; [|split; [|split; [|split]]].
  - intros row Hrow Hactive.
    assert (Hok : Gateway.password_hash row
                  = API.sha256 subtleDigest password ->
                  API.loginStudent subtleDigest code password db
                  = Js.Throw API.inactiveCard).
    { intros Hhash. unfold API.loginStudent. rewrite Hrow.
      cbn [Gateway.andWhere]. rewrite Hhash, String.eqb_refl.
      cbn [Gateway.single]. by rewrite bool_decide_eq_true_2. }
    assert (Hbad : Gateway.password_hash row
                   <> API.sha256 subtleDigest password ->
                   API.loginStudent subtleDigest code password db
                   = Js.Throw API.invalidCredentials).
    { intros Hhash. unfold API.loginStudent. rewrite Hrow.
      cbn [Gateway.andWhere].
      by destruct (String.eqb_spec (Gateway.password_hash row)
                     (API.sha256 subtleDigest password)). }
    split; [|by split].
    destruct (decide (Gateway.password_hash row
                      = API.sha256 subtleDigest password)) as [Heq | Hneq].
    + eexists. by apply Hok.
    + eexists. by apply Hbad.
  - intros Hnone. unfold API.loginStudent. by rewrite Hnone.
  - discriminate.
  - vm_compute; reflexivity.
  - vm_compute; reflexivity.
Qed.

Lemma inactive_student_cannot_login_witness :
  API.loginStudent None "12300298" "1006543210"
    (loginDB (Some false))
  = Js.Throw API.inactiveCard
  /\ Login.onSubmit None Login.RoleStudent "12300298" "1006543210"
       (loginDB (Some false))
     = Login.ErrorModal "Carnet Inactivo" API.inactiveCard.
Proof.
  split.
  - eapply (inactive_student_cannot_login None "12300298" "1006543210").
    + vm_compute; reflexivity.
    + reflexivity.
    + reflexivity.
  - vm_compute; reflexivity.
Defined.

(** With the card active again the same credentials log the student in, and
    a wrong password is refused with the generic message. *)
Example active_student_logs_in :
  Login.onSubmit None Login.RoleStudent "12300298" "1006543210"
    (loginDB (Some true))
  = Login.Redirect "html/student.html#first"
  /\ Login.onSubmit None Login.RoleStudent "12300298" "otra"
       (loginDB (Some true))
     = Login.ErrorModal "Acceso denegado" API.invalidCredentials.
Proof. split; vm_compute; reflexivity. Qed.

(** * Further properties *)

(** ** Text cleaning and the card payload *)

Section SanitizeFacts.

Lemma includes_single_false s c :
  Js.everyChar (fun x => negb (Ascii.eqb x c)) s = true ->
  Js.includes s (String c EmptyString) = false.
Proof.
  induction s as [|x r IH]; [reflexivity|].
  cbn [Js.everyChar]. intros [Hx Hr]%andb_true_iff.
  apply negb_true_iff in Hx.
  rewrite includes_cons, (IH Hr), prefix_single, Ascii.eqb_sym, Hx.
  reflexivity.
Qed.

Lemma includes_single_false_inv s c :
  Js.includes s (String c EmptyString) = false ->
  Js.everyChar (fun x => negb (Ascii.eqb x c)) s = true.
Proof.
  induction s as [|x r IH]; [done|].
  rewrite includes_cons, prefix_single. intros [Hc Hr]%orb_false_iff.
  cbn [Js.everyChar]. rewrite (IH Hr).
  destruct (Ascii.eqb_spec x c) as [-> | ]; [|done].
  by rewrite Ascii.eqb_refl in Hc.
Qed.

Lemma removeAngles_clean s :
  Js.everyChar (fun x => negb (Ascii.eqb x "<")) (Js.removeAngles s) = true
  /\ Js.everyChar (fun x => negb (Ascii.eqb x ">")) (Js.removeAngles s)
     = true.
Proof.
  induction s as [|c r [IH1 IH2]]; [done|]. cbn [Js.removeAngles].
  destruct (Ascii.eqb c "<") eqn:H1; [done|].
  destruct (Ascii.eqb c ">") eqn:H2; [done|].
  cbn [orb Js.everyChar]. by rewrite H1, H2, IH1, IH2.
Qed.

Lemma removeAngles_id s :
  Js.everyChar (fun x => negb (Ascii.eqb x "<")) s = true ->
  Js.everyChar (fun x => negb (Ascii.eqb x ">")) s = true ->
  Js.removeAngles s = s.
Proof.
  induction s as [|c r IH]; [done|]. cbn [Js.everyChar Js.removeAngles].
  intros [H1 Hr1]%andb_true_iff [H2 Hr2]%andb_true_iff.
  apply negb_true_iff in H1, H2. rewrite H1, H2. cbn [orb].
  by rewrite IH.
Qed.




(** A text without angle brackets is its own key. *)
Lemma sanitize_clean_id s :
  Js.includes s "<" = false -> Js.includes s ">" = false ->
  Js.removeAngles s = s.
Proof.
  intros Hl Hg. by apply removeAngles_id; apply includes_single_false_inv.
Qed.

End SanitizeFacts.

(** X1. The text [sanitize] returns holds no angle bracket, cleaning it again
    changes nothing, a text without angle brackets is returned as it is, a
    missing input ([null] or [undefined]) gives the empty text, and the
    copies of js/utils.js and js/api.js agree. *)
Theorem sanitize_strips_angles (text : Js.Undefinable string) :
  Js.includes (Utils.sanitize text) "<" = false
  /\ Js.includes (Utils.sanitize text) ">" = false
  /\ Utils.sanitize (Some (Utils.sanitize text)) = Utils.sanitize text
  /\ API.sanitize text = Utils.sanitize text
  /\ (forall s,
         text = Some s ->
         Js.includes s "<" = false -> Js.includes s ">" = false ->
         Utils.sanitize text = s)
  /\ (text = None ->
      Utils.sanitize text = EmptyString /\ API.sanitize text = EmptyString)
  /\ Utils.sanitize None = EmptyString
  /\ API.sanitize None = EmptyString.
Proof.
  destruct text as [s|].
  - cbn [Utils.sanitize API.sanitize].
    destruct (removeAngles_clean s) as [H1 H2].
    split; [by apply includes_single_false|].
    split; [by apply includes_single_false|].
    split; [by apply removeAngles_idempotent|].
    split; [done|].
    split; [|done].
    intros s' [= <-] Hl Hg. by apply sanitize_clean_id.
  - repeat split; try reflexivity. by intros s [=].
Qed.

Lemma sanitize_strips_angles_witness :
  Utils.sanitize (Some "<b>ANA</b>") = "bANA/b"
  /\ Utils.sanitize (Some "12300298") = "12300298"
  /\ (Utils.sanitize None = EmptyString /\ API.sanitize None = EmptyString).
Proof.
  split; [reflexivity|]. split.
  - apply (sanitize_strips_angles (Some "12300298")); reflexivity.
  - apply (sanitize_strips_angles None).
Defined.

Section CardFacts.

Lemma startsWith_payload code :
  Js.startsWith (Card.encodeStudentData code) "UPAC-" = true
  /\ Js.substring 5 (Card.encodeStudentData code) = code.
Proof. split; [by destruct code | reflexivity]. Qed.

End CardFacts.

(** X2. The payload of a card decodes to its student: for every code,
    [decodeStudentData(encodeStudentData(code))] is the row stored under
    that code, or the bare code when there is none (and the empty code for
    the empty payload); a text without the [UPAC-] prefix is looked up
    whole. *)
Theorem card_payload_round_trip (code : string) (db : Gateway.DB) :
  (forall row,
      code <> EmptyString ->
      Gateway.students db !! code = Some row ->
      Card.decodeStudentData (Card.encodeStudentData code) db
      = Card.StudentData code row)
  /\ (Gateway.students db !! code = None ->
      Card.decodeStudentData (Card.encodeStudentData code) db
      = Card.CodeOnly code)
  /\ (Js.startsWith code "UPAC-" = false ->
      Card.decodeStudentData code db
      = Card.decodeStudentData (Card.encodeStudentData code) db).
Proof.
  destruct (startsWith_payload code) as [Hp Hs].
  unfold Card.decodeStudentData. rewrite Hp, Hs.
  split; [|split].
  - intros row Hne Hrow.
    destruct (String.eqb_spec code EmptyString); [done|]. by rewrite Hrow.
  - intros Hnone.
    destruct (String.eqb_spec code EmptyString) as [-> | ]; [done|].
    by rewrite Hnone.
  - by intros ->.
Qed.

Lemma card_payload_round_trip_witness :
  Card.decodeStudentData (Card.encodeStudentData "12300298") sampleDB
  = Card.StudentData "12300298"
      (sampleStudent "31 DICIEMBRE 2025" (Some true))
  /\ Card.decodeStudentData (Card.encodeStudentData "00000000") sampleDB
     = Card.CodeOnly "00000000"
  /\ Card.decodeStudentData "12300298" sampleDB
     = Card.decodeStudentData (Card.encodeStudentData "12300298") sampleDB.
Proof.
  destruct (card_payload_round_trip "12300298" sampleDB)
    as (Hfound & _ & Hraw).
  destruct (card_payload_round_trip "00000000" sampleDB)
    as (_ & Hmissing & _).
  split; [|split].
  - apply Hfound; [discriminate | vm_compute; reflexivity].
  - apply Hmissing. vm_compute; reflexivity.
  - apply Hraw. reflexivity.
Defined.

(** X3. The validator of the staff page decides on the [active] flag alone:
    the payload of a registered student shows "Carnet Válido" unless its
    [active] is [false], then "Carnet Inactivo", whatever the expiry date of
    the card (an expired card of an active student is shown valid); a code of
    no student shows "Carnet Inválido". *)
Theorem validator_checks_active_only (code : string) (db : Gateway.DB) :
  Js.includes code "<" = false -> Js.includes code ">" = false ->
  (forall row,
      Gateway.students db !! code = Some row ->
      StaffPanel.validateCode (Card.encodeStudentData code) db
      = if bool_decide (Gateway.active row = Some false)
        then StaffPanel.CarnetInactivo code row
        else StaffPanel.CarnetValido code row)
  /\ (Gateway.students db !! code = None ->
      StaffPanel.validateCode (Card.encodeStudentData code) db
      = StaffPanel.CarnetInvalido).
Proof.
  intros Hl Hg.
  destruct (startsWith_payload code) as [Hp Hs].
  pose proof (sanitize_clean_id code Hl Hg) as Hid.
  unfold StaffPanel.validateCode, API.getByCode. rewrite Hp, Hs.
  cbn [API.sanitize]. rewrite Hid. split.
  - intros row ->. cbn. by destruct (bool_decide _).
  - by intros ->.
Qed.

Lemma validator_checks_active_only_witness :
  StaffPage.isExpired sampleZone noLegacyParse sampleLater
    (Js.VString "31 DICIEMBRE 2025") = Js.Normal true
  /\ StaffPanel.validateCode (Card.encodeStudentData "12300298") sampleDB
     = StaffPanel.CarnetValido "12300298"
         (sampleStudent "31 DICIEMBRE 2025" (Some true))
  /\ StaffPanel.validateCode (Card.encodeStudentData "00000000") sampleDB
     = StaffPanel.CarnetInvalido.
Proof.
  split; [vm_compute; reflexivity|].
  destruct (validator_checks_active_only "12300298" sampleDB eq_refl eq_refl)
    as [Hfound _].
  destruct (validator_checks_active_only "00000000" sampleDB eq_refl eq_refl)
    as [_ Hmissing].
  split.
  - apply (Hfound (sampleStudent "31 DICIEMBRE 2025" (Some true))).
    vm_compute; reflexivity.
  - apply Hmissing. vm_compute; reflexivity.
Defined.

(** ** Sessions *)

(** X4. A session stored at the instant [now] is returned by [getSession],
    with the storage left as it is, at every instant before [now] plus seven
    days; from that instant on [getSession] returns nothing and empties the
    storage.  [getSession] never returns a session at or after its
    [expiresAt] and never writes one, and after [logout] there is no
    session, however often it is called. *)
Theorem session_lasts_seven_days (A : Type) (now later : Z) (data : A)
    (storage : option (Auth.StoredSession A)) :
  now + 604800000 <> 0 ->
  let stored := Auth.setSession now data storage in
  (later < now + 604800000 ->
   Auth.getSession later stored = (Some (data, now + 604800000), stored))
  /\ (now + 604800000 <= later ->
      Auth.getSession later stored = (None, None))
  /\ (forall session expiresAt,
         (Auth.getSession later storage).1 = Some (session, expiresAt) ->
         later < expiresAt /\ (Auth.getSession later storage).2 = storage)
  /\ ((Auth.getSession later storage).2 = storage
      \/ (Auth.getSession later storage).2 = None)
  /\ Auth.getSession later (Auth.logout stored) = (None, None)
  /\ Auth.logout (Auth.logout stored) = Auth.logout stored.
Proof.
  intros Hnz stored. subst stored. unfold Auth.setSession.
  replace (now + 7 * 24 * 60 * 60 * 1000) with (now + 604800000) by lia.
  split; [|split; [|split; [|split; [|split]]]].
  - intros Hlt. cbn [Auth.getSession].
    destruct (Z.eqb_spec (now + 604800000) 0); [done|].
    by destruct (Z.ltb_spec later (now + 604800000)); [|lia].
  - intros Hge. cbn [Auth.getSession].
    destruct (Z.ltb_spec later (now + 604800000)); [lia|].
    by rewrite andb_false_r.
  - intros session expiresAt.
    destruct storage as [[|d [e|]]|]; cbn [Auth.getSession]; try done.
    destruct (Z.eqb_spec e 0); [done|].
    destruct (Z.ltb_spec later e); [|done].
    cbn. by intros [= <- <-].
  - destruct storage as [[|d [e|]]|]; cbn [Auth.getSession]; auto.
    destruct (negb (e =? 0) && (later <? e)); auto.
  - reflexivity.
  - reflexivity.
Qed.

Lemma session_lasts_seven_days_witness :
  Auth.getSession (sampleNow + 604799999)
    (Auth.setSession sampleNow "12300298" None)
  = (Some ("12300298", sampleNow + 604800000),
     Auth.setSession sampleNow "12300298" None)
  /\ Auth.getSession (sampleNow + 604800000)
       (Auth.setSession sampleNow "12300298" None)
     = (None, None).
Proof.
  destruct (session_lasts_seven_days string sampleNow
              (sampleNow + 604799999) "12300298" None
              ltac:(vm_compute; discriminate)) as (Hvalid & _).
  destruct (session_lasts_seven_days string sampleNow
              (sampleNow + 604800000) "12300298" None
              ltac:(vm_compute; discriminate)) as (_ & Hexpired & _).
  split.
  - apply Hvalid. vm_compute; reflexivity.
  - apply Hexpired. vm_compute; discriminate.
Defined.

(** ** Days, and the two past-date checks *)

Section DayFacts.

Import Js.

Variable LocalTZA : Z.
Variable legacyDateParse : string -> Num.

Lemma monthOfDayWithinYear_range d leap :
  0 <= monthOfDayWithinYear d leap <= 11.
Proof. unfold monthOfDayWithinYear. repeat case_match; lia. Qed.

(** The date built from the year, month and day of an instant is the day of
    the instant. *)
Lemma MakeDay_fields t :
  MakeDay (YearFromTime t) (MonthFromTime t) (DateFromTime t) = Day t.
Proof.
  unfold MakeDay, DateFromTime.
  pose proof (monthOfDayWithinYear_range (DayWithinYear t) (InLeapYear t))
    as Hm.
  fold (MonthFromTime t) in Hm.
  replace (MonthFromTime t / 12) with 0 by (Z.div_mod_to_equations; lia).
  replace (MonthFromTime t mod 12) with (MonthFromTime t)
    by (Z.div_mod_to_equations; lia).
  replace (YearFromTime t + 0) with (YearFromTime t) by lia.
  unfold InLeapYear, DayWithinYear. lia.
Qed.

(** [new Date(today.getFullYear(), today.getMonth(), today.getDate())] is
    the midnight that starts today, unless the year has one or two digits. *)
Lemma Date_of_today now :
  ~ 0 <= YearFromTime (LocalTime LocalTZA now) <= 99 ->
  Date_ymd LocalTZA (getFullYear LocalTZA (Some now))
    (getMonth LocalTZA (Some now)) (getDate LocalTZA (Some now))
  = TimeClip (midnightOfDay LocalTZA (Day (LocalTime LocalTZA now))).
Proof.
  intros Hy. unfold Date_ymd, getFullYear, getMonth, getDate.
  cbn [fmap option_fmap option_map].
  replace ((0 <=? YearFromTime (LocalTime LocalTZA now))
           && (YearFromTime (LocalTime LocalTZA now) <=? 99)) with false.
  - by rewrite MakeDay_fields.
  - symmetry. apply andb_false_iff.
    destruct (Z.leb_spec 0 (YearFromTime (LocalTime LocalTZA now)));
      [|by left].
    right. apply Z.leb_gt. lia.
Qed.

Lemma setHours0_midnight day :
  setHours0 LocalTZA (Some (midnightOfDay LocalTZA day))
  = TimeClip (midnightOfDay LocalTZA day).
Proof. unfold setHours0. by rewrite Day_midnightOfDay. Qed.

(** Whether a card that expires at the start of day [expiryDay] is expired,
    and whether it expires soon, by the number of days from today. *)
Lemma isExpired_by_day now e expiryDay :
  e <> EmptyString ->
  StaffPage.expiryDateOf LocalTZA legacyDateParse e
  = Some (Some (midnightOfDay LocalTZA expiryDay)) ->
  Z.abs (midnightOfDay LocalTZA expiryDay) <= maxTime ->
  Z.abs (midnightOfDay LocalTZA (Day (LocalTime LocalTZA now))) <= maxTime ->
  StaffPage.isExpired LocalTZA legacyDateParse now (VString e)
  = Normal (expiryDay <? Day (LocalTime LocalTZA now)).
Proof.
  intros He Hd He1 He2. rewrite isExpired_string, Hd by done. f_equal.
  rewrite setHours0_midnight. unfold setHours0.
  fold (midnightOfDay LocalTZA (Day (LocalTime LocalTZA now))).
  unfold TimeClip.
  destruct (Z.leb_spec (Z.abs (midnightOfDay LocalTZA expiryDay)) maxTime);
    [|lia].
  destruct (Z.leb_spec
              (Z.abs (midnightOfDay LocalTZA (Day (LocalTime LocalTZA now))))
              maxTime); [|lia].
  cbn [lessThan]. unfold midnightOfDay, UTC, MakeDate, msPerDay.
  destruct (Z.ltb_spec expiryDay (Day (LocalTime LocalTZA now)));
    [apply Z.ltb_lt | apply Z.ltb_ge]; lia.
Qed.

Lemma isExpiringSoon_by_day now e expiryDay :
  e <> EmptyString ->
  StaffPage.expiryDateOf LocalTZA legacyDateParse e
  = Some (Some (midnightOfDay LocalTZA expiryDay)) ->
  StaffPage.isExpiringSoon LocalTZA legacyDateParse now (VString e)
  = Normal ((Day (LocalTime LocalTZA now) <=? expiryDay)
            && (expiryDay <=? Day (LocalTime LocalTZA now) + 30)).
Proof.
  intros He Hd. rewrite isExpiringSoon_string, Hd by done. f_equal.
  replace expiryDay
    with (Day (LocalTime LocalTZA now)
          + (expiryDay - Day (LocalTime LocalTZA now))) at 1 2 by lia.
  rewrite ceilDiv_later_day.
  destruct (Z.leb_spec 0 (expiryDay - Day (LocalTime LocalTZA now)));
    destruct (Z.leb_spec (Day (LocalTime LocalTZA now)) expiryDay);
    destruct (Z.leb_spec (expiryDay - Day (LocalTime LocalTZA now)) 30);
    destruct (Z.leb_spec expiryDay (Day (LocalTime LocalTZA now) + 30));
    first [done | lia].
Qed.

End DayFacts.

Section CalendarStatus.

Import Js.

Variable LocalTZA : Z.
Variable legacyDateParse : string -> Num.
Hypothesis zone_offset : - msPerDay < LocalTZA < msPerDay.

Lemma TimeClip_range t : TimeClip t = Some t -> Z.abs t <= maxTime.
Proof.
  unfold TimeClip. destruct (Z.leb_spec (Z.abs t) maxTime); [done|].
  discriminate.
Qed.

Lemma append_not_empty a c r : a +:+ String c r <> EmptyString.
Proof. by destruct a. Qed.

(** What the status engine makes of the text a calendar date is stored
    as. *)
Lemma expiryDateOf_stored e s y m d :
  isCalendarDate s y m d ->
  e = s
  \/ (100 <= y
      /\ e = Utils.formatDateToSpanish LocalTZA legacyDateParse s) ->
  e <> EmptyString
  /\ StaffPage.expiryDateOf LocalTZA legacyDateParse e
     = Some (Some (midnightOfDay LocalTZA (MakeDay y (m - 1) d)))
  /\ Z.abs (midnightOfDay LocalTZA (MakeDay y (m - 1) d)) <= maxTime.
Proof.
  intros Hs He.
  destruct (isoDate_facts s y m d EmptyString EmptyString Hs)
    as (_ & _ & Hne & Hyr & Hm & Hd).
  pose proof (localMidnight_clip LocalTZA zone_offset y m d Hyr Hm Hd)
    as Hclip.
  split; [|split].
  - destruct He as [-> | [_ ->]]; [done|].
    rewrite (formatDateToSpanish_iso LocalTZA legacyDateParse zone_offset
               s y m d Hs).
    apply append_not_empty.
  - destruct He as [-> | [Hy ->]].
    + by rewrite (expiryDateOf_iso LocalTZA legacyDateParse zone_offset
                    s y m d Hs).
    + rewrite (formatDateToSpanish_iso LocalTZA legacyDateParse zone_offset
                 s y m d Hs).
      rewrite (expiryDateOf_long LocalTZA legacyDateParse y m d)
        by (try done; lia).
      unfold Date_ymd.
      destruct (Z.leb_spec y 99); [lia|]. rewrite andb_false_r.
      f_equal. exact Hclip.
  - by apply TimeClip_range.
Qed.

Lemma isPastDateYmd_by_day now s y m d :
  isCalendarDate s y m d ->
  ~ 0 <= YearFromTime (LocalTime LocalTZA now) <= 99 ->
  Z.abs (midnightOfDay LocalTZA (Day (LocalTime LocalTZA now))) <= maxTime ->
  Utils.isPastDateYmd LocalTZA legacyDateParse now s
  = (MakeDay y (m - 1) d <? Day (LocalTime LocalTZA now)).
Proof.
  intros Hs Hyear Hrange.
  destruct (isoDate_facts s y m d EmptyString EmptyString Hs)
    as (_ & _ & Hne & _).
  unfold Utils.isPastDateYmd.
  destruct (String.eqb_spec s EmptyString) as [|_]; [done|].
  rewrite (Date_parse_iso LocalTZA legacyDateParse zone_offset s y m d Hs).
  rewrite Date_of_today by done.
  unfold TimeClip.
  destruct (Z.leb_spec
              (Z.abs (midnightOfDay LocalTZA (Day (LocalTime LocalTZA now))))
              maxTime); [|lia].
  cbn [lessThan]. unfold localMidnight, midnightOfDay, UTC, MakeDate, msPerDay.
  destruct (Z.ltb_spec (MakeDay y (m - 1) d) (Day (LocalTime LocalTZA now)));
    [apply Z.ltb_lt | apply Z.ltb_ge]; lia.
Qed.

End CalendarStatus.

(** X5. The past-date check of the student form and the status engine
    agree: for a calendar date [YYYY-MM-DD], [isPastDateYmd] holds exactly
    when the day of the date is before today's, and that is the answer of
    [isExpired] on the date as typed and, from the year 100 on, on the long
    Spanish form it is stored in.  So a date the form accepts is not expired
    on the day it is saved. *)
Theorem past_date_checks_agree (LocalTZA : Z)
    (legacyDateParse : string -> Js.Num) (now : Z) (s : string) (y m d : Z) :
  - Js.msPerDay < LocalTZA < Js.msPerDay ->
  isCalendarDate s y m d ->
  ~ 0 <= Js.YearFromTime (Js.LocalTime LocalTZA now) <= 99 ->
  Z.abs (midnightOfDay LocalTZA (Js.Day (Js.LocalTime LocalTZA now)))
  <= Js.maxTime ->
  let past := Utils.isPastDateYmd LocalTZA legacyDateParse now s in
  past = (Js.MakeDay y (m - 1) d <? Js.Day (Js.LocalTime LocalTZA now))
  /\ StaffPage.isExpired LocalTZA legacyDateParse now (Js.VString s)
     = Js.Normal past
  /\ (100 <= y ->
      StaffPage.isExpired LocalTZA legacyDateParse now
        (Js.VString (Utils.formatDateToSpanish LocalTZA legacyDateParse s))
      = Js.Normal past).
Proof.
  intros Hz Hs Hyear Hrange past. subst past.
  rewrite (isPastDateYmd_by_day LocalTZA legacyDateParse Hz now s y m d)
    by done.
  split; [done|]. split.
  - destruct (expiryDateOf_stored LocalTZA legacyDateParse Hz s s y m d Hs)
      as (Hne & Hd & Hr); [by left|].
    by apply isExpired_by_day.
  - intros Hy.
    destruct (expiryDateOf_stored LocalTZA legacyDateParse Hz
                (Utils.formatDateToSpanish LocalTZA legacyDateParse s)
                s y m d Hs) as (Hne & Hd & Hr); [by right|].
    by apply isExpired_by_day.
Qed.

Lemma past_date_checks_agree_witness :
  Utils.isPastDateYmd sampleZone noLegacyParse sampleNow "2024-12-31" = true
  /\ StaffPage.isExpired sampleZone noLegacyParse sampleNow
       (Js.VString "31 DICIEMBRE 2024") = Js.Normal true.
Proof.
  destruct (past_date_checks_agree sampleZone noLegacyParse sampleNow
              "2024-12-31" 2024 12 31) as (H1 & _ & H3).
  - vm_compute. split; reflexivity.
  - vm_compute. reflexivity.
  - vm_compute. intros [_ H]. apply H. reflexivity.
  - vm_compute. discriminate.
  - cbv zeta in H1, H3. split.
    + rewrite H1. vm_compute. reflexivity.
    + specialize (H3 ltac:(lia)). rewrite H1 in H3.
      replace (Utils.formatDateToSpanish sampleZone noLegacyParse
                 "2024-12-31") with "31 DICIEMBRE 2024" in H3
        by (vm_compute; reflexivity).
      rewrite H3. vm_compute. reflexivity.
Defined.

(** X6. The badge of a student list row by the calendar: for a card whose
    expiry is a calendar date, as typed or in the long Spanish form, an
    inactive student is INACTIVO; otherwise the card is EXPIRADO from the
    day after the date, POR VENCER on the date itself and on the thirty
    days before it, and ACTIVO earlier. *)
Theorem badge_by_calendar_day (LocalTZA : Z)
    (legacyDateParse : string -> Js.Num) (now later : Z)
    (student : Gateway.StudentRow) (s : string) (y m d : Z) :
  - Js.msPerDay < LocalTZA < Js.msPerDay ->
  isCalendarDate s y m d ->
  Gateway.expiry student = s
  \/ (100 <= y
      /\ Gateway.expiry student
         = Utils.formatDateToSpanish LocalTZA legacyDateParse s) ->
  Js.Day (Js.LocalTime LocalTZA later) = Js.Day (Js.LocalTime LocalTZA now) ->
  Z.abs (midnightOfDay LocalTZA (Js.Day (Js.LocalTime LocalTZA now)))
  <= Js.maxTime ->
  let expiryDay := Js.MakeDay y (m - 1) d in
  let today := Js.Day (Js.LocalTime LocalTZA now) in
  StaffPage.statusBadge LocalTZA legacyDateParse now later student
  = Js.Normal
      (if bool_decide (Gateway.active student = Some false)
       then StaffPage.INACTIVO
       else if expiryDay <? today then StaffPage.EXPIRADO
       else if expiryDay <=? today + 30 then StaffPage.POR_VENCER
       else StaffPage.ACTIVO).
Proof.
  intros Hz Hs He Hday Hrange expiryDay today. subst expiryDay today.
  destruct (expiryDateOf_stored LocalTZA legacyDateParse Hz
              (Gateway.expiry student) s y m d Hs He) as (Hne & Hd & Hr).
  rewrite (statusBadge_cases LocalTZA legacyDateParse now later student
             (Js.MakeDay y (m - 1) d <? Js.Day (Js.LocalTime LocalTZA now))
             ((Js.Day (Js.LocalTime LocalTZA later) <=? Js.MakeDay y (m - 1) d)
              && (Js.MakeDay y (m - 1) d
                  <=? Js.Day (Js.LocalTime LocalTZA later) + 30))).
  - rewrite Hday. f_equal.
    destruct (bool_decide (Gateway.active student = Some false)); [done|].
    destruct (Z.ltb_spec (Js.MakeDay y (m - 1) d)
                (Js.Day (Js.LocalTime LocalTZA now))); [done|].
    destruct (Z.leb_spec (Js.Day (Js.LocalTime LocalTZA now))
                (Js.MakeDay y (m - 1) d)); [done | lia].
  - by apply isExpired_by_day.
  - by apply isExpiringSoon_by_day.
Qed.

Lemma badge_by_calendar_day_witness :
  StaffPage.statusBadge sampleZone noLegacyParse sampleNow sampleNow
    (sampleStudent "1 ENERO 2025" (Some true))
  = Js.Normal StaffPage.POR_VENCER.
Proof.
  rewrite (badge_by_calendar_day sampleZone noLegacyParse sampleNow sampleNow
             (sampleStudent "1 ENERO 2025" (Some true))
             "2025-01-01" 2025 1 1).
  - vm_compute. reflexivity.
  - vm_compute. split; reflexivity.
  - vm_compute. reflexivity.
  - right. split; [lia|]. vm_compute. reflexivity.
  - reflexivity.
  - vm_compute. discriminate.
Defined.

(** ** Passwords and logins *)

Section LoginFacts.

Import Gateway.

Variable subtleDigest : option (string -> string).



End LoginFacts.



(** On the student of [loginDB], stored as the application creates one, the
    same call throws and the old password stays. *)
Example password_update_on_created_student :
  API.changeStudentPassword None sampleNow "12300298" "nueva-clave"
    (loginDB (Some true))
  = (Js.Throw "Unexpected end of JSON input", loginDB (Some true)).
Proof. vm_compute. reflexivity. Qed.

(** ** Staff accounts *)

Section StaffFacts.

Import Gateway.

Variable subtleDigest : option (string -> string).

(** What a call of [StaffAPI.create] that resolves has done. *)
Lemma staffCreate_resolves now data db result db' :
  API.staffCreate subtleDigest now data db = (Js.Normal result, db') ->
  let email := API.sanitize (Some (API.st_email data)) in
  let row :=
    mkStaffRow (Js.orElse (API.st_id data) (API.st_email data))
      (API.sanitize (Some (Js.orElse (API.st_name data) "")))
      (API.sha256 subtleDigest (API.st_password data)) HistoryDefault now now
    in
  result = (staff_id row, staff_name row, email)
  /\ db' = mkDB (students db) (<[email := row]> (staff db)) (loans db)
  /\ staff db !! email = None
  /\ (forall e r, staff db !! e = Some r -> staff_id r <> staff_id row).
Proof.
  unfold API.staffCreate.
  destruct (negb (Js.includes (API.st_email data) "@udp.edu")
            && negb (Js.includes (API.st_email data) "@unipacifico.edu.co"));
    [discriminate|].
  destruct (single (oneRow (selectStaffByEmailOrId (API.st_email data)
                              (Js.orElse (API.st_id data) (API.st_email data))
                              db))); [|discriminate].
  unfold insertStaff. cbn [staff_id].
  destruct (bool_decide_reflect
              (map_Exists
                 (fun _ r => staff_id r
                             = Js.orElse (API.st_id data) (API.st_email data))
                 (staff db))) as [|Hid]; [discriminate|].
  destruct (staff db !! API.sanitize (Some (API.st_email data))) eqn:Hmail;
    [discriminate|].
  cbn [staff]. rewrite lookup_insert_eq. cbn [single staff_id staff_name].
  intros [= <- <-]. split; [done|]. split; [done|]. split; [done|].
  intros e r He Hr. apply Hid. by exists e, r.
Qed.

(** A call of [StaffAPI.create] that throws leaves the tables as they
    were. *)
Lemma staffCreate_throws now data db message db' :
  API.staffCreate subtleDigest now data db = (Js.Throw message, db') ->
  db' = db.
Proof.
  unfold API.staffCreate.
  destruct (negb (Js.includes (API.st_email data) "@udp.edu")
            && negb (Js.includes (API.st_email data) "@unipacifico.edu.co"));
    [by intros [= _ <-]|].
  destruct (single (oneRow (selectStaffByEmailOrId (API.st_email data)
                              (Js.orElse (API.st_id data) (API.st_email data))
                              db))); [|by intros [= _ <-]].
  unfold insertStaff. cbn [staff_id].
  destruct (bool_decide
              (map_Exists
                 (fun _ r => staff_id r
                             = Js.orElse (API.st_id data) (API.st_email data))
                 (staff db))); [by intros [= _ <-]|].
  destruct (staff db !! API.sanitize (Some (API.st_email data)));
    [by intros [= _ <-]|].
  cbn [staff]. rewrite lookup_insert_eq. cbn [single]. discriminate.
Qed.

End StaffFacts.



(** ** Loans *)

Section LoanFacts.

Import Gateway.

Lemma newestFirst_total : Total newestFirst.
Proof. intros a b. unfold newestFirst. lia. Qed.

Lemma elem_of_selectLoans p db id row :
  (id, row) ∈ selectLoans p db <-> loans db !! id = Some row /\ p row = true.
Proof.
  unfold selectLoans. rewrite merge_sort_Permutation.
  rewrite list_elem_of_filter, elem_of_map_to_list. cbn [snd]. tauto.
Qed.

Lemma NoDup_selectLoans p db : NoDup (selectLoans p db).*1.
Proof.
  unfold selectLoans. rewrite merge_sort_Permutation.
  apply (sublist_NoDup _ (map_to_list (loans db)).*1).
  - apply NoDup_fst_map_to_list.
  - apply fmap_sublist, sublist_filter.
Qed.

Lemma Sorted_selectLoans p db : Sorted newestFirst (selectLoans p db).
Proof. unfold selectLoans. apply Sorted_merge_sort, newestFirst_total. Qed.

Lemma statusText_active st :
  String.eqb (statusText st) "active" = true <-> st = StatusActive.
Proof. by destruct st. Qed.

Lemma filterBy_spec wanted actual :
  LoansAPI.filterBy wanted actual = true
  <-> Js.orElse wanted "" = EmptyString \/ actual = Js.orElse wanted "".
Proof.
  unfold LoansAPI.filterBy.
  destruct (String.eqb_spec (Js.orElse wanted "") "") as [Heq|Hne].
  - split; [by left | done].
  - rewrite String.eqb_eq. split; [by right | by intros [|]].
Qed.

(** What a call of [registerLoan] that succeeds has done. *)
Lemma registerLoan_succeeds uuid now data db result db' :
  LoansAPI.registerLoan uuid now data db = (LoansAPI.Success result, db') ->
  exists row,
    result = (uuid, row)
    /\ db' = mkDB (students db) (staff db) (<[uuid := row]> (loans db))
    /\ loans db !! uuid = None
    /\ is_Some (students db !! LoansAPI.studentCode data)
    /\ (LoansAPI.loanCategory data = "biblioteca"
        \/ LoansAPI.loanCategory data = "laboratorio")
    /\ student_code row = LoansAPI.studentCode data
    /\ student_name row = LoansAPI.studentName data
    /\ category row = LoansAPI.loanCategory data
    /\ item_type row = LoansAPI.itemType data
    /\ loan_staff_email row = LoansAPI.staffEmail data
    /\ loan_staff_name row = LoansAPI.staffName data
    /\ borrowed_at row = default now (LoansAPI.borrowedAt data)
    /\ returned_at row = None
    /\ status row = StatusActive.
Proof.
  unfold LoansAPI.registerLoan, insertLoan. cbn [category student_code].
  destruct (String.eqb_spec (LoansAPI.loanCategory data) "biblioteca")
    as [Hb|Hb];
    destruct (String.eqb_spec (LoansAPI.loanCategory data) "laboratorio")
      as [Hl|Hl]; cbn [orb negb]; try discriminate;
    (destruct (loans db !! uuid) eqn:Hid; [discriminate|]);
    (destruct (students db !! LoansAPI.studentCode data) eqn:Hstu;
     [|discriminate]);
    intros [= <- <-]; eexists; (split; [reflexivity|]);
    (split; [reflexivity|]); cbn; rewrite ?Hstu; auto 20.
Qed.

(** A call of [registerLoan] that fails leaves the tables as they were. *)
Lemma registerLoan_fails uuid now data db error db' :
  LoansAPI.registerLoan uuid now data db = (LoansAPI.Failure error, db') ->
  db' = db.
Proof.
  unfold LoansAPI.registerLoan, insertLoan. cbn [category student_code].
  destruct (negb _); [by intros [= _ <-]|].
  destruct (loans db !! uuid); [by intros [= _ <-]|].
  destruct (students db !! LoansAPI.studentCode data); [discriminate|].
  by intros [= _ <-].
Qed.

Lemma elem_of_getActiveLoans now db id row days :
  LoansAPI.mkListedLoan id row days ∈ dataOf (LoansAPI.getActiveLoans now db)
  <-> loans db !! id = Some row
      /\ status row = StatusActive
      /\ days = (now - borrowed_at row) / dayLength.
Proof.
  unfold LoansAPI.getActiveLoans. cbn [dataOf].
  rewrite list_elem_of_fmap. split.
  - intros ([id' row'] & [= -> -> ->] & Hin).
    apply elem_of_selectLoans in Hin as [Hrow Hst].
    by apply statusText_active in Hst.
  - intros (Hrow & Hst & ->). exists (id, row). split; [done|].
    apply elem_of_selectLoans. split; [done|]. by apply statusText_active.
Qed.

Lemma elem_of_getLoansHistory now filters db id row days :
  LoansAPI.mkListedLoan id row days
    ∈ dataOf (LoansAPI.getLoansHistory now filters db)
  <-> loans db !! id = Some row
      /\ (Js.orElse (LoansAPI.flt_category filters) "" = EmptyString
          \/ category row = Js.orElse (LoansAPI.flt_category filters) "")
      /\ (Js.orElse (LoansAPI.flt_status filters) "" = EmptyString
          \/ statusText (status row)
             = Js.orElse (LoansAPI.flt_status filters) "")
      /\ (Js.orElse (LoansAPI.flt_studentCode filters) "" = EmptyString
          \/ student_code row
             = Js.orElse (LoansAPI.flt_studentCode filters) "")
      /\ days = (default now (returned_at row) - borrowed_at row)
                / dayLength.
Proof.
  unfold LoansAPI.getLoansHistory. cbn [dataOf].
  rewrite list_elem_of_fmap. split.
  - intros ([id' row'] & [= -> -> ->] & Hin).
    apply elem_of_selectLoans in Hin as [Hrow Hf].
    apply andb_true_iff in Hf as [Hf H3].
    apply andb_true_iff in Hf as [H1 H2].
    apply filterBy_spec in H1, H2, H3. done.
  - intros (Hrow & H1 & H2 & H3 & ->). exists (id, row). split; [done|].
    apply elem_of_selectLoans. split; [done|].
    apply filterBy_spec in H1, H2, H3. cbn [snd fst].
    by rewrite H1, H2, H3.
Qed.

Lemma elem_of_getStudentActiveLoans code db id row :
  (id, row) ∈ dataOf (LoansAPI.getStudentActiveLoans code db)
  <-> loans db !! id = Some row
      /\ student_code row = code
      /\ status row = StatusActive.
Proof.
  unfold LoansAPI.getStudentActiveLoans. cbn [dataOf].
  rewrite elem_of_selectLoans. split.
  - intros (Hrow & Hf). apply andb_true_iff in Hf as [H1 H2].
    apply String.eqb_eq in H1. by apply statusText_active in H2.
  - intros (Hrow & <- & Hst). split; [done|].
    rewrite String.eqb_refl. by apply statusText_active.
Qed.

End LoanFacts.

(** X9. The listings of loans.  [getActiveLoans] returns exactly the loans
    whose status is active, [getStudentActiveLoans] those of them of the
    student asked for, and [getLoansHistory] the loans that match each
    filter given (a missing or empty filter matches all); every loan comes
    once, the most recently borrowed first, with the whole number of days
    since it was borrowed, or for the history up to its return. *)
Theorem loan_listings_exact (now : Z) (filters : LoansAPI.LoanFilters)
    (code : string) (db : Gateway.DB) :
  let active := dataOf (LoansAPI.getActiveLoans now db) in
  let history := dataOf (LoansAPI.getLoansHistory now filters db) in
  let mine := dataOf (LoansAPI.getStudentActiveLoans code db) in
  let matches (wanted : Js.Undefinable string) (actual : string) :=
    Js.orElse wanted "" = EmptyString \/ actual = Js.orElse wanted "" in
  let newestFirstListed (a b : LoansAPI.ListedLoan) :=
    Gateway.borrowed_at (LoansAPI.listed_row b)
    <= Gateway.borrowed_at (LoansAPI.listed_row a) in
  (forall id row days,
      LoansAPI.mkListedLoan id row days ∈ active
      <-> Gateway.loans db !! id = Some row
          /\ Gateway.status row = Gateway.StatusActive
          /\ days = (now - Gateway.borrowed_at row) / dayLength)
  /\ (forall id row days,
         LoansAPI.mkListedLoan id row days ∈ history
         <-> Gateway.loans db !! id = Some row
             /\ matches (LoansAPI.flt_category filters) (Gateway.category row)
             /\ matches (LoansAPI.flt_status filters)
                  (Gateway.statusText (Gateway.status row))
             /\ matches (LoansAPI.flt_studentCode filters)
                  (Gateway.student_code row)
             /\ days = (default now (Gateway.returned_at row)
                        - Gateway.borrowed_at row) / dayLength)
  /\ (forall id row,
         (id, row) ∈ mine
         <-> Gateway.loans db !! id = Some row
             /\ Gateway.student_code row = code
             /\ Gateway.status row = Gateway.StatusActive)
  /\ NoDup (LoansAPI.listed_id <$> active)
  /\ NoDup (LoansAPI.listed_id <$> history)
  /\ NoDup mine.*1
  /\ Sorted newestFirstListed active
  /\ Sorted newestFirstListed history
  /\ Sorted Gateway.newestFirst mine.
Proof.
  intros active history mine matches newestFirstListed.
  subst active history mine matches newestFirstListed.
  split; [|split; [|split; [|split; [|split; [|split; [|split; [|split]]]]]]].
  - apply elem_of_getActiveLoans.
  - apply elem_of_getLoansHistory.
  - apply elem_of_getStudentActiveLoans.
  - unfold LoansAPI.getActiveLoans. cbn [dataOf].
    rewrite <- list_fmap_compose. apply NoDup_selectLoans.
  - unfold LoansAPI.getLoansHistory. cbn [dataOf].
    rewrite <- list_fmap_compose. apply NoDup_selectLoans.
  - apply NoDup_selectLoans.
  - unfold LoansAPI.getActiveLoans. cbn [dataOf].
    eapply Sorted_fmap; [|apply Sorted_selectLoans]. by intros [] [].
  - unfold LoansAPI.getLoansHistory. cbn [dataOf].
    eapply Sorted_fmap; [|apply Sorted_selectLoans]. by intros [] [].
  - apply Sorted_selectLoans.
Qed.

(** X10. The life of a loan.  A loan that [registerLoan] has recorded is
    among the active loans of its student; [returnLoan] on its id succeeds,
    stamps it with the instant of the return and leaves its other columns;
    from then on no listing of active loans shows it, and the history of
    returned loans of the student shows it with the whole number of days it
    lasted.  Neither call touches students, staff or any other loan. *)
Theorem loan_lifecycle (uuid : string) (now later : Z)
    (data : LoansAPI.LoanData) (db db1 : Gateway.DB) (id : string)
    (row : Gateway.LoanRow) :
  LoansAPI.registerLoan uuid now data db = (LoansAPI.Success (id, row), db1) ->
  let returned := LoansAPI.returnLoan later id db1 in
  let db2 := returned.2 in
  let code := LoansAPI.studentCode data in
  id = uuid
  /\ (id, row) ∈ dataOf (LoansAPI.getStudentActiveLoans code db1)
  /\ (exists row',
         returned.1 = LoansAPI.Success (id, row')
         /\ Gateway.status row' = Gateway.StatusReturned
         /\ Gateway.returned_at row' = Some later
         /\ Gateway.student_code row' = code
         /\ Gateway.item_type row' = LoansAPI.itemType data
         /\ Gateway.borrowed_at row' = Gateway.borrowed_at row
         /\ (forall t,
                LoansAPI.mkListedLoan id row'
                  ((later - Gateway.borrowed_at row) / dayLength)
                ∈ dataOf (LoansAPI.getLoansHistory t
                            (LoansAPI.mkLoanFilters None (Some "returned")
                               (Some code))
                            db2)))
  /\ (forall r, (id, r) ∉ dataOf (LoansAPI.getStudentActiveLoans code db2))
  /\ (forall t r days,
         LoansAPI.mkListedLoan id r days
         ∉ dataOf (LoansAPI.getActiveLoans t db2))
  /\ Gateway.students db2 = Gateway.students db
  /\ Gateway.staff db2 = Gateway.staff db
  /\ (forall id2, id2 <> id ->
         Gateway.loans db2 !! id2 = Gateway.loans db !! id2).
Proof.
  intros Hreg returned db2 code. subst returned db2 code.
  destruct (registerLoan_succeeds uuid now data db _ db1 Hreg)
    as (row0 & [= -> ->] & -> & Hfresh & Hstu & Hcat & Hcode & _ & _ & Hitem
        & _ & _ & Hborrowed & Hret & Hst).
  unfold LoansAPI.returnLoan, Gateway.updateLoan. cbn [Gateway.loans].
  rewrite lookup_insert_eq. cbn [Gateway.single fst snd].
  split; [done|]. split.
  { apply elem_of_getStudentActiveLoans. cbn [Gateway.loans].
    by rewrite lookup_insert_eq. }
  split.
  { eexists. split; [reflexivity|].
    cbn [Gateway.status Gateway.returned_at Gateway.student_code
         Gateway.item_type Gateway.borrowed_at].
    repeat (split; [done|]).
    intros t. apply elem_of_getLoansHistory.
    cbn [Gateway.loans Gateway.status Gateway.returned_at
         Gateway.student_code Gateway.category Gateway.borrowed_at
         LoansAPI.flt_category LoansAPI.flt_status LoansAPI.flt_studentCode
         Gateway.statusText default].
    rewrite lookup_insert_eq. split; [done|]. split; [by left|].
    split; [by right|]. split; [|done].
    unfold Js.orElse.
    destruct (String.eqb_spec (LoansAPI.studentCode data) "");
      [by left | by right]. }
  split.
  { intros r Hin. apply elem_of_getStudentActiveLoans in Hin.
    cbn [Gateway.loans] in Hin. rewrite lookup_insert_eq in Hin.
    by destruct Hin as ([= <-] & _ & Hbad). }
  split.
  { intros t r days Hin. apply elem_of_getActiveLoans in Hin.
    cbn [Gateway.loans] in Hin. rewrite lookup_insert_eq in Hin.
    by destruct Hin as ([= <-] & Hbad & _). }
  split; [done|]. split; [done|].
  intros id2 Hne. cbn [Gateway.loans].
  rewrite !lookup_insert_ne by done. done.
Qed.

Lemma loan_lifecycle_witness :
  exists row,
    (LoansAPI.returnLoan sampleLater "loan-2"
       (LoansAPI.registerLoan "loan-2" sampleNow (sampleLoanData "12300298")
          sampleDB).2).1
    = LoansAPI.Success ("loan-2", row)
    /\ Gateway.status row = Gateway.StatusReturned
    /\ Gateway.returned_at row = Some sampleLater.
Proof.
  destruct (loan_lifecycle "loan-2" sampleNow sampleLater
              (sampleLoanData "12300298") sampleDB
              (LoansAPI.registerLoan "loan-2" sampleNow
                 (sampleLoanData "12300298") sampleDB).2
              "loan-2"
              (default sampleLoan
                 (Gateway.loans
                    (LoansAPI.registerLoan "loan-2" sampleNow
                       (sampleLoanData "12300298") sampleDB).2 !! "loan-2")))
    as (_ & _ & (row & Hreturned & Hstatus & Hat & _) & _).
  - vm_compute. reflexivity.
  - exists row. split; [exact Hreturned|]. split; [exact Hstatus | exact Hat].
Defined.

(** X11. The loan form records a loan only for a staff session and a
    student that exists.  When [handleLoanSubmit] shows its success modal,
    the session is one of role staff, the trimmed code is the key of a
    student, and the tables differ by one new loan under the key drawn:
    active, not returned, of that student, of the category chosen, with a
    non-empty item, signed with the email and name of the session, and
    listed among the active loans of the student.  With any other outcome
    the tables are as they were. *)
Theorem loan_form_outcomes (LocalTZA : Z)
    (legacyDateParse : string -> Js.Num) (uuid : string) (now : Z)
    (form : StaffLoans.LoanForm) (session : option StaffLoans.Session)
    (db db' : Gateway.DB) (result : Js.Completion StaffLoans.Modal) :
  StaffLoans.handleLoanSubmit LocalTZA legacyDateParse uuid now form session
    db = (result, db') ->
  let code := Js.trim (StaffLoans.f_studentCode form) in
  (forall title message,
      result = Js.Normal (StaffLoans.ModalSuccess title message) ->
      exists s row,
        session = Some s
        /\ StaffLoans.s_role s = "staff"
        /\ is_Some (Gateway.students db !! code)
        /\ Gateway.loans db !! uuid = None
        /\ db' = Gateway.mkDB (Gateway.students db) (Gateway.staff db)
                   (<[uuid := row]> (Gateway.loans db))
        /\ Gateway.student_code row = code
        /\ Gateway.category row = StaffLoans.f_category form
        /\ Gateway.item_type row <> EmptyString
        /\ Gateway.loan_staff_email row = StaffLoans.s_email s
        /\ Gateway.loan_staff_name row = StaffLoans.s_name s
        /\ Gateway.status row = Gateway.StatusActive
        /\ Gateway.returned_at row = None
        /\ (uuid, row) ∈ dataOf (LoansAPI.getStudentActiveLoans code db'))
  /\ ((forall title message,
          result <> Js.Normal (StaffLoans.ModalSuccess title message)) ->
      db' = db).
Proof.
  intros Hsubmit code. subst code. revert Hsubmit.
  unfold StaffLoans.handleLoanSubmit.
  destruct (LoansAPI.validateStudent
              (Js.trim (StaffLoans.f_studentCode form)) db)
    as [student|error] eqn:Hvalid;
    [|intros [= <- <-]; split; [discriminate | done]].
  set (itemType :=
         if String.eqb (StaffLoans.f_category form) "biblioteca"
         then StaffLoans.f_libraryItem form
         else Js.trim (StaffLoans.f_labItem form)).
  destruct (String.eqb_spec itemType "") as [|Hitem];
    [intros [= <- <-]; split; [discriminate | done]|].
  destruct session as [s|]; cbn [Gateway.andWhere];
    [|intros [= <- <-]; split; [discriminate | done]].
  destruct (String.eqb_spec (StaffLoans.s_role s) "staff") as [Hrole|_];
    [|intros [= <- <-]; split; [discriminate | done]].
  destruct (StaffLoans.borrowedAtOf LocalTZA legacyDateParse form)
    as [borrowedAt|e];
    [|intros [= <- <-]; split; [discriminate | done]].
  match goal with
  | |- context [LoansAPI.registerLoan uuid now ?d db] =>
      destruct (LoansAPI.registerLoan uuid now d db) as [[data|error] db1]
        eqn:Hreg
  end.
  - intros [= <- <-]. split.
    + intros title message _.
      destruct (registerLoan_succeeds uuid now _ db data db1 Hreg)
        as (row & -> & -> & Hfresh & Hstu & _ & Hcode & _ & Hcat & Hit & Hmail
            & Hname & _ & Hret & Hst).
      cbn [LoansAPI.studentCode LoansAPI.loanCategory LoansAPI.itemType
           LoansAPI.staffEmail LoansAPI.staffName] in *.
      exists s, row. repeat (split; [done|]).
      split; [by rewrite Hit|]. repeat (split; [done|]).
      apply elem_of_getStudentActiveLoans. cbn [Gateway.loans].
      by rewrite lookup_insert_eq.
    + intros Hno. by destruct (Hno "Éxito" "Préstamo registrado exitosamente").
  - intros [= <- <-]. split; [discriminate|]. intros _.
    by apply (registerLoan_fails uuid now _ db error db1 Hreg).
Qed.

Lemma loan_form_outcomes_witness :
  exists row,
    ("loan-2", row)
    ∈ dataOf (LoansAPI.getStudentActiveLoans "12300298"
                (StaffLoans.handleLoanSubmit sampleZone noLegacyParse
                   "loan-2" sampleNow (sampleLoanForm " 12300298 ")
                   (Some sampleSession) sampleDB).2).
Proof.
  destruct (loan_form_outcomes sampleZone noLegacyParse "loan-2" sampleNow
              (sampleLoanForm " 12300298 ") (Some sampleSession) sampleDB
              (StaffLoans.handleLoanSubmit sampleZone noLegacyParse
                 "loan-2" sampleNow (sampleLoanForm " 12300298 ")
                 (Some sampleSession) sampleDB).2
              (Js.Normal (StaffLoans.ModalSuccess "Éxito"
                            "Préstamo registrado exitosamente")))
    as [Hok _].
  - vm_compute. reflexivity.
  - destruct (Hok _ _ eq_refl) as (s & row & _ & _ & _ & _ & _ & _ & _ & _
                                   & _ & _ & _ & _ & Hin).
    exists row. exact Hin.
Defined.

(** ** The student form *)

Section TrimFacts.

Import Js.

Lemma append_assoc a b c : (a +:+ b) +:+ c = a +:+ (b +:+ c).
Proof.
  induction a as [|x a IH]; [done|]. by rewrite !append_cons, IH.
Qed.


Lemma append_empty s : s +:+ EmptyString = s.
Proof. induction s as [|x s IH]; [done|]. by rewrite append_cons, IH. Qed.











End TrimFacts.

Section FormFacts.

Import Gateway.

Variable subtleDigest : option (string -> string).





Variable LocalTZA : Z.
Variable legacyDateParse : string -> Js.Num.
Variable toUpperCase : string -> string.



End FormFacts.



Section SavedCard.

Import Js.

Variable LocalTZA : Z.
Variable legacyDateParse : string -> Num.
Hypothesis zone_offset : - msPerDay < LocalTZA < msPerDay.





End SavedCard.



(** ** What every write keeps true *)

Section Consistency.

Import Gateway.

Variable subtleDigest : option (string -> string).

Lemma dbConsistent_same_loans db db' :
  loans db' = loans db ->
  (forall c, is_Some (students db !! c) -> is_Some (students db' !! c)) ->
  dbConsistent db -> dbConsistent db'.
Proof.
  intros Hloans Hstudents Hdb id row Hrow. rewrite Hloans in Hrow.
  destruct (Hdb id row Hrow) as (Hs & Hc & Hr). auto.
Qed.

Lemma is_Some_alter {A} (f : A -> A) (m : gmap string A) k c :
  is_Some (m !! c) -> is_Some (alter f k m !! c).
Proof.
  intros [x Hx]. destruct (decide (c = k)) as [-> | Hne].
  - rewrite lookup_alter_eq, Hx. by eexists.
  - rewrite lookup_alter_ne by done. by eexists.
Qed.

Lemma is_Some_insert {A} (x : A) (m : gmap string A) k c :
  is_Some (m !! c) -> is_Some (<[k := x]> m !! c).
Proof.
  intros Hc. destruct (decide (c = k)) as [-> | Hne].
  - rewrite lookup_insert_eq. by eexists.
  - by rewrite lookup_insert_ne.
Qed.

Lemma createOrUpdate_keeps now data db :
  loans (API.createOrUpdate subtleDigest now data db).2 = loans db
  /\ forall c,
       is_Some (students db !! c) ->
       is_Some (students (API.createOrUpdate subtleDigest now data db).2
                  !! c).
Proof.
  unfold API.createOrUpdate. destruct data as [sd|]; [|done].
  destruct (String.eqb (Js.orElse (API.sd_code sd) "") ""); [done|].
  destruct (students db !! API.sanitize (API.sd_code sd)) eqn:Hold.
  - cbn [snd updateStudent loans students]. split; [done|].
    intros c. apply is_Some_alter.
  - unfold insertStudent. rewrite Hold. cbn [snd loans students].
    split; [done|]. intros c. apply is_Some_insert.
Qed.

Lemma runOp_keeps db op :
  loans (runOp subtleDigest db op) = loans db
  /\ forall c,
       is_Some (students db !! c) ->
       is_Some (students (runOp subtleDigest db op) !! c).
Proof.
  destruct op as [now code pw | now code pw by_ | now email pw by_];
    cbn [runOp].
  - unfold API.changeStudentPassword.
    destruct (students db !! API.sanitize (Some code)) as [existing|];
      [|done].
    destruct (API.parseHistory (password_history existing)); [|done].
    cbn [snd updateStudent loans students]. split; [done|].
    intros c. apply is_Some_alter.
  - unfold API.resetPassword.
    destruct (students db !! API.sanitize (Some code)) as [existing|];
      [|done].
    destruct (API.parseHistory (password_history existing)); [|done].
    cbn [snd updateStudent loans students]. split; [done|].
    intros c. apply is_Some_alter.
  - unfold API.staffResetPassword.
    destruct (staff db !! API.sanitize (Some email)) as [existing|]; [|done].
    by destruct (API.parseHistory (staff_password_history existing)).
Qed.

Lemma staffCreate_keeps now data db :
  loans (API.staffCreate subtleDigest now data db).2 = loans db
  /\ students (API.staffCreate subtleDigest now data db).2 = students db.
Proof.
  destruct (API.staffCreate subtleDigest now data db) as [[r|e] db'] eqn:H.
  - destruct (staffCreate_resolves subtleDigest now data db r db' H)
      as (_ & -> & _). done.
  - by rewrite (staffCreate_throws subtleDigest now data db e db' H).
Qed.

Lemma registerLoan_consistent uuid now data db :
  dbConsistent db ->
  dbConsistent (LoansAPI.registerLoan uuid now data db).2.
Proof.
  intros Hdb.
  destruct (LoansAPI.registerLoan uuid now data db) as [[r|e] db'] eqn:H.
  - destruct (registerLoan_succeeds uuid now data db r db' H)
      as (row & _ & -> & _ & Hstu & Hcat & Hcode & _ & Hc & _ & _ & _ & _
          & Hret & Hst).
    intros id row' Hrow. cbn [snd loans students] in *.
    destruct (decide (id = uuid)) as [-> | Hne].
    + rewrite lookup_insert_eq in Hrow. injection Hrow as <-.
      rewrite Hcode, Hc, Hret, Hst. split; [done|]. split; [done|].
      split; [discriminate | by intros []].
    + rewrite lookup_insert_ne in Hrow by done. by apply (Hdb id).
  - by rewrite (registerLoan_fails uuid now data db e db' H).
Qed.

Lemma returnLoan_consistent now id db :
  dbConsistent db -> dbConsistent (LoansAPI.returnLoan now id db).2.
Proof.
  intros Hdb. unfold LoansAPI.returnLoan, updateLoan.
  destruct (loans db !! id) as [old|] eqn:Hold; [|done].
  cbn [single snd]. intros id' row Hrow. cbn [loans students] in *.
  destruct (decide (id' = id)) as [-> | Hne].
  - rewrite lookup_insert_eq in Hrow. injection Hrow as <-.
    cbn [student_code category status returned_at].
    destruct (Hdb id old Hold) as (Hs & Hc & _).
    split; [done|]. split; [done|]. split; [by eexists | done].
  - rewrite lookup_insert_ne in Hrow by done. by apply (Hdb id').
Qed.

Lemma deleteStudent_consistent code db :
  dbConsistent db -> dbConsistent (API.deleteStudent code db).2.
Proof.
  intros Hdb. unfold API.deleteStudent, Gateway.deleteStudent. cbn [snd].
  destruct (students db !! API.sanitize (Some code)); [|done].
  intros id row Hrow. cbn [loans students] in *.
  apply map_lookup_filter_Some in Hrow as [Hrow Hne]. cbn [snd] in Hne.
  destruct (Hdb id row Hrow) as (Hs & Hc & Hr).
  split; [|done]. by rewrite lookup_delete_ne.
Qed.

Lemma runOperation_consistent db op :
  dbConsistent db -> dbConsistent (runOperation subtleDigest db op).
Proof.
  intros Hdb. destruct op; cbn [runOperation].
  - by apply registerLoan_consistent.
  - by apply returnLoan_consistent.
  - destruct (createOrUpdate_keeps now studentData db) as [Hl Hs].
    by apply (dbConsistent_same_loans db).
  - destruct (runOp_keeps db op) as [Hl Hs].
    by apply (dbConsistent_same_loans db).
  - destruct (staffCreate_keeps now staffData db) as [Hl Hs].
    apply (dbConsistent_same_loans db); [done | | done].
    intros c. by rewrite Hs.
  - by apply deleteStudent_consistent.
  - by apply (dbConsistent_same_loans db).
Qed.

End Consistency.

(** X14. Every write keeps the loans consistent.  Whatever calls of
    [registerLoan], [returnLoan], [createOrUpdate], the three password
    updates, [StaffAPI.create] and the two deletions are made, in whatever
    order and whether they succeed or fail, every loan still belongs to a
    student that exists, has one of the two categories, and has the status
    returned exactly when it carries the instant of its return; the empty
    database is consistent to begin with. *)
Theorem writes_keep_loans_consistent
    (subtleDigest : option (string -> string)) (ops : list Operation)
    (db : Gateway.DB) :
  dbConsistent db ->
  dbConsistent (runOperations subtleDigest ops db)
  /\ dbConsistent (runOperations subtleDigest ops (Gateway.mkDB ∅ ∅ ∅)).
Proof.
  assert (Hall : forall start,
             dbConsistent start ->
             dbConsistent (runOperations subtleDigest ops start)).
  { unfold runOperations. induction ops as [|op ops IH]; intros start Hs;
      [done|].
    cbn [foldl]. apply IH. by apply runOperation_consistent. }
  intros Hdb. split; [by apply Hall|]. apply Hall.
  intros id row Hrow. cbn [Gateway.loans] in Hrow.
  by rewrite lookup_empty in Hrow.
Qed.

Lemma sampleDB_consistent : dbConsistent sampleDB.
Proof.
  intros id row Hrow. cbn [Gateway.loans sampleDB] in Hrow.
  apply lookup_singleton_Some in Hrow as [_ <-].
  split; [by eexists|]. split; [by left|]. split; [by eexists | done].
Qed.

Lemma writes_keep_loans_consistent_witness :
  dbConsistent (runOperations None sampleOperations sampleDB).
Proof.
  apply (writes_keep_loans_consistent None sampleOperations sampleDB).
  apply sampleDB_consistent.
Defined.



(** ** The status filter of the student list *)

(** X16. The status filter against the badge.  With the clock read at the
    same instants, the filter [inactive] keeps exactly the students whose
    badge is INACTIVO and the filter [active] exactly those whose badge is
    ACTIVO; the filter [expired] keeps every student whose badge is EXPIRADO
    and the filter [expiring] every one whose badge is POR VENCER, but both
    look at the date alone: what else they keep has the badge INACTIVO, or,
    for [expiring], EXPIRADO.  No filter, or a status the list does not
    know, keeps everybody. *)
Theorem status_filter_matches_badge (LocalTZA : Z)
    (legacyDateParse : string -> Js.Num) (now later : Z)
    (student : Gateway.StudentRow) :
  let keeps status :=
    StaffPanel.passesStatusFilter LocalTZA legacyDateParse status now later
      student in
  exists badge,
    StaffPage.statusBadge LocalTZA legacyDateParse now later student
    = Js.Normal badge
    /\ (keeps "inactive" = Js.Normal true <-> badge = StaffPage.INACTIVO)
    /\ (keeps "active" = Js.Normal true <-> badge = StaffPage.ACTIVO)
    /\ (badge = StaffPage.EXPIRADO -> keeps "expired" = Js.Normal true)
    /\ (badge = StaffPage.POR_VENCER -> keeps "expiring" = Js.Normal true)
    /\ (keeps "expired" = Js.Normal true ->
        badge = StaffPage.EXPIRADO \/ badge = StaffPage.INACTIVO)
    /\ (keeps "expiring" = Js.Normal true -> badge <> StaffPage.ACTIVO)
    /\ (forall status, exists b, keeps status = Js.Normal b)
    /\ keeps "" = Js.Normal true
    /\ (forall status,
           status <> "inactive" -> status <> "expired" ->
           status <> "expiring" -> status <> "active" ->
           keeps status = Js.Normal true).
Proof.
  intros keeps. subst keeps.
  destruct (status_functions_total LocalTZA legacyDateParse now
              (Js.VString (Gateway.expiry student))) as [[b1 H1] _].
  destruct (status_functions_total LocalTZA legacyDateParse later
              (Js.VString (Gateway.expiry student))) as [_ [b2 H2]].
  eexists. split.
  { by apply (statusBadge_cases LocalTZA legacyDateParse now later student
                b1 b2). }
  unfold StaffPanel.passesStatusFilter. cbn [String.eqb Ascii.eqb Bool.eqb].
  rewrite H1, H2. cbn [Js.bind].
  destruct (bool_decide (Gateway.active student = Some false));
    destruct b1; destruct b2; cbn [negb];
    (split; [by split|]); (split; [by split|]); (split; [done|]);
    (split; [done|]);
    (split; [intros; first [by left | by right]|]);
    (split; [done|]);
    (split; [|split; [done|]]).
  all: try (intros status;
            repeat (destruct (String.eqb status _); [by eexists|]);
            by eexists).
  all: intros status Hi He Hg Ha;
    apply String.eqb_neq in Hi, He, Hg, Ha;
    rewrite Hi, He, Hg, Ha; by destruct (String.eqb status "").
Qed.

(** ** From the reset of a password to the next login *)



(** For the student of [loginDB], stored as the application creates one,
    the panel shows the error and the password stays the cedula; a password
    of white space only, no-break spaces included, is refused as blank. *)
Example reset_on_created_student :
  StaffPanel.handleResetStudentPassword None sampleNow " 12300298 "
    "temporal1" (Some sampleSession) (loginDB (Some true))
  = (StaffLoans.ModalError "Error" "Unexpected end of JSON input",
     loginDB (Some true))
  /\ StaffPanel.handleResetStudentPassword None sampleNow "12300298"
       (noBreakSpace +:+ " ")
       (Some sampleSession) sampleDB
     = (StaffLoans.ModalWarning "Campos requeridos"
          "Ingresa código y nueva contraseña.", sampleDB).
Proof. split; vm_compute; reflexivity. Qed.

(** ** The export *)

Section CsvFacts.

Import StaffPanel.

Lemma join_cons sep x y rest :
  join sep (x :: y :: rest) = x +:+ sep +:+ join sep (y :: rest).
Proof. reflexivity. Qed.

Lemma doubleQuotes_read t : forall field record rest,
  csvRead Quoted field record (doubleQuotes t +:+ String quoteChar rest)
  = csvRead QuoteSeen (field +:+ t) record rest.
Proof.
  induction t as [|c t IH]; intros field record rest.
  - rewrite append_empty. cbn [doubleQuotes]. rewrite append_nil.
    cbn [csvRead]. by rewrite Ascii.eqb_refl.
  - cbn [doubleQuotes]. fold quoteChar.
    destruct (Ascii.eqb c quoteChar) eqn:Hc.
    + rewrite !append_cons. cbn [csvRead]. rewrite Hc. cbn [csvRead].
      rewrite IH. by rewrite append_assoc.
    + rewrite append_cons. cbn [csvRead]. rewrite Hc, IH.
      by rewrite append_assoc.
Qed.

Lemma csvCell_read h v record rest :
  csvRead FieldStart EmptyString record (csvCell h v +:+ rest)
  = csvRead QuoteSeen (cellText h v) record rest.
Proof.
  assert (Hshape : csvCell h v
                   = String quoteChar
                       (doubleQuotes (cellText h v)
                        +:+ String quoteChar EmptyString)).
  { unfold csvCell, cellText.
    by destruct (String.eqb h "photo" && Js.truthy v). }
  rewrite Hshape, append_cons, append_assoc, append_cons, append_nil.
  cbn [csvRead]. rewrite Ascii.eqb_refl.
  by rewrite doubleQuotes_read, append_nil.
Qed.

(** A line of quoted cells, for a reader that after the last cell of the
    line goes on as [k]. *)
Lemma csvLine_read (r : list (string * Js.Value)) rest
    (k : list string -> option (list (list string))) :
  (forall field record, csvRead QuoteSeen field record rest
                        = k (record ++ [field])) ->
  forall headers record,
    headers <> [] ->
    csvRead FieldStart EmptyString record
      (join "," ((fun h => csvCell h (property r h)) <$> headers) +:+ rest)
    = k (record ++ ((fun h => cellText h (property r h)) <$> headers)).
Proof.
  intros Hk headers. induction headers as [|h [|h2 hs] IH];
    intros record Hne; [done| |].
  - cbn [fmap list_fmap join]. by rewrite csvCell_read, Hk.
  - change ((fun h => csvCell h (property r h)) <$> h :: h2 :: hs)
      with (csvCell h (property r h)
            :: ((fun h => csvCell h (property r h)) <$> h2 :: hs)).
    cbn [fmap list_fmap] in *. rewrite join_cons, !append_assoc.
    rewrite csvCell_read. rewrite append_cons, append_nil.
    cbn [csvRead csvSeparator Ascii.eqb Bool.eqb quoteChar ascii_of_nat
         ascii_of_pos ascii_of_N].
    change (csvRead QuoteSeen (cellText h (property r h)) record
              (String "," (join "," (csvCell h2 (property r h2)
                 :: list_fmap _ _ (fun h => csvCell h (property r h)) hs)
                 +:+ rest)))
      with (csvRead FieldStart EmptyString
              (record ++ [cellText h (property r h)])
              (join "," (csvCell h2 (property r h2)
                 :: list_fmap _ _ (fun h => csvCell h (property r h)) hs)
               +:+ rest)).
    rewrite IH by done. by rewrite <- app_assoc.
Qed.

Lemma csvRead_unquoted_comma field record rest :
  csvRead Unquoted field record (String "," rest)
  = csvRead FieldStart EmptyString (record ++ [field]) rest.
Proof. reflexivity. Qed.

(** A header outside quotes, up to the comma or line feed after it. *)
Lemma plainHeader_read h : forall mode field record rest,
  plainHeader h = true ->
  mode = FieldStart \/ mode = Unquoted ->
  (exists rest', rest = String "," rest' \/ rest = String lineFeed rest') ->
  csvRead mode field record (h +:+ rest)
  = csvRead Unquoted (field +:+ h) record rest.
Proof.
  induction h as [|c h IH]; intros mode field record rest Hplain Hmode Hrest.
  - rewrite append_nil, append_empty.
    by destruct Hmode as [-> | ->]; destruct Hrest as [rest' [-> | ->]].
  - cbn [plainHeader Js.everyChar] in Hplain.
    apply andb_true_iff in Hplain as [Hc Hplain].
    apply negb_true_iff, orb_false_iff in Hc as [Hc Hlf].
    apply orb_false_iff in Hc as [Hcomma Hquote].
    rewrite append_cons.
    assert (Hstep : csvRead mode field record (String c (h +:+ rest))
                    = csvRead Unquoted (field +:+ String c EmptyString) record
                        (h +:+ rest)).
    { destruct Hmode as [-> | ->]; cbn [csvRead]; unfold csvSeparator;
        by rewrite Hquote, Hcomma, Hlf. }
    rewrite Hstep, (IH Unquoted) by (done || by right).
    by rewrite append_assoc.
Qed.

Lemma csvHeaders_read rest' : forall headers record,
  headers <> [] ->
  Forall (fun h => plainHeader h = true) headers ->
  csvRead FieldStart EmptyString record
    (join "," headers +:+ String lineFeed rest')
  = cons (record ++ headers) <$> csvRead FieldStart EmptyString [] rest'.
Proof.
  intros headers. induction headers as [|h [|h2 hs] IH];
    intros record Hne Hplain; [done| |].
  - apply Forall_cons in Hplain as [Hh _]. cbn [join].
    rewrite plainHeader_read by (done || by left || by eexists; right).
    by rewrite append_nil.
  - apply Forall_cons in Hplain as [Hh Hplain].
    rewrite join_cons, !append_assoc.
    rewrite plainHeader_read by (done || by left || by eexists; left).
    rewrite append_nil, append_cons, append_nil, csvRead_unquoted_comma.
    rewrite IH by done. by rewrite <- app_assoc.
Qed.

(** The lines of the rows. *)
Lemma csvLines_read headers :
  headers <> [] ->
  forall rows : list (list (string * Js.Value)),
    rows <> [] ->
    csvRead FieldStart EmptyString []
      (join (String lineFeed EmptyString)
         ((fun r => join "," ((fun h => csvCell h (property r h))
                                <$> headers)) <$> rows))
    = Some ((fun r => (fun h => cellText h (property r h)) <$> headers)
              <$> rows).
Proof.
  intros Hheaders rows. induction rows as [|r [|r2 rows] IH]; intros Hne;
    [done| |].
  - cbn [fmap list_fmap join].
    rewrite <- (append_empty (join "," _)).
    by rewrite (csvLine_read r EmptyString (fun record => Some [record])).
  - specialize (IH ltac:(done)). rewrite fmap_cons in IH.
    rewrite !fmap_cons, join_cons, append_cons, append_nil.
    rewrite (csvLine_read r _
               (fun record =>
                  cons record
                    <$> csvRead FieldStart EmptyString []
                          (join (String lineFeed EmptyString)
                             (join "," ((fun h => csvCell h (property r2 h))
                                          <$> headers)
                              :: ((fun r => join ","
                                     ((fun h => csvCell h (property r h))
                                        <$> headers)) <$> rows)))))
      by done.
    by rewrite IH.
Qed.

End CsvFacts.

(** X18. The export can be read back.  For rows that are not empty and
    whose property names hold no comma, quote or line feed, a reader of
    comma-separated values finds in the text of [toCsv] the header of the
    names of the first row and then, for each row, the text of each of those
    properties, whatever commas, quotes or line feeds the values hold: the
    empty text for a property that is missing or null, and the words
    "Foto incluida" in place of a photo.  No row gives the empty text. *)
Theorem csv_export_round_trip (first : list (string * Js.Value))
    (rest : list (list (string * Js.Value))) :
  let rows := first :: rest in
  let headers := first.*1 in
  headers <> [] ->
  Forall (fun h => plainHeader h = true) headers ->
  readCsv (StaffPanel.toCsv rows)
  = Some (headers
          :: ((fun r => (fun h => cellText h (StaffPanel.property r h))
                          <$> headers) <$> rows))
  /\ StaffPanel.toCsv rows <> EmptyString
  /\ StaffPanel.toCsv [] = EmptyString
  /\ readCsv (StaffPanel.toCsv []) = Some [].
Proof.
  intros rows headers Hne Hplain. subst rows headers.
  assert (Hshape :
            StaffPanel.toCsv (first :: rest)
            = StaffPanel.join "," first.*1
              +:+ String lineFeed
                    (StaffPanel.join (String lineFeed EmptyString)
                       ((fun r => StaffPanel.join ","
                            ((fun h => StaffPanel.csvCell h
                                         (StaffPanel.property r h))
                               <$> first.*1)) <$> first :: rest))).
  { reflexivity. }
  split; [|split; [|done]].
  - unfold readCsv. rewrite Hshape.
    destruct (String.eqb_spec
                (StaffPanel.join "," first.*1
                 +:+ String lineFeed
                       (StaffPanel.join (String lineFeed EmptyString)
                          ((fun r => StaffPanel.join ","
                               ((fun h => StaffPanel.csvCell h
                                            (StaffPanel.property r h))
                                  <$> first.*1)) <$> first :: rest)))
                "") as [Hempty|_];
      [by apply append_not_empty in Hempty|].
    rewrite csvHeaders_read by done.
    by rewrite csvLines_read.
  - rewrite Hshape. apply append_not_empty.
Qed.

Lemma csv_export_round_trip_witness :
  readCsv (StaffPanel.toCsv sampleExport)
  = Some [["code"; "name"; "photo"; "active"];
          ["12300298"; "ANA"; "Foto incluida"; "true"];
          ["20250001";
           "LUIS " +:+ String quoteChar "LUCHO" +:+ String quoteChar ", hijo";
           ""; "false"]].
Proof.
  destruct (csv_export_round_trip
              [("code", Js.VString "12300298"); ("name", Js.VString "ANA");
               ("photo", Js.VString "data:image/png;base64,AAAA");
               ("active", Js.VBool true)]
              [[("code", Js.VString "20250001");
                ("name", Js.VString ("LUIS " +:+ String quoteChar "LUCHO"
                                     +:+ String quoteChar ", hijo"));
                ("photo", Js.VNull); ("active", Js.VBool false)]])
    as [Hread _].
  - discriminate.
  - repeat constructor.
  - exact Hread.
Defined.

(** ** The staff section of the panel *)


